(** * Genie Slack bot: the ask / poll / parse engine and the table formatter

    A shallow embedding of [genie_client.py] (class [GenieClient]) and of
    [slack_bot.py] (class [SlackGenieBot]).

    Python values are dynamically typed; the payloads the client receives are
    whatever [resp.json()] produced.  They are modelled by [pyval] below, and
    every primitive the source applies to them ([.get], [in], indexing,
    iteration, [len], [str], truthiness) is written out with the exception
    Python raises when the receiver has the wrong type.

    Conventions.
    - A Python [str] is a Rocq [string]; one [ascii] stands for one code
      point, so the model covers the code points below 256.
    - JSON numbers are integers ([Z]); floats are not modelled.
    - A [dict] is the list of its items in insertion order; keys are assumed
      distinct and lookup takes the first match.
    - The HTTP session and the Slack client are oracles: functions of the
      history of calls made so far.  The clock only moves in [time.sleep]. *)

From Stdlib Require Import ZArith String Ascii List Lia Bool.
From stdpp Require Import base option list strings gmap pretty.

Local Open Scope string_scope.
Local Open Scope list_scope.
Local Open Scope Z_scope.

(** ** Python values *)

#[warnings="-register-all"]
Inductive pyval : Type :=
| VNone
| VBool (b : bool)
| VInt (z : Z)
| VStr (s : string)
| VList (l : list pyval)
| VDict (kv : list (string * pyval)).

Inductive exn : Type :=
| AttributeError | TypeError | KeyError | IndexError | ValueError | SlackApiError.

(** Outcome of running a piece of Python: a value, an uncaught exception, or
    a loop that was still running when the fuel of the model ran out. *)
Inductive res (A : Type) : Type :=
| Ok (a : A)
| Raise (e : exn)
| OutOfFuel.
Arguments Ok {A} a.
Arguments Raise {A} e.
Arguments OutOfFuel {A}.

Definition rbind {A B} (r : res A) (k : A -> res B) : res B :=
  match r with
  | Ok a => k a
  | Raise e => Raise e
  | OutOfFuel => OutOfFuel
  end.

Notation "'let?' x ':=' r 'in' k" := (rbind r (fun x => k))
  (at level 10, x name, r at level 100, k at level 200).

(** *** Characters and strings *)

Definition NL : ascii := ascii_of_nat 10.
Definition SQUOTE : ascii := ascii_of_nat 39.
Definition DQUOTE : ascii := ascii_of_nat 34.
Definition BACKSLASH : ascii := ascii_of_nat 92.
Definition SPACE : ascii := ascii_of_nat 32.

Definition nl : string := String NL "".

(** [str.isspace] on the code points below 256. *)
Definition is_space (c : ascii) : bool :=
  let n := nat_of_ascii c in
  ((9 <=? n) && (n <=? 13) || (28 <=? n) && (n <=? 32)
   || (n =? 133) || (n =? 160))%nat.

Fixpoint lstrip (s : string) : string :=
  match s with
  | String c s' => if is_space c then lstrip s' else s
  | EmptyString => EmptyString
  end.

Fixpoint rstrip (s : string) : string :=
  match s with
  | EmptyString => EmptyString
  | String c s' =>
      match rstrip s' with
      | EmptyString => if is_space c then EmptyString else String c EmptyString
      | r => String c r
      end
  end.

(** [s.strip()] *)
Definition strip (s : string) : string := rstrip (lstrip s).

(** [sep.join(parts)] on strings *)
Fixpoint join (sep : string) (parts : list string) : string :=
  match parts with
  | [] => ""
  | [x] => x
  | x :: rest => x +:+ sep +:+ join sep rest
  end.

(** [s[:w]] for a width [w >= 0] *)
Fixpoint str_take (w : nat) (s : string) : string :=
  match w, s with
  | S w', String c s' => String c (str_take w' s')
  | _, _ => EmptyString
  end.

(** [c * n] for a one-character string *)
Fixpoint str_repeat (c : ascii) (n : nat) : string :=
  match n with
  | O => EmptyString
  | S n' => String c (str_repeat c n')
  end.

(** [s.ljust(w)] *)
Definition ljust (w : nat) (s : string) : string :=
  s +:+ str_repeat SPACE (w - String.length s).

Fixpoint str_mem (c : ascii) (s : string) : bool :=
  match s with
  | EmptyString => false
  | String d s' => Ascii.eqb c d || str_mem c s'
  end.

(** [needle in s] for two strings *)
Fixpoint is_substring (needle s : string) : bool :=
  String.prefix needle s
  || match s with
     | EmptyString => false
     | String _ s' => is_substring needle s'
     end.

(** *** [repr] and [str] *)

Definition hex_digit (n : nat) : ascii :=
  match String.get n "0123456789abcdef" with
  | Some c => c
  | None => "0"%char
  end.

Definition is_printable (n : nat) : bool :=
  ((32 <=? n) && (n <? 127) || (161 <=? n) && negb (n =? 173))%nat.

Definition repr_char (quote c : ascii) : string :=
  let n := nat_of_ascii c in
  if Ascii.eqb c quote || Ascii.eqb c BACKSLASH then String BACKSLASH (String c "")
  else if (n =? 9)%nat then String BACKSLASH "t"
  else if (n =? 10)%nat then String BACKSLASH "n"
  else if (n =? 13)%nat then String BACKSLASH "r"
  else if is_printable n then String c ""
  else String BACKSLASH
         (String "x" (String (hex_digit (n / 16)) (String (hex_digit (n mod 16)) ""))).

Fixpoint repr_chars (quote : ascii) (s : string) : string :=
  match s with
  | EmptyString => EmptyString
  | String c s' => repr_char quote c +:+ repr_chars quote s'
  end.

(** [repr(s)] for a string: single quotes unless the string holds a single
    quote and no double quote. *)
Definition repr_str (s : string) : string :=
  let quote := if str_mem SQUOTE s && negb (str_mem DQUOTE s) then DQUOTE else SQUOTE in
  String quote (repr_chars quote s) +:+ String quote "".

Fixpoint py_repr (v : pyval) : string :=
  match v with
  | VNone => "None"
  | VBool true => "True"
  | VBool false => "False"
  | VInt z => pretty z
  | VStr s => repr_str s
  | VList l => "[" +:+ join ", " (map py_repr l) +:+ "]"
  | VDict kv =>
      "{" +:+ join ", " (map (fun p => repr_str (fst p) +:+ ": " +:+ py_repr (snd p)) kv)
          +:+ "}"
  end.

(** [str(v)] *)
Definition py_str (v : pyval) : string :=
  match v with
  | VStr s => s
  | _ => py_repr v
  end.

(** *** Truthiness, dictionaries, iteration *)

Definition truthy (v : pyval) : bool :=
  match v with
  | VNone => false
  | VBool b => b
  | VInt z => negb (Z.eqb z 0)
  | VStr s => negb (String.eqb s "")
  | VList l => match l with [] => false | _ => true end
  | VDict kv => match kv with [] => false | _ => true end
  end.

Fixpoint dict_get (kv : list (string * pyval)) (k : string) : option pyval :=
  match kv with
  | [] => None
  | (k', v) :: rest => if String.eqb k' k then Some v else dict_get rest k
  end.

(** [v.get(k, d)]: only a dict has the method. *)
Definition py_get (v : pyval) (k : string) (d : pyval) : res pyval :=
  match v with
  | VDict kv => Ok (default d (dict_get kv k))
  | _ => Raise AttributeError
  end.

Definition is_str (s : string) (v : pyval) : bool :=
  match v with
  | VStr t => String.eqb t s
  | _ => false
  end.

(** [k in v] for a string [k]: key test on a dict, substring test on a
    string, element test on a list. *)
Definition py_in (k : string) (v : pyval) : res bool :=
  match v with
  | VDict kv => Ok (bool_decide (is_Some (dict_get kv k)))
  | VStr s => Ok (is_substring k s)
  | VList l => Ok (existsb (is_str k) l)
  | _ => Raise TypeError
  end.

(** [v[k]] for a string [k] *)
Definition py_getitem (v : pyval) (k : string) : res pyval :=
  match v with
  | VDict kv => match dict_get kv k with Some x => Ok x | None => Raise KeyError end
  | _ => Raise TypeError
  end.

Fixpoint str_chars (s : string) : list pyval :=
  match s with
  | EmptyString => []
  | String c s' => VStr (String c "") :: str_chars s'
  end.

(** The elements a [for] loop, [enumerate] or [zip] draws from [v]. *)
Definition py_iter (v : pyval) : res (list pyval) :=
  match v with
  | VList l => Ok l
  | VStr s => Ok (str_chars s)
  | VDict kv => Ok (map (fun p => VStr (fst p)) kv)
  | _ => Raise TypeError
  end.

(** [len(v)] *)
Definition py_len (v : pyval) : res nat :=
  match v with
  | VStr s => Ok (String.length s)
  | VList l => Ok (length l)
  | VDict kv => Ok (length kv)
  | _ => Raise TypeError
  end.

(** The bound of a slice [xs[:m]] on a sequence of length [n]. *)
Definition slice_stop (n : nat) (m : Z) : nat :=
  if Z.ltb m 0 then Z.to_nat (Z.of_nat n + m) else Z.to_nat m.

(** [v[:m]]; slicing a dict raises (TypeError, KeyError from Python 3.12
    on), as does slicing a number or [None]. *)
Definition py_slice_to (v : pyval) (m : Z) : res pyval :=
  match v with
  | VList l => Ok (VList (take (slice_stop (length l) m) l))
  | VStr s => Ok (VStr (str_take (slice_stop (String.length s) m) s))
  | _ => Raise TypeError
  end.

(** ** The outside world *)

(** The five endpoints of the Genie REST API the client calls.  The ids are
    kept as the values the client interpolates into the path; the rating of
    a feedback is kept as the code points of the text sent. *)
Inductive Request : Type :=
| StartConversation (question : string)
| CreateMessage (conversation_id : pyval) (question : string)
| GetMessage (conversation_id message_id : pyval)
| GetQueryResult (conversation_id message_id attachment_id : pyval)
| SendFeedback (conversation_id message_id : pyval) (rating : list N).

(** Outbound Slack calls: [say], [client.chat_postMessage] (plain or with the
    two feedback buttons) and [client.chat_update]. *)
Inductive SlackCall : Type :=
| Say (text : pyval) (thread_ts : string)
| ChatPostMessage (channel text thread_ts : string) (buttons : bool)
| ChatUpdate (channel ts : option string) (text : string).

(** [session] gives what [_request] returns for the last request of a
    history: [VNone] when the call failed (HTTP error, any exception, a null
    body), [VDict []] for an empty body, the decoded JSON otherwise. *)
Record GenieClient : Type := {
  poll_interval : Z;
  max_wait : Z;
  session : list Request -> pyval;
}.

(** [client] answers the last Slack call of a history: [None] when the call
    raises, [Some ts] for a response whose ["ts"] entry is [ts].  A response
    object is truthy, so [if fb_resp:] only tests for [None]. *)
Record SlackGenieBot : Type := {
  genie : GenieClient;
  client : list SlackCall -> option (option string);
}.

(** What changes while the bot runs: the clock, the calls made so far (oldest
    first) and the two dictionaries of the bot. *)
Record State : Type := {
  now : Z;
  requests : list Request;
  slack_calls : list SlackCall;
  thread_conversations : gmap string pyval;
  feedback_map : gmap (option string) (pyval * pyval);
}.

Definition M (A : Type) : Type := State -> res A * State.

Definition ret {A} (a : A) : M A := fun st => (Ok a, st).

Definition bind {A B} (m : M A) (k : A -> M B) : M B :=
  fun st =>
    match m st with
    | (Ok a, st') => k a st'
    | (Raise e, st') => (Raise e, st')
    | (OutOfFuel, st') => (OutOfFuel, st')
    end.

Definition lift {A} (r : res A) : M A := fun st => (r, st).

Notation "'let*' x ':=' m 'in' k" := (bind m (fun x => k))
  (at level 10, x name, m at level 100, k at level 200).

(** [time.time()] *)
Definition time_time : M Z := fun st => (Ok (now st), st).

(** [time.sleep(n)] *)
Definition time_sleep (n : Z) : M unit :=
  fun st =>
    if Z.ltb n 0 then (Raise ValueError, st)
    else (Ok tt, {| now := now st + n; requests := requests st;
                    slack_calls := slack_calls st;
                    thread_conversations := thread_conversations st;
                    feedback_map := feedback_map st |}).

(** ** genie_client.py *)

Definition _request (self : GenieClient) (req : Request) : M pyval :=
  fun st =>
    let history := requests st ++ [req] in
    (Ok (session self history),
     {| now := now st; requests := history; slack_calls := slack_calls st;
        thread_conversations := thread_conversations st;
        feedback_map := feedback_map st |}).

Definition start_conversation (self : GenieClient) (question : string) : M pyval :=
  _request self (StartConversation question).

Definition create_message (self : GenieClient) (conversation_id : pyval)
    (question : string) : M pyval :=
  _request self (CreateMessage conversation_id question).

Definition get_message (self : GenieClient) (conversation_id message_id : pyval) : M pyval :=
  _request self (GetMessage conversation_id message_id).

Definition get_query_result (self : GenieClient)
    (conversation_id message_id attachment_id : pyval) : M pyval :=
  _request self (GetQueryResult conversation_id message_id attachment_id).

(** [rating.upper()], code point by code point.  Below 256 the letters with
    an upper-case form are a-z, the micro sign (181, to the Greek capital mu),
    the sharp s (223, to two letters S), 224-254 except the division sign
    (247), and y with diaeresis (255, to code point 376).  The result can
    leave the code points below 256 and can be longer than the text, so it is
    a list of code points. *)
Definition upper_char (c : ascii) : list N :=
  let n := N_of_ascii c in
  if N.leb 97 n && N.leb n 122 then [N.sub n 32]
  else if N.eqb n 181 then [924%N]
  else if N.eqb n 223 then [83%N; 83%N]
  else if N.leb 224 n && N.leb n 254 && negb (N.eqb n 247) then [N.sub n 32]
  else if N.eqb n 255 then [376%N]
  else [n].

Fixpoint upper (s : string) : list N :=
  match s with
  | EmptyString => []
  | String c s' => upper_char c ++ upper s'
  end.

Definition is_none (v : pyval) : bool :=
  match v with VNone => true | _ => false end.

Definition send_feedback (self : GenieClient) (conversation_id message_id : pyval)
    (rating : string) : M bool :=
  let* result := _request self (SendFeedback conversation_id message_id (upper rating)) in
  ret (negb (is_none result)).

(** The [while] loop of [_poll_until_done]; one unit of fuel per test of the
    loop condition. *)
Fixpoint poll_loop (self : GenieClient) (fuel : nat) (deadline : Z)
    (conversation_id message_id : pyval) : M pyval :=
  match fuel with
  | O => lift OutOfFuel
  | S fuel' =>
      let* t := time_time in
      if Z.ltb t deadline then
        let* msg := get_message self conversation_id message_id in
        if is_none msg then ret VNone
        else
          let* status := lift (py_get msg "status" VNone) in
          if is_str "COMPLETED" status then ret msg
          else if is_str "FAILED" status || is_str "CANCELLED" status then ret msg
          else
            let* _ := time_sleep (poll_interval self) in
            poll_loop self fuel' deadline conversation_id message_id
      else ret VNone
  end.

Definition _poll_until_done (self : GenieClient) (fuel : nat)
    (conversation_id message_id : pyval) : M pyval :=
  let* t := time_time in
  poll_loop self fuel (t + max_wait self) conversation_id message_id.

(** The local variables of the attachment loop of [_parse_response]. *)
Record ParseAcc : Type := {
  text_parts : list pyval;
  sql_text : pyval;
  result_data : pyval;
}.

(** One iteration of [for att in attachments]. *)
Definition parse_attachment (self : GenieClient) (conversation_id message_id : pyval)
    (acc : ParseAcc) (att : pyval) : M ParseAcc :=
  let* has_text := lift (py_in "text" att) in
  let* parts :=
    if has_text : bool then
      let* text := lift (py_getitem att "text") in
      let* content := lift (py_get text "content" (VStr "")) in
      ret (if truthy content then text_parts acc ++ [content] else text_parts acc)
    else ret (text_parts acc) in
  let* has_query := lift (py_in "query" att) in
  if has_query : bool then
    let* query_info := lift (py_getitem att "query") in
    let* description := lift (py_get query_info "description" (VStr "")) in
    let parts := if truthy description then parts ++ [description] else parts in
    let* sql := lift (py_get query_info "query" VNone) in
    let* attachment_id := lift (py_get att "attachment_id" VNone) in
    if truthy attachment_id then
      let* qr := get_query_result self conversation_id message_id attachment_id in
      ret {| text_parts := parts; sql_text := sql;
             result_data := if truthy qr then qr else result_data acc |}
    else ret {| text_parts := parts; sql_text := sql; result_data := result_data acc |}
  else ret {| text_parts := parts; sql_text := sql_text acc; result_data := result_data acc |}.

Fixpoint parse_attachments (self : GenieClient) (conversation_id message_id : pyval)
    (acc : ParseAcc) (attachments : list pyval) : M ParseAcc :=
  match attachments with
  | [] => ret acc
  | att :: rest =>
      let* acc' := parse_attachment self conversation_id message_id acc att in
      parse_attachments self conversation_id message_id acc' rest
  end.

(** [sep.join(parts)] on values: every part has to be a string. *)
Fixpoint py_join (sep : string) (parts : list pyval) : res string :=
  match parts with
  | [] => Ok ""
  | VStr x :: rest =>
      let? r := py_join sep rest in
      Ok (match rest with [] => x | _ => x +:+ sep +:+ r end)
  | _ :: _ => Raise TypeError
  end.

(** [v.strip()] *)
Definition py_strip (v : pyval) : res pyval :=
  match v with
  | VStr s => Ok (VStr (strip s))
  | _ => Raise AttributeError
  end.

Definition _parse_response (self : GenieClient) (conversation_id message_id msg : pyval)
    : M pyval :=
  let* status := lift (py_get msg "status" VNone) in
  if negb (is_str "COMPLETED" status) then
    let* error_detail := lift (py_get msg "error" (VDict [])) in
    let* error_msg :=
      match error_detail with
      | VDict _ => lift (py_get error_detail "message" (VStr "Unknown error"))
      | _ => ret (VStr (py_str error_detail))
      end in
    ret (VDict [("success", VBool false);
                ("conversation_id", conversation_id);
                ("message_id", message_id);
                ("error", error_msg)])
  else
    let* a0 := lift (py_get msg "attachments" VNone) in
    let attachments := if truthy a0 then a0 else VList [] in
    let* atts := lift (py_iter attachments) in
    let* acc := parse_attachments self conversation_id message_id
                  {| text_parts := []; sql_text := VNone; result_data := VNone |} atts in
    let* joined := lift (py_join (nl +:+ nl) (text_parts acc)) in
    let* response_text :=
      if negb (String.eqb joined "") then ret (VStr joined)
      else lift (py_get msg "content" (VStr "")) in
    let* text := lift (py_strip response_text) in
    ret (VDict [("success", VBool true);
                ("conversation_id", conversation_id);
                ("message_id", message_id);
                ("text", text);
                ("sql", sql_text acc);
                ("result_data", result_data acc);
                ("attachments", attachments);
                ("error", VNone)]).

(** The ids [cid] and [mid] that [ask] reads from the response [raw]:
    [message_data.get("conversation_id") or conv_data.get("id") or
    conversation_id] and [message_data.get("id") or raw.get("id")]. *)
Definition extract_ids (raw conversation_id : pyval) : res (pyval * pyval) :=
  let? message_data := py_get raw "message" raw in
  let? conv_data := py_get raw "conversation" (VDict []) in
  let? c1 := py_get message_data "conversation_id" VNone in
  let? cid :=
    if truthy c1 then Ok c1
    else
      let? c2 := py_get conv_data "id" VNone in
      Ok (if truthy c2 then c2 else conversation_id) in
  let? m1 := py_get message_data "id" VNone in
  let? mid := if truthy m1 then Ok m1 else py_get raw "id" VNone in
  Ok (cid, mid).

(** The request [ask] opens with. *)
Definition send_request (question : string) (conversation_id : pyval) : Request :=
  if truthy conversation_id then CreateMessage conversation_id question
  else StartConversation question.

Definition ask (self : GenieClient) (fuel : nat) (question : string)
    (conversation_id : pyval) : M pyval :=
  let* raw :=
    if truthy conversation_id then create_message self conversation_id question
    else start_conversation self question in
  if is_none raw then
    ret (VDict [("success", VBool false);
                ("conversation_id", conversation_id);
                ("error", VStr "Failed to send message to Genie")])
  else
    let* ids := lift (extract_ids raw conversation_id) in
    let cid := fst ids in
    let mid := snd ids in
    if negb (truthy cid) || negb (truthy mid) then
      ret (VDict [("success", VBool false);
                  ("conversation_id", conversation_id);
                  ("error", VStr "Could not extract conversation/message IDs from response")])
    else
      let* completed := _poll_until_done self fuel cid mid in
      if is_none completed then
        ret (VDict [("success", VBool false);
                    ("conversation_id", cid);
                    ("message_id", mid);
                    ("error", VStr "Timed out waiting for Genie response")])
      else _parse_response self cid mid completed.

(** ** slack_bot.py *)

(** The fields of an inbound Slack event the bot reads; [None] is a missing
    key.  Slack delivers them as strings. *)
Record Event : Type := {
  ev_bot_id : option string;
  ev_text : option string;
  ev_channel : option string;
  ev_thread_ts : option string;
  ev_ts : option string;
}.

(** The fields of an action payload the bot reads: [body["message"]["ts"]]
    and [body["channel"]["id"]]. *)
Record ActionBody : Type := {
  body_message_ts : option string;
  body_channel_id : option string;
}.

(** *** [_strip_mention] *)

Definition is_mention_char (c : ascii) : bool :=
  let n := nat_of_ascii c in
  ((65 <=? n) && (n <=? 90) || (48 <=? n) && (n <=? 57))%nat.

Fixpoint id_run (s : string) : nat :=
  match s with
  | String c s' => if is_mention_char c then S (id_run s') else O
  | EmptyString => O
  end.

(** Length of the match of [<@[A-Z0-9]+>] at the start of [s], if any. *)
Definition mention_len (s : string) : option nat :=
  match s with
  | String "<" (String "@" rest) =>
      let n := id_run rest in
      match String.get n rest with
      | Some ">"%char => if (0 <? n)%nat then Some (n + 3)%nat else None
      | _ => None
      end
  | _ => None
  end.

(** [re.sub(r"<@[A-Z0-9]+>", "", s)]; [skip] counts the characters of the
    current match still to drop. *)
Fixpoint re_sub_mentions (skip : nat) (s : string) : string :=
  match s with
  | EmptyString => EmptyString
  | String c s' =>
      match skip with
      | S k => re_sub_mentions k s'
      | O =>
          match mention_len s with
          | Some n => re_sub_mentions (n - 1) s'
          | None => String c (re_sub_mentions 0 s')
          end
      end
  end.

Definition _strip_mention (text : string) : string :=
  strip (re_sub_mentions 0 text).

(** *** [_format_answer] *)

Definition _format_answer (result : pyval) : res pyval :=
  let? success := py_get result "success" VNone in
  if negb (truthy success) then
    let? error := py_get result "error" (VStr "unknown error") in
    Ok (VStr ("Sorry, something went wrong: " +:+ py_str error))
  else
    let? text := py_get result "text" VNone in
    Ok (if truthy text then text else VStr "Query executed successfully.").

(** *** [_format_query_result] *)

(** [str(v) if v is not None else ""] *)
Definition cell_text (v : pyval) : string :=
  if is_none v then "" else py_str v.

(** [for i, val in enumerate(row): widths[i] = max(widths[i], len(...))],
    from index [i] on. *)
Fixpoint update_widths (widths : list nat) (i : nat) (vals : list pyval)
    : res (list nat) :=
  match vals with
  | [] => Ok widths
  | val :: rest =>
      match widths !! i with
      | None => Raise IndexError
      | Some w =>
          update_widths (<[i := Nat.max w (String.length (cell_text val))]> widths)
                        (S i) rest
      end
  end.

(** [for row in display_rows: ...] *)
Fixpoint widths_loop (widths : list nat) (display_rows : list pyval) : res (list nat) :=
  match display_rows with
  | [] => Ok widths
  | row :: rest =>
      let? vals := py_iter row in
      let? widths' := update_widths widths 0 vals in
      widths_loop widths' rest
  end.

(** [s[:w].ljust(w)] *)
Definition fmt_cell (v : pyval) (w : nat) : string :=
  ljust w (str_take w (cell_text v)).

(** The inner function [fmt_row], on the elements [zip] draws from [values]. *)
Definition fmt_row (widths : list nat) (values : list pyval) : string :=
  join " | " (zip_with fmt_cell values widths).

Fixpoint fmt_rows (widths : list nat) (display_rows : list pyval) : res (list string) :=
  match display_rows with
  | [] => Ok []
  | row :: rest =>
      let? vals := py_iter row in
      let? lines := fmt_rows widths rest in
      Ok (fmt_row widths vals :: lines)
  end.

(** [[c.get("name", f"col_{i}") for i, c in enumerate(columns_meta)]], from
    index [i] on. *)
Fixpoint col_names_from (i : nat) (columns : list pyval) : res (list pyval) :=
  match columns with
  | [] => Ok []
  | c :: rest =>
      let? n := py_get c "name" (VStr ("col_" +:+ pretty i)) in
      let? ns := col_names_from (S i) rest in
      Ok (n :: ns)
  end.

(** [[len(n) for n in col_names]] *)
Fixpoint lens (names : list pyval) : res (list nat) :=
  match names with
  | [] => Ok []
  | n :: rest =>
      let? k := py_len n in
      let? ks := lens rest in
      Ok (k :: ks)
  end.

(** [total > max_rows] *)
Definition py_gt (total : pyval) (max_rows : Z) : res bool :=
  match total with
  | VInt z => Ok (Z.ltb max_rows z)
  | VBool b => Ok (Z.ltb max_rows (if b then 1 else 0))
  | _ => Raise TypeError
  end.

(** The local variables [widths] (after the cap) and [lines]. *)
Definition table_layout (columns_meta rows : pyval) (max_rows : Z)
    : res (list nat * list string) :=
  let? columns := py_iter columns_meta in
  let? col_names := col_names_from 0 columns in
  let? widths := lens col_names in
  let? sliced := py_slice_to rows max_rows in
  let? display_rows := py_iter sliced in
  let? widths := widths_loop widths display_rows in
  let widths := map (fun w => Nat.min w 30) widths in
  let header := fmt_row widths col_names in
  let separator := join "-+-" (map (str_repeat "-") widths) in
  let? body := fmt_rows widths display_rows in
  Ok (widths, header :: separator :: body).

Definition fence : string := "```".

Definition _format_query_result (result_data : pyval) (max_rows : Z)
    : res (option string) :=
  let? manifest := py_get result_data "manifest" (VDict []) in
  let? schema := py_get manifest "schema" (VDict []) in
  let? columns_meta := py_get schema "columns" (VList []) in
  let? data_section := py_get result_data "result" (VDict []) in
  let? rows := py_get data_section "data_array" (VList []) in
  if negb (truthy rows) || negb (truthy columns_meta) then Ok None
  else
    let? layout := table_layout columns_meta rows max_rows in
    let? n := py_len rows in
    let? total := py_get data_section "row_count" (VInt (Z.of_nat n)) in
    let? more := py_gt total max_rows in
    let footer :=
      if more : bool
      then nl +:+ "_Showing " +:+ pretty max_rows +:+ " of " +:+ py_str total +:+ " rows_"
      else "" in
    Ok (Some ("*Query Results:*" +:+ nl +:+ fence +:+ nl +:+ join nl (snd layout)
              +:+ nl +:+ fence +:+ footer)).

(** *** Handlers *)

Definition slack_call (self : SlackGenieBot) (c : SlackCall) : M (option string) :=
  fun st =>
    let history := slack_calls st ++ [c] in
    (match client self history with
     | Some response => Ok response
     | None => Raise SlackApiError
     end,
     {| now := now st; requests := requests st; slack_calls := history;
        thread_conversations := thread_conversations st;
        feedback_map := feedback_map st |}).

(** [try: m except Exception: handler] *)
Definition try_except {A} (m : M A) (handler : M A) : M A :=
  fun st =>
    match m st with
    | (Raise _, st') => handler st'
    | other => other
    end.

Definition _send_feedback_buttons (self : SlackGenieBot) (channel thread_ts : string)
    : M (option (option string)) :=
  try_except
    (let* response := slack_call self
       (ChatPostMessage channel "Was this response helpful?" thread_ts true) in
     ret (Some response))
    (ret None).

Definition get_thread_conversation (thread_ts : string) : M pyval :=
  fun st => (Ok (default VNone (thread_conversations st !! thread_ts)), st).

Definition set_thread_conversation (thread_ts : string) (conversation_id : pyval) : M unit :=
  fun st =>
    (Ok tt,
     {| now := now st; requests := requests st; slack_calls := slack_calls st;
        thread_conversations := <[thread_ts := conversation_id]> (thread_conversations st);
        feedback_map := feedback_map st |}).

Definition set_feedback (ts : option string) (info : pyval * pyval) : M unit :=
  fun st =>
    (Ok tt,
     {| now := now st; requests := requests st; slack_calls := slack_calls st;
        thread_conversations := thread_conversations st;
        feedback_map := <[ts := info]> (feedback_map st) |}).

Definition get_feedback (ts : option string) : M (option (pyval * pyval)) :=
  fun st => (Ok (feedback_map st !! ts), st).

Definition str_truthy (o : option string) : bool :=
  match o with
  | Some s => negb (String.eqb s "")
  | None => false
  end.

(** [d[key]] on an event *)
Definition require (o : option string) : res string :=
  match o with
  | Some s => Ok s
  | None => Raise KeyError
  end.

Definition say (self : SlackGenieBot) (text : pyval) (thread_ts : string) : M unit :=
  let* _ := slack_call self (Say text thread_ts) in ret tt.

Definition when (b : bool) (m : M unit) : M unit := if b then m else ret tt.

Definition _handle_question (self : SlackGenieBot) (fuel : nat) (event : Event) : M unit :=
  if str_truthy (ev_bot_id event) then ret tt
  else
    let text := _strip_mention (default "" (ev_text event)) in
    let* channel := lift (require (ev_channel event)) in
    let* thread_ts :=
      if str_truthy (ev_thread_ts event) then ret (default "" (ev_thread_ts event))
      else lift (require (ev_ts event)) in
    if String.eqb (strip text) "" then
      say self (VStr "Please ask me a question about your data!") thread_ts
    else
      let* _ := slack_call self (ChatPostMessage channel "Thinking..." thread_ts false) in
      let* conversation_id := get_thread_conversation thread_ts in
      let* result := ask (genie self) fuel text conversation_id in
      let* result_cid := lift (py_get result "conversation_id" VNone) in
      let* _ := when (truthy result_cid)
                  (let* cid := lift (py_getitem result "conversation_id") in
                   set_thread_conversation thread_ts cid) in
      let* answer := lift (_format_answer result) in
      let* _ := say self answer thread_ts in
      let* data := lift (py_get result "result_data" VNone) in
      let* _ := when (truthy data)
                  (let* data := lift (py_getitem result "result_data") in
                   let* table_msg := lift (_format_query_result data 15) in
                   when (str_truthy table_msg)
                     (say self (VStr (default "" table_msg)) thread_ts)) in
      let* success := lift (py_get result "success" VNone) in
      let* message_id := lift (py_get result "message_id" VNone) in
      when (truthy success && truthy result_cid && truthy message_id)
        (let* fb_resp := _send_feedback_buttons self channel thread_ts in
         match fb_resp with
         | Some response => set_feedback response (result_cid, message_id)
         | None => ret tt
         end).

Definition _handle_feedback (self : SlackGenieBot) (body : ActionBody) (rating : string)
    : M unit :=
  let msg_ts := body_message_ts body in
  let channel := body_channel_id body in
  let* info := get_feedback msg_ts in
  match info with
  | None => ret tt
  | Some (conversation_id, message_id) =>
      let* success := send_feedback (genie self) conversation_id message_id rating in
      let label := if success : bool then "Thanks for your feedback!"
                   else "Failed to submit feedback." in
      try_except
        (let* _ := slack_call self (ChatUpdate channel msg_ts label) in ret tt)
        (ret tt)
  end.

(** ** Vocabulary of the statements *)

(** The state after [reqs] more requests and [dt] more seconds. *)
Definition advance (st : State) (dt : Z) (reqs : list Request) : State :=
  {| now := now st + dt; requests := requests st ++ reqs;
     slack_calls := slack_calls st;
     thread_conversations := thread_conversations st;
     feedback_map := feedback_map st |}.

(** A status payload that keeps the poll loop going: a dict whose status is
    none of COMPLETED, FAILED, CANCELLED. *)
Definition pending (msg : pyval) : bool :=
  match msg with
  | VDict kv =>
      let status := default VNone (dict_get kv "status") in
      negb (is_str "COMPLETED" status || is_str "FAILED" status
            || is_str "CANCELLED" status)
  | _ => false
  end.

(** A status payload that ends the poll loop: a dict whose status is one of
    COMPLETED, FAILED, CANCELLED. *)
Definition terminal (msg : pyval) : bool :=
  match msg with
  | VDict kv =>
      let status := default VNone (dict_get kv "status") in
      is_str "COMPLETED" status || is_str "FAILED" status || is_str "CANCELLED" status
  | _ => false
  end.

(** Number of status checks before the deadline: the ceiling of
    [max_wait / poll_interval]. *)
Definition poll_budget (self : GenieClient) : nat :=
  Z.to_nat ((max_wait self + poll_interval self - 1) / poll_interval self).

Definition timeout_answer (cid mid : pyval) : pyval :=
  VDict [("success", VBool false);
         ("conversation_id", cid);
         ("message_id", mid);
         ("error", VStr "Timed out waiting for Genie response")].

(** The code points of a text. *)
Definition code_points (s : string) : list N :=
  map N_of_ascii (list_ascii_of_string s).

(** *** Attachments *)

(** The ["query"] entry of an attachment, if it is a query attachment. *)
Definition query_info (att : pyval) : option pyval :=
  match att with
  | VDict kv => dict_get kv "query"
  | _ => None
  end.

(** The query string of a query attachment ([VNone] when the entry is
    missing); [None] for any other attachment. *)
Definition att_sql (att : pyval) : option pyval :=
  match query_info att with
  | Some (VDict q) => Some (default VNone (dict_get q "query"))
  | _ => None
  end.

(** The attachment id of a query attachment that carries one. *)
Definition att_fetch_id (att : pyval) : option pyval :=
  match att with
  | VDict kv =>
      match dict_get kv "query" with
      | Some _ =>
          let a := default VNone (dict_get kv "attachment_id") in
          if truthy a then Some a else None
      | None => None
      end
  | _ => None
  end.

(** The text parts an attachment contributes, in order: the content of its
    text entry, then the description of its query entry, each when truthy. *)
Definition att_parts (att : pyval) : list pyval :=
  match att with
  | VDict kv =>
      (match dict_get kv "text" with
       | Some (VDict text) =>
           let content := default (VStr "") (dict_get text "content") in
           if truthy content then [content] else []
       | _ => []
       end)
      ++ (match dict_get kv "query" with
          | Some (VDict query) =>
              let description := default (VStr "") (dict_get query "description") in
              if truthy description then [description] else []
          | _ => []
          end)
  | _ => []
  end.

(** The attachments the loop of [_parse_response] visits:
    [msg.get("attachments") or []]. *)
Definition msg_attachments (msg : pyval) : res (list pyval) :=
  let? a0 := py_get msg "attachments" VNone in
  py_iter (if truthy a0 then a0 else VList []).

(** What the backend answers to the query-result fetches for [ids], sent one
    after the other from [history] on. *)
Fixpoint fetched (self : GenieClient) (cid mid : pyval) (history : list Request)
    (ids : list pyval) : list pyval :=
  match ids with
  | [] => []
  | a :: rest =>
      let history' := history ++ [GetQueryResult cid mid a] in
      session self history' :: fetched self cid mid history' rest
  end.

(** The last element of [l], or [d] when [l] is empty. *)
Definition last_or (d : pyval) (l : list pyval) : pyval := default d (last l).

(** *** Answers *)

(** The two shapes of the dict [ask] returns: a success carries
    ["error": None]; a failure carries an ["error"] entry and neither a
    ["text"] nor a ["result_data"] entry. *)
Definition answer_shape (result : pyval) : Prop :=
  exists kv,
    result = VDict kv
    /\ (dict_get kv "success" = Some (VBool true) /\ dict_get kv "error" = Some VNone
        \/ dict_get kv "success" = Some (VBool false)
           /\ is_Some (dict_get kv "error")
           /\ dict_get kv "text" = None
           /\ dict_get kv "result_data" = None).

(** *** Frames *)

(** [m] leaves the component [f] of the state as it was, however it ends. *)
Definition keeps {A X} (f : State -> X) (m : M A) : Prop :=
  forall st r st', m st = (r, st') -> f st' = f st.

(** The state after one more Slack call. *)
Definition posted (st : State) (c : SlackCall) : State :=
  {| now := now st; requests := requests st; slack_calls := slack_calls st ++ [c];
     thread_conversations := thread_conversations st;
     feedback_map := feedback_map st |}.

(** The thread an event belongs to: [event.get("thread_ts") or event["ts"]]. *)
Definition event_thread (event : Event) : option string :=
  if str_truthy (ev_thread_ts event) then ev_thread_ts event else ev_ts event.

(** The question an event carries, mention markup removed. *)
Definition event_question (event : Event) : string :=
  _strip_mention (default "" (ev_text event)).

(** *** Tables *)

(** The three values [_format_query_result] reads from its argument. *)
Definition qr_columns (result_data : pyval) : res pyval :=
  let? manifest := py_get result_data "manifest" (VDict []) in
  let? schema := py_get manifest "schema" (VDict []) in
  py_get schema "columns" (VList []).

Definition qr_rows (result_data : pyval) : res pyval :=
  let? data_section := py_get result_data "result" (VDict []) in
  py_get data_section "data_array" (VList []).

Definition qr_total (result_data : pyval) (n : nat) : res pyval :=
  let? data_section := py_get result_data "result" (VDict []) in
  py_get data_section "row_count" (VInt (Z.of_nat n)).

(** Length of the text of the [i]-th value of a row; 0 when the row is
    shorter. *)
Definition cell_len (vals : list pyval) (i : nat) : nat :=
  match vals !! i with
  | Some v => String.length (cell_text v)
  | None => O
  end.

(** The longest text in column [i] of the given rows. *)
Definition col_max (i : nat) (rows : list (list pyval)) : nat :=
  foldr (fun vals acc => Nat.max (cell_len vals i) acc) O rows.

(** One row's pass over the widths, in closed form. *)
Fixpoint bump (widths : list nat) (vals : list pyval) : list nat :=
  match widths, vals with
  | w :: ws, v :: vs => Nat.max w (String.length (cell_text v)) :: bump ws vs
  | ws, _ => ws
  end.

(** The text [_format_query_result] wraps around the lines of the table. *)
Definition render (lines : list string) (footer : string) : string :=
  "*Query Results:*" +:+ nl +:+ fence +:+ nl +:+ join nl lines
  +:+ nl +:+ fence +:+ footer.

(** The footer for a total above [max_rows]. *)
Definition showing (max_rows : Z) (total : pyval) : string :=
  nl +:+ "_Showing " +:+ pretty max_rows +:+ " of " +:+ py_str total +:+ " rows_".

(** A column description whose name, when it has one, has a length (a
    string, in a well-formed schema). *)
Definition name_ok (column : list (string * pyval)) : Prop :=
  forall v, dict_get column "name" = Some v -> exists k, py_len v = Ok k.

(** [display] lists the values each of [rows] yields when iterated. *)
Definition iterates (rows : list pyval) (display : list (list pyval)) : Prop :=
  Forall2 (fun row vals => py_iter row = Ok vals) rows display.

(** Number of lines of a text: [len(text.split(NL))]. *)
Fixpoint line_count (text : string) : nat :=
  match text with
  | EmptyString => 1%nat
  | String c rest => if Ascii.eqb c NL then S (line_count rest) else line_count rest
  end.

(** *** The table, in the words of the specification *)

(** The text a value is shown as: nothing for a null, its string form
    otherwise. *)
Definition spec_text (v : pyval) : string :=
  match v with
  | VNone => ""
  | _ => py_str v
  end.

(** [n] times the character [c]. *)
Definition spec_pad (c : ascii) (n : nat) : string :=
  string_of_list_ascii (repeat c n).

(** A cell of width [w]: the text followed by spaces up to the width when it
    fits (left-justified), its first [w] characters otherwise (truncated). *)
Definition spec_cell (w : nat) (text : string) : string :=
  if (String.length text <=? w)%nat
  then text +:+ spec_pad " " (w - String.length text)
  else substring 0 w text.

(** The cells of a line: one for each value that has a column. *)
Definition spec_cells (widths : list nat) (vals : list pyval) : list string :=
  zip_with (fun v w => spec_cell w (spec_text v)) vals widths.

Definition spec_line (widths : list nat) (vals : list pyval) : string :=
  String.concat " | " (spec_cells widths vals).

(** The separator: dashes sized to each column width. *)
Definition spec_separator (widths : list nat) : string :=
  String.concat "-+-" (map (spec_pad "-") widths).

(** The values of column [i] in the given rows; a row too short for the
    column has none. *)
Definition spec_column (i : nat) (rows : list (list pyval)) : list pyval :=
  omap (fun vals => vals !! i) rows.

(** The display width of a column: the larger of the header length and the
    longest value text, capped at 30. *)
Definition spec_width (header : nat) (values : list pyval) : nat :=
  Nat.min
    (Nat.max header
       (foldr Nat.max O (map (fun v => String.length (spec_text v)) values)))
    30.

(** Length of a table line that has the first [k] columns: the widths of
    those columns and a three-character separator between neighbours. *)
Definition line_width (widths : list nat) (k : nat) : nat :=
  (sum_list (take k widths) + 3 * (Nat.min k (length widths) - 1))%nat.

(** *** The handler, in two halves *)

(** What [_handle_question] does once the thread binding is updated: the
    answer, the table, the feedback prompt.  [bound] is the truthiness of the
    answer's conversation id. *)
Definition reply_steps (self : SlackGenieBot) (channel thread_ts : string)
    (result result_cid : pyval) (bound : bool) : M unit :=
  let* answer := lift (_format_answer result) in
  let* _ := say self answer thread_ts in
  let* data := lift (py_get result "result_data" VNone) in
  let* _ := when (truthy data)
              (let* data := lift (py_getitem result "result_data") in
               let* table_msg := lift (_format_query_result data 15) in
               when (str_truthy table_msg)
                 (say self (VStr (default "" table_msg)) thread_ts)) in
  let* success := lift (py_get result "success" VNone) in
  let* message_id := lift (py_get result "message_id" VNone) in
  when (truthy success && bound && truthy message_id)
    (let* fb_resp := _send_feedback_buttons self channel thread_ts in
     match fb_resp with
     | Some response => set_feedback response (result_cid, message_id)
     | None => ret tt
     end).

(** The state once the answer's conversation id, when truthy, is bound to
    the thread. *)
Definition bind_thread (st : State) (thread_ts : string) (result_cid : pyval) : State :=
  if truthy result_cid
  then {| now := now st; requests := requests st; slack_calls := slack_calls st;
          thread_conversations := <[thread_ts := result_cid]> (thread_conversations st);
          feedback_map := feedback_map st |}
  else st.

(** The Slack calls that follow the answer: the table, when the answer has
    result data that formats to a non-empty text, and the feedback prompt,
    when the answer is a success that carries both ids. *)
Definition table_calls (result : pyval) (thread_ts : string) : list SlackCall :=
  match py_get result "result_data" VNone with
  | Ok data =>
      if truthy data then
        match _format_query_result data 15 with
        | Ok (Some table) =>
            if String.eqb table "" then [] else [Say (VStr table) thread_ts]
        | _ => []
        end
      else []
  | _ => []
  end.

Definition prompt_calls (result : pyval) (channel thread_ts : string) : list SlackCall :=
  match py_get result "success" VNone, py_get result "conversation_id" VNone,
        py_get result "message_id" VNone with
  | Ok success, Ok cid, Ok mid =>
      if truthy success && truthy cid && truthy mid
      then [ChatPostMessage channel "Was this response helpful?" thread_ts true]
      else []
  | _, _, _ => []
  end.

(** *** Mentions *)

(** A user id as the mention pattern accepts it: upper-case letters and
    digits only. *)
Fixpoint is_user_id (id : string) : bool :=
  match id with
  | EmptyString => true
  | String c rest => is_mention_char c && is_user_id rest
  end.

(** The markup of a mention of [id]. *)
Definition mention (id : string) : string := "<@" +:+ id +:+ ">".

(** ** Scripted collaborators for the worked examples *)

(** A backend that answers the i-th request with the i-th entry of a script
    and fails once the script is used up. *)
Definition scripted (script : list pyval) : list Request -> pyval :=
  fun history => nth (length history - 1) script VNone.

(** A Slack client that accepts every call and numbers the messages. *)
Definition numbering_client : list SlackCall -> option (option string) :=
  fun history => Some (Some (pretty (length history))).

Definition st0 : State :=
  {| now := 0; requests := []; slack_calls := [];
     thread_conversations := ∅; feedback_map := ∅ |}.

(** The response to start-conversation or to a follow-up message. *)
Definition started (cid mid : string) : pyval :=
  VDict [("conversation", VDict [("id", VStr cid)]);
         ("message", VDict [("id", VStr mid); ("conversation_id", VStr cid)])].

Definition with_status (status : string) : pyval :=
  VDict [("status", VStr status)].

(** A query attachment and a text attachment as the backend sends them. *)
Definition query_attachment (sql attachment_id : string) : pyval :=
  VDict [("query", VDict [("query", VStr sql)]); ("attachment_id", VStr attachment_id)].

Definition text_attachment (content : string) : pyval :=
  VDict [("text", VDict [("content", VStr content)])].

Definition completed (attachments : list pyval) : pyval :=
  VDict [("status", VStr "COMPLETED"); ("attachments", VList attachments)].

(** A query result with the given column names and rows. *)
Definition query_result (names : list string) (rows : list (list pyval)) : pyval :=
  VDict [("manifest",
          VDict [("schema",
                  VDict [("columns", VList (map (fun n => VDict [("name", VStr n)]) names))])]);
         ("result", VDict [("data_array", VList (map VList rows))])].

(** A terminal FAILED payload whose error object has a null message. *)
Definition failed_null_message : pyval :=
  VDict [("status", VStr "FAILED"); ("error", VDict [("message", VNone)])].

(** Two questions in one Slack thread; the backend opens conversation c1 for
    the first and answers the follow-up under conversation c2. *)
Definition first_question : Event :=
  {| ev_bot_id := None; ev_text := Some "<@U123ABC> total revenue?";
     ev_channel := Some "C1"; ev_thread_ts := None; ev_ts := Some "1700000000.000100" |}.

Definition follow_up : Event :=
  {| ev_bot_id := None; ev_text := Some "and by region?";
     ev_channel := Some "C1"; ev_thread_ts := Some "1700000000.000100";
     ev_ts := Some "1700000060.000200" |}.

Definition drifting_bot : SlackGenieBot :=
  {| genie := {| poll_interval := 2; max_wait := 90;
                 session := scripted [started "c1" "m1";
                                      completed [text_attachment "42"];
                                      started "c2" "m2";
                                      completed [text_attachment "by region: ..."]] |};
     client := numbering_client |}.

(** A backend that opens conversation c1 and answers the follow-up with the
    bare message, which carries no conversation id. *)
Definition steady_bot : SlackGenieBot :=
  {| genie := {| poll_interval := 2; max_wait := 90;
                 session := scripted [started "c1" "m1";
                                      completed [text_attachment "42"];
                                      VDict [("id", VStr "m2")];
                                      completed [text_attachment "by region: ..."]] |};
     client := numbering_client |}.

(** * Theorems *)

(** ** Sanity checks on concrete inputs *)

Example strip_mention_example :
  _strip_mention "<@U123ABC> what is total revenue?" = "what is total revenue?".
Proof. reflexivity. Qed.

(** Upper-casing a rating: the ratings of the two buttons are sent as they
    are, and the letters above the ASCII range have their upper-case forms
    (e acute, sharp s, micro sign, y with diaeresis; not the division sign). *)
Example upper_examples :
  upper "POSITIVE" = code_points "POSITIVE"
  /\ upper "negative" = code_points "NEGATIVE"
  /\ upper (String (ascii_of_nat 233) "") = [201%N]
  /\ upper (String (ascii_of_nat 223) "") = [83%N; 83%N]
  /\ upper (String (ascii_of_nat 181) "") = [924%N]
  /\ upper (String (ascii_of_nat 255) "") = [376%N]
  /\ upper (String (ascii_of_nat 247) "") = [247%N].
Proof. vm_compute. repeat split. Qed.

(** One query attachment "SELECT 1" whose result has column x and rows 1, 2,
    3: the answer carries the query, and the table has the header, the
    separator and three rows, without footer. *)
Example select_one_example :
  let self := {| poll_interval := 2; max_wait := 90;
                 session := scripted [started "c1" "m1";
                                      completed [query_attachment "SELECT 1" "a1"];
                                      query_result ["x"] [[VInt 1]; [VInt 2]; [VInt 3]]] |} in
  let answer := fst (ask self 5 "one?" VNone st0) in
  (let? a := answer in py_get a "sql" VNone) = Ok (VStr "SELECT 1")
  /\ (let? a := answer in
      let? data := py_get a "result_data" VNone in
      _format_query_result data 15)
     = Ok (Some (render ["x"; "-"; "1"; "2"; "3"] "")).
Proof. split; reflexivity. Qed.

(** ** The feedback handler *)

(** C9: a feedback action on a message with no recorded binding returns
    without touching anything: no request is sent to the backend, no Slack
    call is made (so no error is shown), and both dictionaries are as they
    were. *)
Theorem handle_feedback_unbound (self : SlackGenieBot) (body : ActionBody)
    (rating : string) (st : State) :
  feedback_map st !! body_message_ts body = None ->
  _handle_feedback self body rating st = (Ok tt, st)
  /\ requests (snd (_handle_feedback self body rating st)) = requests st
  /\ slack_calls (snd (_handle_feedback self body rating st)) = slack_calls st
  /\ feedback_map (snd (_handle_feedback self body rating st)) = feedback_map st
  /\ thread_conversations (snd (_handle_feedback self body rating st))
     = thread_conversations st.
Proof.
  intros Hnone.
  assert (E : _handle_feedback self body rating st = (Ok tt, st)).
  { unfold _handle_feedback, bind, get_feedback. cbn. rewrite Hnone. reflexivity. }
  rewrite E. auto.
Qed.

(** ** The poll loop *)

Lemma advance_0 st : advance st 0 [] = st.
Proof.
  destruct st; unfold advance; cbn. f_equal; [lia | apply app_nil_r].
Qed.

Lemma advance_advance st a b r1 r2 :
  advance (advance st a r1) b r2 = advance st (a + b) (r1 ++ r2).
Proof.
  unfold advance; cbn. f_equal; [lia | by rewrite app_assoc].
Qed.

Lemma pending_status msg :
  pending msg = true ->
  is_none msg = false /\
  exists status, py_get msg "status" VNone = Ok status
    /\ is_str "COMPLETED" status = false
    /\ (is_str "FAILED" status || is_str "CANCELLED" status) = false.
Proof.
  destruct msg; cbn; try discriminate. intros H. split; [done|].
  eexists; split; [reflexivity|].
  apply negb_true_iff in H. apply orb_false_iff in H as [H1 H2].
  apply orb_false_iff in H1 as [H1 H3].
  rewrite H1, H2, H3. done.
Qed.

Section Polling.
Variable self : GenieClient.
Variables cid mid : pyval.

Let status_check := GetMessage cid mid.

(** One turn of the loop on a pending payload: one request, one sleep. *)
Lemma poll_loop_step fuel deadline st :
  now st < deadline ->
  0 <= poll_interval self ->
  pending (session self (requests st ++ [status_check])) = true ->
  poll_loop self (S fuel) deadline cid mid st
  = poll_loop self fuel deadline cid mid
      (advance st (poll_interval self) [status_check]).
Proof.
  intros Hlt Hpi Hp.
  apply pending_status in Hp as (Hn & status & Hs & Hc & Hf).
  cbn [poll_loop]. unfold bind at 1. unfold time_time at 1.
  apply Z.ltb_lt in Hlt. rewrite Hlt.
  unfold bind at 1. unfold get_message, _request. cbn [requests].
  fold status_check. rewrite Hn. unfold bind at 1, lift at 1. rewrite Hs, Hc, Hf.
  unfold bind at 1, time_sleep. cbn [now requests].
  apply Z.ltb_ge in Hpi. rewrite Hpi. reflexivity.
Qed.

(** [k] turns on pending payloads. *)
Lemma poll_loop_steps k : forall fuel deadline st,
  (k <= fuel)%nat ->
  0 <= poll_interval self ->
  (forall j, (j < k)%nat ->
     now st + Z.of_nat j * poll_interval self < deadline) ->
  (forall j, (j < k)%nat ->
     pending (session self (requests st ++ replicate (S j) status_check)) = true) ->
  poll_loop self fuel deadline cid mid st
  = poll_loop self (fuel - k) deadline cid mid
      (advance st (Z.of_nat k * poll_interval self) (replicate k status_check)).
Proof.
  induction k as [|k IH]; intros fuel deadline st Hfuel Hpi Htime Hpend.
  - cbn. rewrite advance_0. f_equal. lia.
  - destruct fuel as [|fuel]; [lia|].
    rewrite poll_loop_step; [| specialize (Htime O); lia | done
                             | apply (Hpend O); lia].
    rewrite (IH fuel); [| lia | done | |].
    + rewrite advance_advance. cbn [Nat.sub replicate app]. f_equal. f_equal. lia.
    + intros j Hj. cbn [advance now]. specialize (Htime (S j)). lia.
    + intros j Hj. cbn [advance requests]. rewrite <- app_assoc.
      apply (Hpend (S j)). lia.
Qed.

(** The loop leaves with [None] as soon as the clock has reached the
    deadline. *)
Lemma poll_loop_deadline fuel deadline st :
  deadline <= now st ->
  poll_loop self (S fuel) deadline cid mid st = (Ok VNone, st).
Proof.
  intros H. cbn [poll_loop]. unfold bind, time_time.
  apply Z.ltb_ge in H. rewrite H. reflexivity.
Qed.

(** The loop leaves with [None] when the status fetch fails. *)
Lemma poll_loop_transport_failure fuel deadline st :
  now st < deadline ->
  session self (requests st ++ [status_check]) = VNone ->
  poll_loop self (S fuel) deadline cid mid st
  = (Ok VNone, advance st 0 [status_check]).
Proof.
  intros Hlt Hn. cbn [poll_loop]. unfold bind at 1, time_time at 1.
  apply Z.ltb_lt in Hlt. rewrite Hlt.
  unfold bind, get_message, _request. fold status_check. rewrite Hn. cbn.
  unfold advance. do 2 f_equal. lia.
Qed.
End Polling.

(** ** [ask]: from the first request to the poll loop *)

Lemma ask_after_send (self : GenieClient) (fuel : nat) (question : string)
    (conversation_id cid mid : pyval) (st : State) :
  let first := send_request question conversation_id in
  let raw := session self (requests st ++ [first]) in
  is_none raw = false ->
  extract_ids raw conversation_id = Ok (cid, mid) ->
  truthy cid = true ->
  truthy mid = true ->
  ask self fuel question conversation_id st
  = (let* completed := _poll_until_done self fuel cid mid in
     if is_none completed then ret (timeout_answer cid mid)
     else _parse_response self cid mid completed) (advance st 0 [first]).
Proof.
  intros first raw Hraw Hids Hc Hm.
  assert (Hst : forall req, _request self req st
                            = (Ok (session self (requests st ++ [req])),
                               advance st 0 [req])).
  { intros req. unfold _request, advance. do 2 f_equal. lia. }
  unfold ask. unfold bind at 1.
  assert (Hsend : (if truthy conversation_id
                   then create_message self conversation_id question
                   else start_conversation self question) st
                  = (Ok raw, advance st 0 [first])).
  { subst raw first. unfold send_request, create_message, start_conversation.
    destruct (truthy conversation_id); apply Hst. }
  rewrite Hsend, Hraw. unfold bind at 1, lift at 1. rewrite Hids.
  cbn [fst snd]. rewrite Hc, Hm. reflexivity.
Qed.

Lemma poll_budget_bounds (self : GenieClient) :
  0 < poll_interval self -> 0 <= max_wait self ->
  let n := Z.of_nat (poll_budget self) in
  (n - 1) * poll_interval self < max_wait self <= n * poll_interval self
  /\ max_wait self / poll_interval self <= n <= max_wait self / poll_interval self + 1.
Proof.
  intros Hpi Hmw. unfold poll_budget.
  set (p := poll_interval self) in *. set (w := max_wait self) in *.
  assert (H0 : 0 <= (w + p - 1) / p) by (apply Z.div_pos; lia).
  rewrite Z2Nat.id by done. cbv zeta.
  pose proof (Z.mul_div_le (w + p - 1) p Hpi).
  pose proof (Z.mul_succ_div_gt (w + p - 1) p Hpi).
  pose proof (Z.mul_div_le w p Hpi).
  pose proof (Z.mul_succ_div_gt w p Hpi).
  repeat split; nia.
Qed.

(** C3: against a backend whose status payloads stay pending for the whole
    wait, [ask] returns the timeout failure after exactly
    ceil(max_wait / poll_interval) status checks, a number within one of
    max_wait / poll_interval; the clock advances by poll_interval per check. *)
Theorem ask_times_out (self : GenieClient) (fuel : nat) (question : string)
    (conversation_id cid mid : pyval) (st : State) :
  let first := send_request question conversation_id in
  let raw := session self (requests st ++ [first]) in
  let n := poll_budget self in
  0 < poll_interval self ->
  0 <= max_wait self ->
  (n < fuel)%nat ->
  is_none raw = false ->
  extract_ids raw conversation_id = Ok (cid, mid) ->
  truthy cid = true ->
  truthy mid = true ->
  (forall j, (j < n)%nat ->
     pending (session self (requests st ++ first :: replicate (S j) (GetMessage cid mid)))
     = true) ->
  ask self fuel question conversation_id st
  = (Ok (timeout_answer cid mid),
     advance st (Z.of_nat n * poll_interval self)
       (first :: replicate n (GetMessage cid mid)))
  /\ max_wait self / poll_interval self <= Z.of_nat n
     <= max_wait self / poll_interval self + 1.
Proof.
  intros first raw n Hpi Hmw Hfuel Hraw Hids Hc Hm Hpend.
  destruct (poll_budget_bounds self Hpi Hmw) as [[Hlo Hhi] Hdiv]. fold n in Hlo, Hhi, Hdiv.
  split; [| exact Hdiv].
  rewrite (ask_after_send self fuel question conversation_id cid mid st Hraw Hids Hc Hm).
  fold first. unfold bind at 1. unfold _poll_until_done, bind at 1, time_time at 1.
  rewrite (poll_loop_steps self cid mid n fuel); [| lia | lia | |].
  - destruct (fuel - n)%nat as [|f] eqn:Ef; [lia|].
    rewrite poll_loop_deadline; [| cbn [advance now]; lia].
    cbn [is_none]. unfold ret. rewrite advance_advance. f_equal.
  - intros j Hj. cbn [advance now]. nia.
  - intros j Hj. cbn [advance requests]. rewrite <- app_assoc. apply Hpend, Hj.
Qed.

(** C4: when a status fetch fails, after any number of pending payloads, the
    loop stops there: the failed fetch is the last request [ask] sends, and
    the answer is the timeout failure. *)
Theorem ask_transport_failure (self : GenieClient) (fuel k : nat) (question : string)
    (conversation_id cid mid : pyval) (st : State) :
  let first := send_request question conversation_id in
  let raw := session self (requests st ++ [first]) in
  let check := GetMessage cid mid in
  0 <= poll_interval self ->
  Z.of_nat k * poll_interval self < max_wait self ->
  (k < fuel)%nat ->
  is_none raw = false ->
  extract_ids raw conversation_id = Ok (cid, mid) ->
  truthy cid = true ->
  truthy mid = true ->
  (forall j, (j < k)%nat ->
     pending (session self (requests st ++ first :: replicate (S j) check)) = true) ->
  session self (requests st ++ first :: replicate (S k) check) = VNone ->
  ask self fuel question conversation_id st
  = (Ok (timeout_answer cid mid),
     advance st (Z.of_nat k * poll_interval self) (first :: replicate (S k) check)).
Proof.
  intros first raw check Hpi Hk Hfuel Hraw Hids Hc Hm Hpend Hfail.
  rewrite (ask_after_send self fuel question conversation_id cid mid st Hraw Hids Hc Hm).
  fold first. unfold bind at 1. unfold _poll_until_done, bind at 1, time_time at 1.
  rewrite (poll_loop_steps self cid mid k fuel); [| lia | lia | |].
  - destruct (fuel - k)%nat as [|f] eqn:Ef; [lia|].
    rewrite poll_loop_transport_failure.
    + cbn [is_none]. unfold ret. rewrite !advance_advance. f_equal. f_equal; [lia|].
      fold check. cbn [app]. f_equal. symmetry. apply replicate_S_end.
    + cbn [advance now]. nia.
    + cbn [advance requests]. rewrite <- !app_assoc. cbn [app].
      fold check. rewrite <- replicate_S_end. exact Hfail.
  - intros j Hj. cbn [advance now]. nia.
  - intros j Hj. cbn [advance requests]. rewrite <- app_assoc. apply Hpend, Hj.
Qed.

Lemma handle_feedback_unbound_witness :
  _handle_feedback {| genie := {| poll_interval := 2; max_wait := 90;
                                  session := scripted [] |};
                      client := numbering_client |}
    {| body_message_ts := Some "17.5"; body_channel_id := Some "C1" |}
    "POSITIVE" st0
  = (Ok tt, st0).
Proof.
  eapply proj1. apply (handle_feedback_unbound _ _ "POSITIVE" st0). reflexivity.
Defined.

Lemma ask_times_out_witness :
  let self := {| poll_interval := 2; max_wait := 5;
                 session := scripted [started "c1" "m1"; with_status "EXECUTING";
                                      with_status "EXECUTING"; with_status "EXECUTING"] |} in
  ask self 4 "total revenue?" VNone st0
  = (Ok (timeout_answer (VStr "c1") (VStr "m1")),
     advance st0 6 (StartConversation "total revenue?"
                    :: replicate 3 (GetMessage (VStr "c1") (VStr "m1")))).
Proof.
  intros self. eapply proj1.
  apply (ask_times_out self 4 "total revenue?" VNone (VStr "c1") (VStr "m1") st0);
    try reflexivity; try (subst self; cbn; lia); try (subst self; vm_compute; lia).
  intros j Hj. change (poll_budget self) with 3%nat in Hj.
  destruct j as [|[|[|j]]]; [reflexivity..|lia].
Defined.

Lemma ask_transport_failure_witness :
  let self := {| poll_interval := 2; max_wait := 90;
                 session := scripted [started "c1" "m1"; with_status "EXECUTING";
                                      VNone; with_status "COMPLETED"] |} in
  ask self 5 "total revenue?" VNone st0
  = (Ok (timeout_answer (VStr "c1") (VStr "m1")),
     advance st0 2 (StartConversation "total revenue?"
                    :: replicate 2 (GetMessage (VStr "c1") (VStr "m1")))).
Proof.
  intros self.
  apply (ask_transport_failure self 5 1 "total revenue?" VNone (VStr "c1") (VStr "m1") st0);
    try reflexivity; try (subst self; cbn; lia); try (subst self; vm_compute; lia).
  intros j Hj. destruct j; [reflexivity | lia].
Defined.

(** ** The attachment loop of [_parse_response] *)

Lemma last_or_cons d x l : last_or d (x :: l) = last_or x l.
Proof.
  unfold last_or. revert d x.
  induction l as [|y l IH]; intros d x; [done|].
  rewrite !last_cons_cons. by rewrite (IH d y), (IH x y).
Qed.

Lemma omap_cons_eq {A B} (f : A -> option B) x l :
  omap f (x :: l) = match f x with Some y => y :: omap f l | None => omap f l end.
Proof. reflexivity. Qed.

Section Parsing.
Variable self : GenieClient.
Variables cid mid : pyval.

Lemma request_advance req st :
  _request self req st = (Ok (session self (requests st ++ [req])), advance st 0 [req]).
Proof. unfold _request, advance. do 2 f_equal. lia. Qed.

(** One attachment: the query string is replaced by that of a query
    attachment, and a query attachment with an id costs one fetch, whose
    result is kept when it is truthy. *)
Lemma parse_attachment_spec acc att st acc' st' :
  parse_attachment self cid mid acc att st = (Ok acc', st') ->
  sql_text acc' = default (sql_text acc) (att_sql att)
  /\ match att_fetch_id att with
     | Some a =>
         st' = advance st 0 [GetQueryResult cid mid a]
         /\ result_data acc'
            = (let qr := session self (requests st ++ [GetQueryResult cid mid a]) in
               if truthy qr then qr else result_data acc)
     | None => st' = st /\ result_data acc' = result_data acc
     end.
Proof.
  unfold parse_attachment, att_sql, att_fetch_id, query_info, get_query_result.
  unfold bind, lift, ret, py_in, py_getitem, py_get.
  intros H.
  destruct att; try discriminate.
  all: repeat (case_match; simplify_eq/=); try done.
  all: repeat split; try done; unfold advance; f_equal; lia.
Qed.

(** The whole loop, by induction on the attachments still to visit. *)
Lemma parse_attachments_spec atts : forall acc st acc' st',
  parse_attachments self cid mid acc atts st = (Ok acc', st') ->
  sql_text acc' = last_or (sql_text acc) (omap att_sql atts)
  /\ st' = advance st 0 (map (GetQueryResult cid mid) (omap att_fetch_id atts))
  /\ result_data acc'
     = last_or (result_data acc)
         (List.filter truthy
            (fetched self cid mid (requests st) (omap att_fetch_id atts))).
Proof.
  induction atts as [|att atts IH]; intros acc st acc' st' H.
  - cbn in H. unfold ret in H. simplify_eq. cbn. by rewrite advance_0.
  - cbn [parse_attachments] in H. unfold bind at 1 in H.
    destruct (parse_attachment self cid mid acc att st) as [[acc1| |] st1] eqn:E1;
      try discriminate.
    apply parse_attachment_spec in E1 as [Hsql Hfetch].
    apply IH in H as (Hsql' & Hst' & Hres').
    rewrite Hsql', Hres', Hst'. clear IH Hsql' Hres' Hst'.
    rewrite !omap_cons_eq. split; [|split].
    + rewrite Hsql. destruct (att_sql att) as [q|]; [|done].
      by rewrite last_or_cons.
    + destruct (att_fetch_id att) as [a|]; destruct Hfetch as [-> _]; cbn [map].
      * by rewrite advance_advance.
      * done.
    + destruct (att_fetch_id att) as [a|]; destruct Hfetch as [-> Hrd].
      * cbn [advance requests fetched List.filter].
        rewrite Hrd. cbv zeta.
        destruct (truthy (session self (requests st ++ [GetQueryResult cid mid a])));
          [|done].
        by rewrite last_or_cons.
      * by rewrite Hrd.
Qed.
End Parsing.

(** C1: on a COMPLETED payload the answer carries the query string of the
    last query attachment; one query-result fetch is sent, in order, for each
    query attachment that carries an attachment id (the first one included),
    and the answer carries the last of the fetched results that is not empty.
    With several query attachments the later ones overwrite the earlier. *)
Theorem parse_response_last_query_wins (self : GenieClient) (cid mid msg : pyval)
    (st st' : State) (result : pyval) :
  py_get msg "status" VNone = Ok (VStr "COMPLETED") ->
  _parse_response self cid mid msg st = (Ok result, st') ->
  exists atts,
    msg_attachments msg = Ok atts
    /\ py_get result "sql" VNone = Ok (last_or VNone (omap att_sql atts))
    /\ st' = advance st 0 (map (GetQueryResult cid mid) (omap att_fetch_id atts))
    /\ py_get result "result_data" VNone
       = Ok (last_or VNone
               (List.filter truthy
                  (fetched self cid mid (requests st) (omap att_fetch_id atts)))).
Proof.
  intros Hstatus H. unfold _parse_response in H.
  unfold bind at 1, lift at 1 in H. rewrite Hstatus in H.
  cbn [is_str] in H. rewrite String.eqb_refl in H. cbn [negb] in H.
  unfold msg_attachments.
  unfold bind at 1, lift at 1 in H.
  destruct (py_get msg "attachments" VNone) as [a0| |]; try discriminate.
  cbn [rbind]. unfold bind at 1, lift at 1 in H.
  destruct (py_iter (if truthy a0 then a0 else VList [])) as [atts| |]; try discriminate.
  exists atts. split; [done|].
  unfold bind at 1 in H.
  destruct (parse_attachments self cid mid _ atts st) as [[acc| |] st1] eqn:Eloop;
    try discriminate.
  apply parse_attachments_spec in Eloop as (Hsql & Hst & Hres).
  cbn [sql_text result_data] in Hsql, Hres.
  unfold bind, lift, ret in H.
  repeat (case_match; simplify_eq/=).
  all: rewrite Hsql, Hres; done.
Qed.

Lemma parse_response_last_query_wins_witness :
  let self := {| poll_interval := 2; max_wait := 90;
                 session := scripted [query_result ["x"] [[VInt 1]];
                                      query_result ["y"] [[VInt 2]]] |} in
  let msg := completed [query_attachment "SELECT 1" "a1";
                        query_attachment "SELECT 2" "a2"] in
  exists result st',
    _parse_response self (VStr "c1") (VStr "m1") msg st0 = (Ok result, st')
    /\ py_get result "sql" VNone = Ok (VStr "SELECT 2")
    /\ requests st' = [GetQueryResult (VStr "c1") (VStr "m1") (VStr "a1");
                       GetQueryResult (VStr "c1") (VStr "m1") (VStr "a2")]
    /\ py_get result "result_data" VNone = Ok (query_result ["y"] [[VInt 2]]).
Proof.
  intros self msg. eexists _, _.
  split; [vm_compute; reflexivity|].
  destruct (parse_response_last_query_wins self (VStr "c1") (VStr "m1") msg st0 _ _
              eq_refl eq_refl) as (atts & Hatts & Hsql & Hst & Hres).
  vm_compute in Hatts. simplify_eq.
  split; [exact Hsql | split; [reflexivity | exact Hres]].
Defined.

(** C8: a completed message whose only attachment is the text
    "Revenue is up 12%" parses, without any request to the backend, into an
    answer with that text, no generated query and no query result. *)
Theorem parse_response_text_only (self : GenieClient) (cid mid : pyval)
    (msg att text : list (string * pyval)) (st : State) :
  dict_get msg "status" = Some (VStr "COMPLETED") ->
  dict_get msg "attachments" = Some (VList [VDict att]) ->
  dict_get att "text" = Some (VDict text) ->
  dict_get text "content" = Some (VStr "Revenue is up 12%") ->
  dict_get att "query" = None ->
  exists result,
    _parse_response self cid mid (VDict msg) st = (Ok result, st)
    /\ py_get result "success" VNone = Ok (VBool true)
    /\ py_get result "text" VNone = Ok (VStr "Revenue is up 12%")
    /\ py_get result "sql" VNone = Ok VNone
    /\ py_get result "result_data" VNone = Ok VNone.
Proof.
  intros Hstatus Hatts Htext Hcontent Hquery.
  assert (Hs : py_get (VDict msg) "status" VNone = Ok (VStr "COMPLETED"))
    by (cbn [py_get]; by rewrite Hstatus).
  assert (Ha : py_get (VDict msg) "attachments" VNone = Ok (VList [VDict att]))
    by (cbn [py_get]; by rewrite Hatts).
  assert (Hloop : parse_attachments self cid mid
                    {| text_parts := []; sql_text := VNone; result_data := VNone |}
                    [VDict att] st
                  = (Ok {| text_parts := [VStr "Revenue is up 12%"];
                           sql_text := VNone; result_data := VNone |}, st)).
  { cbn [parse_attachments]. unfold parse_attachment, bind, lift, ret.
    cbn [py_in py_getitem]. rewrite Htext, Hquery. cbn. rewrite Hcontent. reflexivity. }
  eexists. split.
  - unfold _parse_response. unfold bind at 1, lift at 1. rewrite Hs.
    cbn [is_str]. rewrite String.eqb_refl. cbn [negb].
    unfold bind at 1, lift at 1. rewrite Ha. cbn [truthy].
    unfold bind at 1, lift at 1. cbn [py_iter].
    unfold bind at 1. rewrite Hloop. reflexivity.
  - repeat split.
Qed.

Lemma parse_response_text_only_witness :
  exists result,
    _parse_response {| poll_interval := 2; max_wait := 90; session := scripted [] |}
      (VStr "c1") (VStr "m1") (completed [text_attachment "Revenue is up 12%"]) st0
    = (Ok result, st0)
    /\ py_get result "success" VNone = Ok (VBool true)
    /\ py_get result "text" VNone = Ok (VStr "Revenue is up 12%")
    /\ py_get result "sql" VNone = Ok VNone
    /\ py_get result "result_data" VNone = Ok VNone.
Proof.
  apply (parse_response_text_only _ (VStr "c1") (VStr "m1")
           [("status", VStr "COMPLETED");
            ("attachments", VList [text_attachment "Revenue is up 12%"])]
           [("text", VDict [("content", VStr "Revenue is up 12%")])]
           [("content", VStr "Revenue is up 12%")] st0); reflexivity.
Defined.

(** ** The shape of the answers of [ask] *)

Lemma parse_response_shape (self : GenieClient) (cid mid msg : pyval)
    (st st' : State) (result : pyval) :
  _parse_response self cid mid msg st = (Ok result, st') -> answer_shape result.
Proof.
  unfold _parse_response, bind, lift, ret. intros H.
  repeat (case_match; simplify_eq/=);
    eexists; (split; [reflexivity|]); cbn; eauto 6.
Qed.

(** Every answer [ask] returns is a success with ["error": None] or a
    failure with an ["error"] entry and no ["text"] or ["result_data"]. *)
Lemma ask_answer_shape (self : GenieClient) (fuel : nat) (question : string)
    (conversation_id : pyval) (st st' : State) (result : pyval) :
  ask self fuel question conversation_id st = (Ok result, st') -> answer_shape result.
Proof.
  unfold ask. unfold bind at 1. intros H.
  match type of H with context [?m st] => destruct (m st) as [[raw| |] st1] end;
    try discriminate.
  destruct (is_none raw).
  { unfold ret in H. simplify_eq. eexists; split; [reflexivity|]; cbn; eauto 6. }
  unfold bind at 1, lift at 1 in H.
  destruct (extract_ids raw conversation_id) as [[cid mid]| |]; try discriminate.
  cbn [fst snd] in H.
  destruct (negb (truthy cid) || negb (truthy mid)).
  { unfold ret in H. simplify_eq. eexists; split; [reflexivity|]; cbn; eauto 6. }
  unfold bind at 1 in H.
  destruct (_poll_until_done self fuel cid mid st1) as [[done_msg| |] st2];
    try discriminate.
  destruct (is_none done_msg).
  { unfold ret in H. simplify_eq. eexists; split; [reflexivity|]; cbn; eauto 6. }
  by apply parse_response_shape in H.
Qed.

(** The error of a failure built from a terminal payload is [None] only when
    the payload's error object carries a null message. *)
Lemma parse_response_failure_error (self : GenieClient) (cid mid msg status : pyval)
    (st st' : State) (result : pyval) :
  py_get msg "status" VNone = Ok status ->
  is_str "COMPLETED" status = false ->
  _parse_response self cid mid msg st = (Ok result, st') ->
  exists e,
    py_get result "error" VNone = Ok e
    /\ (e = VNone ->
        exists detail, py_get msg "error" (VDict []) = Ok (VDict detail)
                       /\ dict_get detail "message" = Some VNone).
Proof.
  intros Hstatus Hc. unfold _parse_response, bind, lift, ret.
  rewrite Hstatus, Hc. cbn [negb]. intros H.
  destruct (py_get msg "error" (VDict [])) as [detail| |]; try discriminate.
  destruct detail as [| | | | |kv]; simplify_eq/=; eexists; (split; [reflexivity|]);
    try discriminate.
  intros He. exists kv. split; [done|].
  destruct (dict_get kv "message"); cbn in He; by simplify_eq.
Qed.

(** C5: the failing input.  When the backend reports FAILED with an error
    object whose message is null, [ask] returns a failure whose error is
    [None]: success is false and no error is set. *)
Theorem ask_null_error_message (self : GenieClient) (fuel : nat) (question : string)
    (conversation_id cid mid : pyval) (msg detail : list (string * pyval)) (st : State) :
  let first := send_request question conversation_id in
  let raw := session self (requests st ++ [first]) in
  0 < max_wait self ->
  (0 < fuel)%nat ->
  is_none raw = false ->
  extract_ids raw conversation_id = Ok (cid, mid) ->
  truthy cid = true ->
  truthy mid = true ->
  session self (requests st ++ [first; GetMessage cid mid]) = VDict msg ->
  dict_get msg "status" = Some (VStr "FAILED") ->
  dict_get msg "error" = Some (VDict detail) ->
  dict_get detail "message" = Some VNone ->
  ask self fuel question conversation_id st
  = (Ok (VDict [("success", VBool false);
                ("conversation_id", cid);
                ("message_id", mid);
                ("error", VNone)]),
     advance st 0 [first; GetMessage cid mid]).
Proof.
  intros first raw Hwait Hfuel Hraw Hids Hc Hm Hmsg Hstatus Herror Hmessage.
  rewrite (ask_after_send self fuel question conversation_id cid mid st Hraw Hids Hc Hm).
  fold first. destruct fuel as [|fuel]; [lia|].
  assert (Hpoll : _poll_until_done self (S fuel) cid mid (advance st 0 [first])
                  = (Ok (VDict msg), advance st 0 [first; GetMessage cid mid])).
  { unfold _poll_until_done. unfold bind at 1, time_time at 1.
    cbn [poll_loop]. unfold bind at 1, time_time at 1.
    replace (Z.ltb _ _) with true by (symmetry; apply Z.ltb_lt; lia).
    unfold bind at 1. unfold get_message. rewrite request_advance.
    cbn [advance requests]. rewrite <- app_assoc. cbn [app]. rewrite Hmsg.
    cbn [is_none]. unfold bind at 1, lift at 1. cbn [py_get]. rewrite Hstatus.
    rewrite advance_advance. reflexivity. }
  unfold bind at 1. rewrite Hpoll. cbn [is_none].
  unfold _parse_response, bind, lift, ret. cbn [py_get]. rewrite Hstatus, Herror.
  cbn. rewrite Hmessage. reflexivity.
Qed.

Lemma ask_null_error_message_witness :
  ask {| poll_interval := 2; max_wait := 90;
         session := scripted [started "c1" "m1"; failed_null_message] |}
    2 "total revenue?" VNone st0
  = (Ok (VDict [("success", VBool false);
                ("conversation_id", VStr "c1");
                ("message_id", VStr "m1");
                ("error", VNone)]),
     advance st0 0 [StartConversation "total revenue?";
                    GetMessage (VStr "c1") (VStr "m1")]).
Proof.
  apply (ask_null_error_message _ 2 "total revenue?" VNone (VStr "c1") (VStr "m1")
           [("status", VStr "FAILED"); ("error", VDict [("message", VNone)])]
           [("message", VNone)] st0); try reflexivity; cbn; lia.
Defined.

(** ** What each operation leaves alone *)

Section Frames.
Context {X : Type} (f : State -> X).

Lemma keeps_ret {A} (a : A) : keeps f (ret a).
Proof. intros st r st' H. unfold ret in H. by simplify_eq. Qed.

Lemma keeps_lift {A} (r : res A) : keeps f (lift r).
Proof. intros st r' st' H. unfold lift in H. by simplify_eq. Qed.

Lemma keeps_bind {A B} (m : M A) (k : A -> M B) :
  keeps f m -> (forall a, keeps f (k a)) -> keeps f (let* x := m in k x).
Proof.
  intros Hm Hk st r st' H. unfold bind in H.
  destruct (m st) as [[a|e|] st1] eqn:E; apply Hm in E.
  - apply Hk in H. congruence.
  - by simplify_eq.
  - by simplify_eq.
Qed.

Lemma keeps_try_except {A} (m handler : M A) :
  keeps f m -> keeps f handler -> keeps f (try_except m handler).
Proof.
  intros Hm Hh st r st' H. unfold try_except in H.
  destruct (m st) as [[a|e|] st1] eqn:E; apply Hm in E.
  - by simplify_eq.
  - apply Hh in H. congruence.
  - by simplify_eq.
Qed.

Lemma keeps_when (b : bool) (m : M unit) : keeps f m -> keeps f (when b m).
Proof. destruct b; [done|]. intros _. apply keeps_ret. Qed.
End Frames.

Ltac keeps_step :=
  first
    [ apply keeps_ret
    | apply keeps_lift
    | apply keeps_when
    | apply keeps_try_except
    | apply keeps_bind; [| intros ?]
    | match goal with
      | |- keeps _ (if ?b then _ else _) => destruct b
      | |- keeps _ (match ?x with _ => _ end) => destruct x
      | |- keeps _ (let (_, _) := ?x in _) => destruct x
      end ].

Lemma request_keeps {X} (f : State -> X) (self : GenieClient) (req : Request) :
  (forall st reqs dt, f (advance st dt reqs) = f st) -> keeps f (_request self req).
Proof.
  intros Hf st r st' H. rewrite request_advance in H. simplify_eq. apply Hf.
Qed.

Lemma sleep_keeps {X} (f : State -> X) (n : Z) :
  (forall st reqs dt, f (advance st dt reqs) = f st) -> keeps f (time_sleep n).
Proof.
  intros Hf st r st' H. unfold time_sleep in H. destruct (Z.ltb n 0); simplify_eq; [done|].
  rewrite <- (Hf st [] n). unfold advance. by rewrite app_nil_r.
Qed.

(** [ask] only moves the clock and sends requests. *)
Section AskFrame.
Context {X : Type} (f : State -> X).
Hypothesis f_advance : forall st reqs dt, f (advance st dt reqs) = f st.
Variable self : GenieClient.

Lemma time_keeps : keeps f time_time.
Proof. intros st r st' H. unfold time_time in H. by simplify_eq. Qed.

Lemma poll_loop_keeps fuel deadline cid mid :
  keeps f (poll_loop self fuel deadline cid mid).
Proof.
  induction fuel as [|fuel IH]; cbn [poll_loop]; [apply keeps_lift|].
  apply keeps_bind; [apply time_keeps | intros t].
  destruct (Z.ltb t deadline); [| apply keeps_ret].
  apply keeps_bind; [by apply request_keeps | intros msg].
  repeat first [ apply IH | by apply sleep_keeps | keeps_step ].
Qed.

Lemma parse_attachments_keeps cid mid atts :
  forall acc, keeps f (parse_attachments self cid mid acc atts).
Proof.
  induction atts as [|att atts IH]; intros acc; cbn [parse_attachments];
    [apply keeps_ret|].
  apply keeps_bind; [| intros ?; apply IH].
  unfold parse_attachment.
  repeat first [ by apply request_keeps | keeps_step ].
Qed.

Lemma parse_response_keeps cid mid msg : keeps f (_parse_response self cid mid msg).
Proof.
  unfold _parse_response.
  repeat first [ apply parse_attachments_keeps | keeps_step ].
Qed.

Lemma ask_keeps fuel question conversation_id :
  keeps f (ask self fuel question conversation_id).
Proof.
  unfold ask, _poll_until_done, create_message, start_conversation.
  repeat first [ by apply request_keeps | apply time_keeps | apply poll_loop_keeps
               | apply parse_response_keeps | keeps_step ].
Qed.
End AskFrame.

(** ** The thread binding *)

Lemma slack_call_posted (self : SlackGenieBot) (c : SlackCall) (st : State) :
  slack_call self c st
  = (match client self (slack_calls st ++ [c]) with
     | Some response => Ok response
     | None => Raise SlackApiError
     end, posted st c).
Proof. reflexivity. Qed.

Lemma slack_call_keeps {X} (f : State -> X) (self : SlackGenieBot) (c : SlackCall) :
  (forall st c, f (posted st c) = f st) -> keeps f (slack_call self c).
Proof. intros Hf st r st' H. rewrite slack_call_posted in H. simplify_eq. apply Hf. Qed.

Lemma set_feedback_keeps_threads ts info : keeps thread_conversations (set_feedback ts info).
Proof. intros st r st' H. unfold set_feedback in H. by simplify_eq. Qed.

(** What follows the binding update in [_handle_question] does not touch the
    thread bindings. *)
Lemma reply_keeps_threads (self : SlackGenieBot) (channel thread_ts : string)
    (result result_cid : pyval) (bound : bool) :
  keeps thread_conversations
    (let* answer := lift (_format_answer result) in
     let* _ := say self answer thread_ts in
     let* data := lift (py_get result "result_data" VNone) in
     let* _ := when (truthy data)
                 (let* data := lift (py_getitem result "result_data") in
                  let* table_msg := lift (_format_query_result data 15) in
                  when (str_truthy table_msg)
                    (say self (VStr (default "" table_msg)) thread_ts)) in
     let* success := lift (py_get result "success" VNone) in
     let* message_id := lift (py_get result "message_id" VNone) in
     when (truthy success && bound && truthy message_id)
       (let* fb_resp := _send_feedback_buttons self channel thread_ts in
        match fb_resp with
        | Some response => set_feedback response (result_cid, message_id)
        | None => ret tt
        end)).
Proof.
  unfold say, _send_feedback_buttons.
  repeat first [ by apply slack_call_keeps | apply set_feedback_keeps_threads
               | keeps_step ].
Qed.

(** C2, as the code has it: handling a question binds the thread to the
    conversation id of the answer whenever the answer carries one, whatever
    the thread was bound to before; without one the bindings stay as they
    were. *)
Theorem handle_question_binding (self : SlackGenieBot) (fuel : nat) (event : Event)
    (channel thread_ts : string) (st st' : State) :
  str_truthy (ev_bot_id event) = false ->
  ev_channel event = Some channel ->
  event_thread event = Some thread_ts ->
  strip (event_question event) <> "" ->
  _handle_question self fuel event st = (Ok tt, st') ->
  exists result st1 result_cid,
    ask (genie self) fuel (event_question event)
      (default VNone (thread_conversations st !! thread_ts))
      (posted st (ChatPostMessage channel "Thinking..." thread_ts false))
    = (Ok result, st1)
    /\ py_get result "conversation_id" VNone = Ok result_cid
    /\ thread_conversations st'
       = if truthy result_cid
         then <[thread_ts := result_cid]> (thread_conversations st)
         else thread_conversations st.
Proof.
  intros Hbot Hchannel Hthread Htext H.
  unfold _handle_question in H. rewrite Hbot, Hchannel in H.
  fold (event_question event) in H.
  unfold bind at 1, lift at 1 in H. cbn [require] in H.
  assert (Hts : (if str_truthy (ev_thread_ts event)
                 then ret (default "" (ev_thread_ts event))
                 else lift (require (ev_ts event))) st = (Ok thread_ts, st)).
  { unfold event_thread in Hthread.
    destruct (str_truthy (ev_thread_ts event)); rewrite Hthread; reflexivity. }
  unfold bind at 1 in H. rewrite Hts in H. clear Hts.
  apply String.eqb_neq in Htext. rewrite Htext in H.
  unfold bind at 1 in H. rewrite slack_call_posted in H.
  destruct (client self _) as [response|]; [|discriminate].
  unfold bind at 1, get_thread_conversation at 1 in H.
  cbn [thread_conversations posted] in H.
  unfold bind at 1 in H.
  destruct (ask (genie self) fuel (event_question event) _ _)
    as [[result| |] st1] eqn:Eask; try discriminate.
  exists result, st1.
  pose proof (ask_keeps thread_conversations (fun _ _ _ => eq_refl) _ _ _ _ _ _ _ Eask)
    as Hframe.
  cbn [thread_conversations posted] in Hframe.
  unfold bind at 1, lift at 1 in H.
  destruct (py_get result "conversation_id" VNone) as [result_cid| |] eqn:Ecid;
    try discriminate.
  exists result_cid. split; [done|]. split; [done|].
  unfold bind at 1 in H.
  destruct (truthy result_cid) eqn:Etruthy; cbn [when] in H.
  - unfold bind at 1, lift at 1 in H.
    assert (Hitem : py_getitem result "conversation_id" = Ok result_cid).
    { destruct result; try discriminate. cbn in Ecid |- *.
      destruct (dict_get kv "conversation_id"); cbn in Ecid; simplify_eq;
        try done; discriminate. }
    rewrite Hitem in H. unfold set_thread_conversation at 1 in H.
    apply reply_keeps_threads in H. cbn [thread_conversations] in H.
    by rewrite H, Hframe.
  - unfold ret at 1 in H. apply reply_keeps_threads in H. by rewrite H.
Qed.

Lemma handle_question_binding_witness :
  let thread := "1700000000.000100" in
  let st1 := snd (_handle_question drifting_bot 10 first_question st0) in
  let st2 := snd (_handle_question drifting_bot 10 follow_up st1) in
  exists result st' result_cid,
    ask (genie drifting_bot) 10 (event_question follow_up)
      (default VNone (thread_conversations st1 !! thread))
      (posted st1 (ChatPostMessage "C1" "Thinking..." thread false))
    = (Ok result, st')
    /\ py_get result "conversation_id" VNone = Ok result_cid
    /\ thread_conversations st2
       = if truthy result_cid
         then <[thread := result_cid]> (thread_conversations st1)
         else thread_conversations st1.
Proof.
  intros thread st1 st2.
  apply (handle_question_binding drifting_bot 10 follow_up "C1" thread st1 st2).
  - reflexivity.
  - reflexivity.
  - reflexivity.
  - vm_compute. discriminate.
  - vm_compute. reflexivity.
Defined.

(** C2, the claim as written, fails: the first question binds the thread to
    c1, the backend answers the follow-up under c2, and the thread is then
    bound to c2. *)
Lemma rebinding_counterexample :
  let thread := "1700000000.000100" in
  let st1 := snd (_handle_question drifting_bot 10 first_question st0) in
  let st2 := snd (_handle_question drifting_bot 10 follow_up st1) in
  fst (_handle_question drifting_bot 10 first_question st0) = Ok tt
  /\ thread_conversations st1 !! thread = Some (VStr "c1")
  /\ fst (_handle_question drifting_bot 10 follow_up st1) = Ok tt
  /\ requests st2
     = [StartConversation "total revenue?";
        GetMessage (VStr "c1") (VStr "m1");
        CreateMessage (VStr "c1") "and by region?";
        GetMessage (VStr "c2") (VStr "m2")]
  /\ thread_conversations st2 !! thread = Some (VStr "c2")
  /\ thread_conversations st2 !! thread <> thread_conversations st1 !! thread.
Proof.
  vm_compute. repeat split. discriminate.
Qed.

(** ** Cells *)

Lemma length_append (s t : string) :
  String.length (s +:+ t) = (String.length s + String.length t)%nat.
Proof. induction s as [|c s IH]; simpl; [done | by f_equal]. Qed.

Lemma length_str_repeat c n : String.length (str_repeat c n) = n.
Proof. induction n as [|n IH]; cbn; [done | by rewrite IH]. Qed.

Lemma length_str_take w : forall s,
  String.length (str_take w s) = Nat.min w (String.length s).
Proof.
  induction w as [|w IH]; intros [|c s]; cbn; try done. by rewrite IH.
Qed.

(** A rendered cell is exactly as wide as its column. *)
Lemma length_fmt_cell v w : String.length (fmt_cell v w) = w.
Proof.
  unfold fmt_cell, ljust.
  rewrite length_append, length_str_repeat, length_str_take. lia.
Qed.

(** A rendered cell is the text cut at the column width, then spaces. *)
Lemma fmt_cell_text v w :
  fmt_cell v w
  = str_take w (cell_text v)
    +:+ str_repeat SPACE (w - Nat.min w (String.length (cell_text v))).
Proof. unfold fmt_cell, ljust. by rewrite length_str_take. Qed.

(** ** The width loop *)

Lemma length_bump widths : forall vals, length (bump widths vals) = length widths.
Proof.
  induction widths as [|w ws IH]; intros [|v vs]; cbn; try done. by rewrite IH.
Qed.

Lemma bump_lookup widths : forall vals i,
  bump widths vals !! i = (fun w => Nat.max w (cell_len vals i)) <$> widths !! i.
Proof.
  unfold cell_len.
  induction widths as [|w ws IH]; intros [|v vs] [|i]; cbn; try done.
  - by rewrite Nat.max_0_r.
  - destruct (ws !! i); cbn; [|done]. by rewrite Nat.max_0_r.
Qed.

(** The inner loop is [bump] when the row fits, and an IndexError when it
    has more values than there are widths. *)
Lemma update_widths_fits vals : forall pre ws,
  (length vals <= length ws)%nat ->
  update_widths (pre ++ ws) (length pre) vals = Ok (pre ++ bump ws vals).
Proof.
  induction vals as [|v vals IH]; intros pre ws Hlen.
  - cbn. by destruct ws.
  - destruct ws as [|w ws]; [cbn in Hlen; lia|].
    cbn [update_widths bump]. rewrite list_lookup_middle by done.
    rewrite insert_app_r_alt by lia. rewrite Nat.sub_diag. cbn [insert list_insert].
    specialize (IH (pre ++ [Nat.max w (String.length (cell_text v))]) ws).
    rewrite length_app, <- !app_assoc in IH. cbn [length app] in IH.
    replace (length pre + 1)%nat with (S (length pre)) in IH by lia.
    apply IH. cbn in Hlen. lia.
Qed.

Lemma update_widths_overflow vals : forall pre ws,
  (length ws < length vals)%nat ->
  update_widths (pre ++ ws) (length pre) vals = Raise IndexError.
Proof.
  induction vals as [|v vals IH]; intros pre ws Hlen; [cbn in Hlen; lia|].
  destruct ws as [|w ws].
  - cbn [update_widths]. rewrite app_nil_r.
    by rewrite (proj2 (lookup_ge_None pre (length pre))).
  - cbn [update_widths]. rewrite list_lookup_middle by done.
    rewrite insert_app_r_alt by lia. rewrite Nat.sub_diag. cbn [insert list_insert].
    specialize (IH (pre ++ [Nat.max w (String.length (cell_text v))]) ws).
    rewrite length_app, <- !app_assoc in IH. cbn [length app] in IH.
    replace (length pre + 1)%nat with (S (length pre)) in IH by lia.
    apply IH. cbn in Hlen. lia.
Qed.

Lemma update_widths_fits0 vals ws :
  (length vals <= length ws)%nat -> update_widths ws 0 vals = Ok (bump ws vals).
Proof. exact (update_widths_fits vals [] ws). Qed.

Lemma update_widths_overflow0 vals ws :
  (length ws < length vals)%nat -> update_widths ws 0 vals = Raise IndexError.
Proof. exact (update_widths_overflow vals [] ws). Qed.

Lemma length_foldl_bump display : forall ws,
  length (foldl bump ws display) = length ws.
Proof.
  induction display as [|vals display IH]; intros ws; cbn; [done|].
  by rewrite IH, length_bump.
Qed.

(** After the loop a width is the starting width or the longest text of its
    column, whichever is larger. *)
Lemma foldl_bump_lookup display : forall ws i,
  foldl bump ws display !! i
  = (fun w => Nat.max w (col_max i display)) <$> ws !! i.
Proof.
  induction display as [|vals display IH]; intros ws i; cbn [foldl col_max foldr].
  - destruct (ws !! i); cbn; [|done]. by rewrite Nat.max_0_r.
  - rewrite IH, bump_lookup. destruct (ws !! i); cbn; [|done].
    by rewrite Nat.max_assoc.
Qed.

Lemma widths_loop_fits rows display : iterates rows display -> forall ws,
  Forall (fun vals => (length vals <= length ws)%nat) display ->
  widths_loop ws rows = Ok (foldl bump ws display).
Proof.
  induction 1 as [|row vals rows display Hrow _ IH]; intros ws Hfit; [done|].
  apply Forall_cons in Hfit as [Hvals Hfit].
  cbn [widths_loop foldl]. rewrite Hrow. cbn [rbind].
  rewrite (update_widths_fits0 vals ws Hvals). cbn [rbind].
  apply IH. by rewrite length_bump.
Qed.

Lemma widths_loop_overflow rows display : iterates rows display -> forall ws,
  Exists (fun vals => (length ws < length vals)%nat) display ->
  widths_loop ws rows = Raise IndexError.
Proof.
  induction 1 as [|row vals rows display Hrow _ IH]; intros ws Hbig.
  - by apply Exists_nil in Hbig.
  - cbn [widths_loop]. rewrite Hrow. cbn [rbind].
    destruct (decide (length vals <= length ws)%nat) as [Hfit|Hover].
    + rewrite (update_widths_fits0 vals ws Hfit). cbn [rbind].
      apply IH. rewrite length_bump.
      apply Exists_cons in Hbig as [Hbig|Hbig]; [lia | done].
    + by rewrite (update_widths_overflow0 vals ws) by lia.
Qed.

(** When the loop returns, every row was iterable and fitted. *)
Lemma widths_loop_inv rows : forall ws ws',
  widths_loop ws rows = Ok ws' ->
  exists display,
    iterates rows display
    /\ Forall (fun vals => (length vals <= length ws)%nat) display
    /\ ws' = foldl bump ws display.
Proof.
  induction rows as [|row rows IH]; intros ws ws' H.
  - cbn in H. simplify_eq. exists []. repeat split; constructor.
  - cbn [widths_loop] in H.
    destruct (py_iter row) as [vals| |] eqn:Hrow; try discriminate. cbn [rbind] in H.
    destruct (decide (length vals <= length ws)%nat) as [Hfit|Hover].
    + rewrite (update_widths_fits0 vals ws Hfit) in H. cbn [rbind] in H.
      apply IH in H as (display & Hit & Hall & ->). rewrite length_bump in Hall.
      exists (vals :: display). repeat split; by constructor.
    + rewrite (update_widths_overflow0 vals ws) in H by lia. discriminate.
Qed.

Lemma fmt_rows_spec ws rows display :
  iterates rows display -> fmt_rows ws rows = Ok (map (fmt_row ws) display).
Proof.
  induction 1 as [|row vals rows display Hrow _ IH]; [done|].
  cbn [fmt_rows map]. by rewrite Hrow, IH.
Qed.

(** ** The layout of the table *)

Lemma lens_inv names : forall ks,
  lens names = Ok ks -> Forall2 (fun n k => py_len n = Ok k) names ks.
Proof.
  induction names as [|n names IH]; intros ks H; cbn in H.
  - simplify_eq. constructor.
  - destruct (py_len n) as [k| |] eqn:Hk; try discriminate. cbn in H.
    destruct (lens names) as [ks'| |]; try discriminate. cbn in H. simplify_eq.
    constructor; [done | by apply IH].
Qed.

Lemma lookup_map {A B} (f : A -> B) (l : list A) : forall i,
  map f l !! i = f <$> l !! i.
Proof. induction l as [|x l IH]; intros [|i]; cbn; try done. Qed.

Lemma slice_stop_nonneg n m : 0 <= m -> slice_stop n m = Z.to_nat m.
Proof. intros H. unfold slice_stop. by rewrite (proj2 (Z.ltb_ge m 0)). Qed.

(** The widths and the lines of a table that was laid out. *)
Lemma table_layout_inv (columns_meta : pyval) (rows : list pyval) (max_rows : Z)
    (widths : list nat) (lines : list string) :
  0 <= max_rows ->
  table_layout columns_meta (VList rows) max_rows = Ok (widths, lines) ->
  exists columns names display,
    py_iter columns_meta = Ok columns
    /\ col_names_from 0 columns = Ok names
    /\ iterates (take (Z.to_nat max_rows) rows) display
    /\ length widths = length names
    /\ (forall i name, names !! i = Some name ->
          exists k, py_len name = Ok k
                    /\ widths !! i = Some (Nat.min (Nat.max k (col_max i display)) 30))
    /\ lines = fmt_row widths names
               :: join "-+-" (map (str_repeat "-") widths)
               :: map (fmt_row widths) display
    /\ (forall vals j cell,
          vals ∈ names :: display ->
          zip_with fmt_cell vals widths !! j = Some cell ->
          exists v w,
            vals !! j = Some v /\ widths !! j = Some w
            /\ cell = ljust w (str_take w (cell_text v))
            /\ String.length cell = w
            /\ (w <= 30)%nat).
Proof.
  intros Hmax H. unfold table_layout in H.
  destruct (py_iter columns_meta) as [columns| |] eqn:Hcols; try discriminate.
  cbn [rbind] in H.
  destruct (col_names_from 0 columns) as [names| |] eqn:Hnames; try discriminate.
  cbn [rbind] in H.
  destruct (lens names) as [ks| |] eqn:Hlens; try discriminate. cbn [rbind] in H.
  apply lens_inv in Hlens.
  cbn [py_slice_to rbind py_iter] in H. rewrite slice_stop_nonneg in H by done.
  destruct (widths_loop ks _) as [ws| |] eqn:Hloop; try discriminate. cbn [rbind] in H.
  apply widths_loop_inv in Hloop as (display & Hit & Hfit & ->).
  rewrite (fmt_rows_spec _ _ _ Hit) in H. cbn [rbind] in H. simplify_eq.
  exists columns, names, display.
  assert (Hlen : length (map (fun w => Nat.min w 30) (foldl bump ks display))
                 = length names).
  { rewrite length_map, length_foldl_bump. symmetry. by eapply Forall2_length. }
  assert (Hw : forall j w,
             map (fun w => Nat.min w 30) (foldl bump ks display) !! j = Some w ->
             (w <= 30)%nat).
  { intros j w Hj. rewrite lookup_map in Hj.
    destruct (foldl bump ks display !! j); simplify_eq/=. lia. }
  repeat split; try done.
  - intros i name Hname.
    destruct (Forall2_lookup_l _ _ _ _ _ Hlens Hname) as (k & Hk & Hlen_k).
    exists k. split; [done|].
    by rewrite lookup_map, foldl_bump_lookup, Hk.
  - intros vals j cell _ Hcell.
    apply lookup_zip_with_Some in Hcell as (v & w & -> & Hv & Hwj).
    exists v, w. repeat split; try done.
    + apply length_fmt_cell.
    + by eapply Hw.
Qed.

(** ** [_format_query_result] *)

(** The function, read through the three values it takes from its argument. *)
Lemma format_query_result_eq (result_data columns_meta rows : pyval) (max_rows : Z) :
  qr_columns result_data = Ok columns_meta ->
  qr_rows result_data = Ok rows ->
  _format_query_result result_data max_rows
  = if negb (truthy rows) || negb (truthy columns_meta) then Ok None
    else
      let? layout := table_layout columns_meta rows max_rows in
      let? n := py_len rows in
      let? total := qr_total result_data n in
      let? more := py_gt total max_rows in
      Ok (Some (render (snd layout)
                  (if more : bool then showing max_rows total else ""))).
Proof.
  unfold qr_columns, qr_rows, qr_total, _format_query_result. intros Hc Hr.
  destruct (py_get result_data "manifest" (VDict [])) as [manifest| |];
    try discriminate. cbn [rbind] in Hc |- *.
  destruct (py_get manifest "schema" (VDict [])) as [schema| |];
    try discriminate. cbn [rbind] in Hc |- *. rewrite Hc. cbn [rbind].
  destruct (py_get result_data "result" (VDict [])) as [data_section| |];
    try discriminate. cbn [rbind] in Hr |- *. rewrite Hr. cbn [rbind].
  reflexivity.
Qed.

Lemma length_str_chars s : length (str_chars s) = String.length s.
Proof. induction s as [|c s IH]; cbn; [done | by rewrite IH]. Qed.

Lemma fmt_rows_length ws rows : forall body,
  fmt_rows ws rows = Ok body -> length body = length rows.
Proof.
  induction rows as [|row rows IH]; intros body H; cbn in H.
  - by simplify_eq.
  - destruct (py_iter row); try discriminate. cbn in H.
    destruct (fmt_rows ws rows) as [b| |]; try discriminate. cbn in H.
    simplify_eq. cbn. by rewrite (IH b).
Qed.

(** The table has the header, the separator and one line for each of the
    first [max_rows] rows. *)
Lemma table_layout_length (columns_meta rows : pyval) (max_rows : Z)
    (widths : list nat) (lines : list string) :
  0 <= max_rows ->
  table_layout columns_meta rows max_rows = Ok (widths, lines) ->
  exists n, py_len rows = Ok n
            /\ length lines = (2 + Nat.min n (Z.to_nat max_rows))%nat.
Proof.
  intros Hmax H. unfold table_layout in H.
  destruct (py_iter columns_meta); try discriminate. cbn [rbind] in H.
  destruct (col_names_from 0 _); try discriminate. cbn [rbind] in H.
  destruct (lens _); try discriminate. cbn [rbind] in H.
  destruct (py_slice_to rows max_rows) as [sliced| |] eqn:Hslice; try discriminate.
  cbn [rbind] in H.
  destruct (py_iter sliced) as [drows| |] eqn:Hiter; try discriminate.
  cbn [rbind] in H.
  destruct (widths_loop _ drows); try discriminate. cbn [rbind] in H.
  destruct (fmt_rows _ drows) as [body| |] eqn:Hbody; try discriminate.
  cbn [rbind] in H. simplify_eq. apply fmt_rows_length in Hbody.
  cbn [length]. rewrite Hbody.
  destruct rows; try discriminate; cbn in Hslice; simplify_eq;
    rewrite slice_stop_nonneg in Hiter by done; cbn in Hiter; simplify_eq;
    eexists; (split; [reflexivity|]).
  - rewrite length_str_chars, length_str_take. lia.
  - rewrite length_take. lia.
Qed.

(** What a returned table is made of. *)
Lemma format_query_result_inv (result_data columns_meta rows : pyval)
    (max_rows : Z) (out : string) :
  0 <= max_rows ->
  qr_columns result_data = Ok columns_meta ->
  qr_rows result_data = Ok rows ->
  _format_query_result result_data max_rows = Ok (Some out) ->
  exists widths lines n total more,
    table_layout columns_meta rows max_rows = Ok (widths, lines)
    /\ py_len rows = Ok n
    /\ length lines = (2 + Nat.min n (Z.to_nat max_rows))%nat
    /\ (length lines - 2 <= Z.to_nat max_rows)%nat
    /\ qr_total result_data n = Ok total
    /\ py_gt total max_rows = Ok more
    /\ out = render lines (if more : bool then showing max_rows total else "").
Proof.
  intros Hmax Hc Hr H.
  rewrite (format_query_result_eq _ _ _ max_rows Hc Hr) in H.
  destruct (negb (truthy rows) || negb (truthy columns_meta)); [discriminate|].
  destruct (table_layout columns_meta rows max_rows) as [[widths lines]| |] eqn:Hl;
    try discriminate. cbn [rbind snd] in H.
  destruct (table_layout_length _ _ _ _ _ Hmax Hl) as (n & Hn & Hlen).
  rewrite Hn in H. cbn [rbind] in H.
  destruct (qr_total result_data n) as [total| |] eqn:Ht; try discriminate.
  cbn [rbind] in H.
  destruct (py_gt total max_rows) as [more| |] eqn:Hm; try discriminate.
  cbn [rbind] in H. simplify_eq.
  exists widths, lines, n, total, more. repeat split; try done. lia.
Qed.

(** C6, as the code has it: nothing is returned when the rows or the columns
    are empty; otherwise the table has 2 + min(len(rows), max_rows) lines,
    so at most [max_rows] data rows, and the text returned is those lines
    between a title line and the code fences, followed by the footer when
    the total exceeds [max_rows]. *)
Theorem format_query_result_lines (result_data columns_meta rows : pyval)
    (max_rows : Z) :
  0 <= max_rows ->
  qr_columns result_data = Ok columns_meta ->
  qr_rows result_data = Ok rows ->
  (truthy rows = false \/ truthy columns_meta = false ->
   _format_query_result result_data max_rows = Ok None)
  /\ (forall out,
        _format_query_result result_data max_rows = Ok (Some out) ->
        exists widths lines n total more,
          table_layout columns_meta rows max_rows = Ok (widths, lines)
          /\ py_len rows = Ok n
          /\ length lines = (2 + Nat.min n (Z.to_nat max_rows))%nat
          /\ (length lines - 2 <= Z.to_nat max_rows)%nat
          /\ qr_total result_data n = Ok total
          /\ py_gt total max_rows = Ok more
          /\ out = render lines (if more : bool then showing max_rows total else "")).
Proof.
  intros Hmax Hc Hr. split.
  - rewrite (format_query_result_eq _ _ _ max_rows Hc Hr).
    intros [-> | ->]; [done|]. by rewrite orb_true_r.
  - intros out. by apply format_query_result_inv.
Qed.

Lemma format_query_result_lines_witness :
  let qr := query_result ["x"] [[VInt 1]; [VInt 2]; [VInt 3]] in
  exists out,
    _format_query_result qr 2 = Ok (Some out)
    /\ exists widths lines n total more,
         table_layout (VList [VDict [("name", VStr "x")]])
           (VList [VList [VInt 1]; VList [VInt 2]; VList [VInt 3]]) 2
         = Ok (widths, lines)
         /\ py_len (VList [VList [VInt 1]; VList [VInt 2]; VList [VInt 3]]) = Ok n
         /\ length lines = (2 + Nat.min n (Z.to_nat 2))%nat
         /\ (length lines - 2 <= Z.to_nat 2)%nat
         /\ qr_total qr n = Ok total
         /\ py_gt total 2 = Ok more
         /\ out = render lines (if more : bool then showing 2 total else "").
Proof.
  intros qr. eexists. split; [vm_compute; reflexivity|].
  apply (format_query_result_lines qr (VList [VDict [("name", VStr "x")]])
           (VList [VList [VInt 1]; VList [VInt 2]; VList [VInt 3]]) 2);
    [lia | reflexivity | reflexivity | reflexivity].
Defined.

(** C6, the claim as written, fails: for one column and three rows the text
    returned has 8 lines (title, fence, header, separator, three rows,
    fence), not 2 + min(3, 15) = 5. *)
Lemma format_line_count_counterexample :
  let qr := query_result ["x"] [[VInt 1]; [VInt 2]; [VInt 3]] in
  (let? out := _format_query_result qr 15 in Ok (line_count <$> out)) = Ok (Some 8%nat)
  /\ 8%nat <> (2 + Nat.min 3 (Z.to_nat 15))%nat.
Proof. split; [reflexivity | vm_compute; lia]. Qed.

(** ** Row arity *)

Lemma col_names_from_dicts cols : forall i,
  Forall name_ok cols ->
  exists names,
    col_names_from i (map VDict cols) = Ok names
    /\ length names = length cols
    /\ Forall (fun n => exists k, py_len n = Ok k) names.
Proof.
  induction cols as [|c cols IH]; intros i Hok.
  - exists []. repeat split; constructor.
  - apply Forall_cons in Hok as [Hc Hok].
    destruct (IH (S i) Hok) as (names & Hnames & Hlen & Hall).
    eexists (_ :: names). cbn [map col_names_from py_get rbind]. rewrite Hnames.
    cbn [rbind]. split; [reflexivity|]. split; [cbn; by rewrite Hlen|].
    constructor; [|done].
    destruct (dict_get c "name") as [v|] eqn:Hv; cbn; [by apply Hc | by eexists].
Qed.

Lemma lens_total names :
  Forall (fun n => exists k, py_len n = Ok k) names ->
  exists ks, lens names = Ok ks /\ length ks = length names.
Proof.
  induction 1 as [|n names [k Hk] _ (ks & Hks & Hlen)].
  - by exists [].
  - exists (k :: ks). cbn [lens]. rewrite Hk, Hks. cbn. by rewrite Hlen.
Qed.

Lemma iterates_lists rows : iterates (map VList rows) rows.
Proof. induction rows; constructor; done. Qed.

Lemma take_map {A B} (f : A -> B) n : forall l, take n (map f l) = map f (take n l).
Proof. induction n as [|n IH]; intros [|x l]; cbn; try done. by rewrite IH. Qed.

(** The layout of a well-formed table: computed when every displayed row
    fits the columns, an IndexError as soon as one has more values. *)
Lemma table_layout_arity (cols : list (list (string * pyval)))
    (rows : list (list pyval)) (max_rows : Z) :
  0 <= max_rows ->
  Forall name_ok cols ->
  let shown := take (Z.to_nat max_rows) rows in
  (Forall (fun r => (length r <= length cols)%nat) shown ->
   exists widths names,
     length widths = length cols
     /\ table_layout (VList (map VDict cols)) (VList (map VList rows)) max_rows
        = Ok (widths,
              fmt_row widths names
              :: join "-+-" (map (str_repeat "-") widths)
              :: map (fmt_row widths) shown))
  /\ (Exists (fun r => (length cols < length r)%nat) shown ->
      table_layout (VList (map VDict cols)) (VList (map VList rows)) max_rows
      = Raise IndexError).
Proof.
  intros Hmax Hok shown.
  destruct (col_names_from_dicts cols O Hok) as (names & Hnames & Hlen & Hall).
  destruct (lens_total names Hall) as (ks & Hks & Hlen').
  assert (Hks_len : length ks = length cols) by congruence.
  unfold table_layout. cbn [py_iter rbind]. rewrite Hnames. cbn [rbind].
  rewrite Hks. cbn [rbind py_slice_to py_iter].
  rewrite slice_stop_nonneg by done. rewrite take_map. fold shown.
  pose proof (iterates_lists shown) as Hit.
  split.
  - intros Hfit.
    rewrite (widths_loop_fits _ _ Hit ks) by (by rewrite Hks_len).
    cbn [rbind]. rewrite (fmt_rows_spec _ _ _ Hit). cbn [rbind].
    eexists _, names. split; [|reflexivity].
    by rewrite length_map, length_foldl_bump.
  - intros Hbig.
    by rewrite (widths_loop_overflow _ _ Hit ks) by (by rewrite Hks_len).
Qed.

(** C10: on a well-formed query result, with [max_rows] not negative, the
    function returns a table whenever each of the first [max_rows] rows has
    at most as many values as there are columns: the width update stays in
    range, and a row with fewer values gets one cell per value and no more.
    When one of those rows has more values than there are columns the width
    update raises IndexError. *)
Theorem format_query_result_arity (result_data : pyval)
    (cols : list (list (string * pyval))) (rows : list (list pyval))
    (max_rows total : Z) :
  0 <= max_rows ->
  qr_columns result_data = Ok (VList (map VDict cols)) ->
  qr_rows result_data = Ok (VList (map VList rows)) ->
  Forall name_ok cols ->
  qr_total result_data (length rows) = Ok (VInt total) ->
  let shown := take (Z.to_nat max_rows) rows in
  (cols = [] \/ rows = [] -> _format_query_result result_data max_rows = Ok None)
  /\ (cols <> [] -> rows <> [] ->
      Forall (fun r => (length r <= length cols)%nat) shown ->
      exists widths names out,
        length widths = length cols
        /\ _format_query_result result_data max_rows = Ok (Some out)
        /\ out = render (fmt_row widths names
                         :: join "-+-" (map (str_repeat "-") widths)
                         :: map (fmt_row widths) shown)
                   (if Z.ltb max_rows total then showing max_rows (VInt total) else "")
        /\ Forall (fun r => length (zip_with fmt_cell r widths) = length r) shown)
  /\ (cols <> [] ->
      Exists (fun r => (length cols < length r)%nat) shown ->
      _format_query_result result_data max_rows = Raise IndexError).
Proof.
  intros Hmax Hc Hr Hok Htotal shown.
  rewrite (format_query_result_eq _ _ _ max_rows Hc Hr).
  destruct (table_layout_arity cols rows max_rows Hmax Hok) as [Hfits Hover].
  fold shown in Hfits, Hover. split; [|split].
  - intros [-> | ->]; [by rewrite orb_true_r | done].
  - intros Hcols Hrows Hfit.
    replace (negb (truthy (VList (map VList rows)))
             || negb (truthy (VList (map VDict cols)))) with false
      by (by destruct rows, cols).
    destruct (Hfits Hfit) as (widths & names & Hlen & Hlayout).
    rewrite Hlayout. cbn [rbind py_len snd]. rewrite length_map, Htotal.
    cbn [rbind py_gt]. exists widths, names. eexists.
    split; [done|]. split; [reflexivity|]. split; [by destruct (Z.ltb max_rows total)|].
    eapply Forall_impl; [exact Hfit|]. intros r Hr_len. cbn beta in Hr_len.
    rewrite length_zip_with. lia.
  - intros Hcols Hbig.
    assert (Hrows : rows <> []).
    { intros ->. subst shown. rewrite take_nil in Hbig. by apply Exists_nil in Hbig. }
    replace (negb (truthy (VList (map VList rows)))
             || negb (truthy (VList (map VDict cols)))) with false
      by (by destruct rows, cols).
    by rewrite (Hover Hbig).
Qed.

Lemma format_query_result_arity_witness :
  (exists widths names out,
     length widths = 2%nat
     /\ _format_query_result (query_result ["a"; "b"] [[VInt 1; VInt 2]; [VInt 3]]) 15
        = Ok (Some out)
     /\ out = render (fmt_row widths names
                      :: join "-+-" (map (str_repeat "-") widths)
                      :: map (fmt_row widths) [[VInt 1; VInt 2]; [VInt 3]])
                ""
     /\ Forall (fun r => length (zip_with fmt_cell r widths) = length r)
          [[VInt 1; VInt 2]; [VInt 3]])
  /\ _format_query_result (query_result ["a"; "b"] [[VInt 1; VInt 2; VInt 3]]) 15
     = Raise IndexError.
Proof.
  assert (Hok : Forall name_ok [[("name", VStr "a")]; [("name", VStr "b")]]).
  { repeat constructor; intros v Hv; vm_compute in Hv; simplify_eq; by eexists. }
  split.
  - apply (format_query_result_arity
             (query_result ["a"; "b"] [[VInt 1; VInt 2]; [VInt 3]])
             [[("name", VStr "a")]; [("name", VStr "b")]]
             [[VInt 1; VInt 2]; [VInt 3]] 15 2);
      [lia | reflexivity | reflexivity | exact Hok | reflexivity | done | done |].
    repeat constructor.
  - apply (format_query_result_arity
             (query_result ["a"; "b"] [[VInt 1; VInt 2; VInt 3]])
             [[("name", VStr "a")]; [("name", VStr "b")]]
             [[VInt 1; VInt 2; VInt 3]] 15 1);
      [lia | reflexivity | reflexivity | exact Hok | reflexivity | done |].
    apply Exists_cons_hd. cbn. lia.
Defined.

(** ** Column widths *)

(** The primitives of the model against the library functions the
    specification side is written with. *)
Lemma join_concat (sep : string) (l : list string) : join sep l = String.concat sep l.
Proof.
  induction l as [|x l IH]; [done|]. destruct l as [|y l]; [done|].
  change (join sep (x :: y :: l)) with (x +:+ sep +:+ join sep (y :: l)).
  by rewrite IH.
Qed.

Lemma str_take_substring (w : nat) : forall s, str_take w s = substring 0 w s.
Proof.
  induction w as [|w IH]; intros [|c s]; cbn; try done. by rewrite IH.
Qed.

Lemma str_take_all (w : nat) : forall s,
  (String.length s <= w)%nat -> str_take w s = s.
Proof.
  induction w as [|w IH]; intros [|c s] H; cbn in H |- *; try done; try lia.
  rewrite IH; [done | lia].
Qed.

Lemma str_repeat_pad (c : ascii) (n : nat) : str_repeat c n = spec_pad c n.
Proof.
  unfold spec_pad. induction n as [|n IH]; cbn; [done | by rewrite IH].
Qed.

Lemma append_empty_r (s : string) : s +:+ "" = s.
Proof.
  induction s as [|c s IH]; [done|].
  change (String c s +:+ "") with (String c (s +:+ "")). by rewrite IH.
Qed.

Lemma cell_text_spec (v : pyval) : cell_text v = spec_text v.
Proof. by destruct v. Qed.

(** The cell the code renders is the cell of the specification. *)
Lemma fmt_cell_spec (v : pyval) (w : nat) : fmt_cell v w = spec_cell w (spec_text v).
Proof.
  unfold fmt_cell, ljust, spec_cell. rewrite cell_text_spec.
  destruct (Nat.leb_spec (String.length (spec_text v)) w) as [Hfit|Hcut].
  - rewrite str_take_all by done. by rewrite str_repeat_pad.
  - rewrite length_str_take.
    replace (w - Nat.min w (String.length (spec_text v)))%nat with O by lia.
    cbn [str_repeat]. rewrite str_take_substring. apply append_empty_r.
Qed.

Lemma fmt_row_spec (widths : list nat) (vals : list pyval) :
  fmt_row widths vals = spec_line widths vals.
Proof.
  unfold fmt_row, spec_line, spec_cells. rewrite join_concat. f_equal.
  revert widths. induction vals as [|v vals IH]; intros [|w ws]; cbn; try done.
  by rewrite fmt_cell_spec, IH.
Qed.

Lemma separator_spec (widths : list nat) :
  join "-+-" (map (str_repeat "-") widths) = spec_separator widths.
Proof.
  unfold spec_separator. rewrite join_concat. f_equal.
  apply map_ext. intros w. apply str_repeat_pad.
Qed.

(** The longest text of a column, as the width loop finds it. *)
Lemma col_max_spec (i : nat) (display : list (list pyval)) :
  col_max i display
  = foldr Nat.max O
      (map (fun v => String.length (spec_text v)) (spec_column i display)).
Proof.
  unfold col_max, spec_column.
  induction display as [|vals display IH]; [done|].
  cbn [foldr]. rewrite IH. unfold cell_len. cbn.
  destruct (vals !! i) as [v|]; cbn; [by rewrite cell_text_spec | done].
Qed.

(** The header names, column by column. *)
Lemma col_names_from_spec (columns : list pyval) : forall i names,
  col_names_from i columns = Ok names ->
  length names = length columns
  /\ forall j c, columns !! j = Some c ->
       exists n, names !! j = Some n
                 /\ py_get c "name" (VStr ("col_" +:+ pretty (i + j)%nat)) = Ok n.
Proof.
  induction columns as [|c columns IH]; intros i names H; cbn in H.
  - simplify_eq. split; [done|]. intros j c Hc. by destruct j.
  - destruct (py_get c "name" _) as [n| |] eqn:Hn; try discriminate. cbn in H.
    destruct (col_names_from (S i) columns) as [ns| |] eqn:Hns; try discriminate.
    cbn in H. simplify_eq. destruct (IH _ _ Hns) as [Hlen Hat]. split.
    + cbn. by rewrite Hlen.
    + intros [|j] c' Hc'; cbn in Hc'.
      * simplify_eq. exists n. split; [done|]. by rewrite Nat.add_0_r.
      * destruct (Hat j c' Hc') as (n' & Hn' & Hget). exists n'. split; [done|].
        by replace (i + S j)%nat with (S i + j)%nat by lia.
Qed.

(** C7: in the table [_format_query_result] returns, the header of column
    [i] is the name of the column (["col_i"] without one); the width of a
    column is the larger of the header length and the longest value text
    among the first [max_rows] rows, capped at 30; the text returned holds
    the header line, the separator of dashes sized to the widths and one
    line per displayed row; and every cell of these lines, header or data,
    is the text left-justified and truncated to exactly the column width,
    so no cell is longer than 30. *)
Theorem format_query_result_widths (result_data columns_meta : pyval)
    (rows : list pyval) (max_rows : Z) (out : string) :
  0 <= max_rows ->
  qr_columns result_data = Ok columns_meta ->
  qr_rows result_data = Ok (VList rows) ->
  _format_query_result result_data max_rows = Ok (Some out) ->
  exists widths footer columns names display,
    py_iter columns_meta = Ok columns
    /\ length names = length columns
    /\ (forall i c, columns !! i = Some c ->
          exists name, names !! i = Some name
                       /\ py_get c "name" (VStr ("col_" +:+ pretty i)) = Ok name)
    /\ iterates (take (Z.to_nat max_rows) rows) display
    /\ length widths = length names
    /\ (forall i name, names !! i = Some name ->
          exists k, py_len name = Ok k
                    /\ widths !! i = Some (spec_width k (spec_column i display)))
    /\ out = render (spec_line widths names
                     :: spec_separator widths
                     :: map (spec_line widths) display) footer
    /\ (forall vals j cell,
          vals ∈ names :: display ->
          spec_cells widths vals !! j = Some cell ->
          exists v w,
            vals !! j = Some v /\ widths !! j = Some w
            /\ cell = spec_cell w (spec_text v)
            /\ String.length cell = w
            /\ (w <= 30)%nat).
Proof.
  intros Hmax Hc Hr H.
  destruct (format_query_result_inv _ _ _ _ _ Hmax Hc Hr H)
    as (widths & lines & n & total & more & Hlayout & _ & _ & _ & _ & _ & ->).
  destruct (table_layout_inv _ _ _ _ _ Hmax Hlayout)
    as (columns & names & display & Hcols & Hnames & Hit & Hlen & Hw & -> & Hcells).
  destruct (col_names_from_spec _ _ _ Hnames) as [Hcount Hat].
  exists widths, (if more then showing max_rows total else ""),
    columns, names, display.
  split; [done|]. split; [done|].
  split; [exact Hat|]. split; [done|]. split; [done|]. split; [|split].
  - intros i name Hname. destruct (Hw i name Hname) as (k & Hk & Hwi).
    exists k. split; [done|]. by rewrite Hwi, col_max_spec.
  - rewrite fmt_row_spec, separator_spec. do 3 f_equal.
    apply map_ext. intros vals. apply fmt_row_spec.
  - intros vals j cell _ Hcell. unfold spec_cells in Hcell.
    apply lookup_zip_with_Some in Hcell as (v & w & -> & Hv & Hwj).
    exists v, w. split; [done|]. split; [done|]. split; [done|].
    rewrite <- fmt_cell_spec. split; [apply length_fmt_cell|].
    assert (Hj : (j < length names)%nat) by (rewrite <- Hlen; by eapply lookup_lt_Some).
    apply lookup_lt_is_Some in Hj as [name Hname].
    destruct (Hw j name Hname) as (k & _ & Hwj').
    rewrite Hwj in Hwj'. simplify_eq. lia.
Qed.

Lemma format_query_result_widths_witness :
  let qr := query_result ["city"; "n"]
              [[VStr "Paris"; VInt 5];
               [VStr "A very long city name that goes past thirty"; VInt 12345]] in
  let rows := [VList [VStr "Paris"; VInt 5];
               VList [VStr "A very long city name that goes past thirty"; VInt 12345]] in
  exists out,
    _format_query_result qr 15 = Ok (Some out)
    /\ exists widths footer columns names display,
         py_iter (VList [VDict [("name", VStr "city")]; VDict [("name", VStr "n")]])
         = Ok columns
         /\ length names = length columns
         /\ (forall i c, columns !! i = Some c ->
               exists name, names !! i = Some name
                            /\ py_get c "name" (VStr ("col_" +:+ pretty i)) = Ok name)
         /\ iterates (take (Z.to_nat 15) rows) display
         /\ length widths = length names
         /\ (forall i name, names !! i = Some name ->
               exists k, py_len name = Ok k
                         /\ widths !! i = Some (spec_width k (spec_column i display)))
         /\ out = render (spec_line widths names
                          :: spec_separator widths
                          :: map (spec_line widths) display) footer
         /\ (forall vals j cell,
               vals ∈ names :: display ->
               spec_cells widths vals !! j = Some cell ->
               exists v w,
                 vals !! j = Some v /\ widths !! j = Some w
                 /\ cell = spec_cell w (spec_text v)
                 /\ String.length cell = w
                 /\ (w <= 30)%nat).
Proof.
  intros qr rows. eexists. split; [vm_compute; reflexivity|].
  apply (format_query_result_widths qr
           (VList [VDict [("name", VStr "city")]; VDict [("name", VStr "n")]])
           rows 15); [lia | reflexivity | reflexivity | reflexivity].
Defined.

(** The widths of that table: the long city name is cut at 30. *)
Example widths_example :
  let columns_meta := VList [VDict [("name", VStr "city")]; VDict [("name", VStr "n")]] in
  let rows := VList [VList [VStr "Paris"; VInt 5];
                     VList [VStr "A very long city name that goes past thirty";
                            VInt 12345]] in
  fst <$> (match table_layout columns_meta rows 15 with Ok l => Some l | _ => None end)
  = Some [30; 5]%nat.
Proof. reflexivity. Qed.

(** * Further properties *)

(** ** [ask]: the failures before polling *)

(** When the opening request fails, [ask] stops there: the answer is the
    send failure with the conversation id it was given, and no status check
    is made. *)
Theorem ask_send_failure (self : GenieClient) (fuel : nat) (question : string)
    (conversation_id : pyval) (st : State) :
  let first := send_request question conversation_id in
  session self (requests st ++ [first]) = VNone ->
  ask self fuel question conversation_id st
  = (Ok (VDict [("success", VBool false);
                ("conversation_id", conversation_id);
                ("error", VStr "Failed to send message to Genie")]),
     advance st 0 [first]).
Proof.
  intros first Hraw. unfold ask. unfold bind at 1.
  assert (Hsend : (if truthy conversation_id
                   then create_message self conversation_id question
                   else start_conversation self question) st
                  = (Ok VNone, advance st 0 [first])).
  { subst first. unfold send_request, create_message, start_conversation in *.
    destruct (truthy conversation_id); rewrite request_advance; by rewrite Hraw. }
  rewrite Hsend. reflexivity.
Qed.

Lemma ask_send_failure_witness :
  ask {| poll_interval := 2; max_wait := 90; session := scripted [] |}
    0 "total revenue?" (VStr "c1") st0
  = (Ok (VDict [("success", VBool false);
                ("conversation_id", VStr "c1");
                ("error", VStr "Failed to send message to Genie")]),
     advance st0 0 [CreateMessage (VStr "c1") "total revenue?"]).
Proof.
  apply (ask_send_failure _ 0 "total revenue?" (VStr "c1") st0). reflexivity.
Defined.

(** When the response to the opening request yields no conversation id or
    no message id, [ask] returns the extraction failure, keeps the
    conversation id it was given, and makes no status check. *)
Theorem ask_missing_ids (self : GenieClient) (fuel : nat) (question : string)
    (conversation_id cid mid : pyval) (st : State) :
  let first := send_request question conversation_id in
  let raw := session self (requests st ++ [first]) in
  is_none raw = false ->
  extract_ids raw conversation_id = Ok (cid, mid) ->
  truthy cid = false \/ truthy mid = false ->
  ask self fuel question conversation_id st
  = (Ok (VDict [("success", VBool false);
                ("conversation_id", conversation_id);
                ("error",
                 VStr "Could not extract conversation/message IDs from response")]),
     advance st 0 [first]).
Proof.
  intros first raw Hraw Hids Hmissing. unfold ask. unfold bind at 1.
  assert (Hsend : (if truthy conversation_id
                   then create_message self conversation_id question
                   else start_conversation self question) st
                  = (Ok raw, advance st 0 [first])).
  { subst raw first. unfold send_request, create_message, start_conversation.
    destruct (truthy conversation_id); apply request_advance. }
  rewrite Hsend, Hraw. unfold bind at 1, lift at 1. rewrite Hids. cbn [fst snd].
  replace (negb (truthy cid) || negb (truthy mid)) with true; [reflexivity|].
  destruct Hmissing as [-> | ->]; [done | by rewrite orb_true_r].
Qed.

(** An empty response body, which [_request] turns into an empty dict, is
    such a response. *)
Lemma ask_missing_ids_witness :
  ask {| poll_interval := 2; max_wait := 90; session := scripted [VDict []] |}
    0 "total revenue?" VNone st0
  = (Ok (VDict [("success", VBool false);
                ("conversation_id", VNone);
                ("error",
                 VStr "Could not extract conversation/message IDs from response")]),
     advance st0 0 [StartConversation "total revenue?"]).
Proof.
  apply (ask_missing_ids _ 0 "total revenue?" VNone VNone VNone st0);
    [reflexivity | reflexivity | by left].
Defined.

(** ** [ask]: the first terminal payload *)

Lemma terminal_status msg :
  terminal msg = true ->
  is_none msg = false /\
  exists status, py_get msg "status" VNone = Ok status
    /\ (is_str "COMPLETED" status
        || (is_str "FAILED" status || is_str "CANCELLED" status)) = true.
Proof.
  destruct msg; cbn; try discriminate. intros H. split; [done|].
  eexists; split; [reflexivity|]. by rewrite orb_assoc.
Qed.

(** The loop returns a terminal payload as it comes, without sleeping. *)
Lemma poll_loop_terminal (self : GenieClient) (cid mid : pyval) (fuel : nat)
    (deadline : Z) (st : State) :
  now st < deadline ->
  terminal (session self (requests st ++ [GetMessage cid mid])) = true ->
  poll_loop self (S fuel) deadline cid mid st
  = (Ok (session self (requests st ++ [GetMessage cid mid])),
     advance st 0 [GetMessage cid mid]).
Proof.
  intros Hlt Hterm. apply terminal_status in Hterm as (Hn & status & Hs & Hany).
  cbn [poll_loop]. unfold bind at 1, time_time at 1.
  apply Z.ltb_lt in Hlt. rewrite Hlt.
  unfold bind at 1. unfold get_message. rewrite request_advance.
  rewrite Hn. unfold bind at 1, lift at 1. rewrite Hs.
  destruct (is_str "COMPLETED" status); [reflexivity|].
  cbn [orb] in Hany. by rewrite Hany.
Qed.

(** After any number of pending payloads, the first terminal payload that
    arrives before the deadline ends the polling: [ask] makes no further
    status check and answers with the parse of that payload. *)
Theorem ask_first_terminal (self : GenieClient) (fuel k : nat) (question : string)
    (conversation_id cid mid : pyval) (st : State) :
  let first := send_request question conversation_id in
  let raw := session self (requests st ++ [first]) in
  let check := GetMessage cid mid in
  let msg := session self (requests st ++ first :: replicate (S k) check) in
  0 <= poll_interval self ->
  Z.of_nat k * poll_interval self < max_wait self ->
  (k < fuel)%nat ->
  is_none raw = false ->
  extract_ids raw conversation_id = Ok (cid, mid) ->
  truthy cid = true ->
  truthy mid = true ->
  (forall j, (j < k)%nat ->
     pending (session self (requests st ++ first :: replicate (S j) check)) = true) ->
  terminal msg = true ->
  ask self fuel question conversation_id st
  = _parse_response self cid mid msg
      (advance st (Z.of_nat k * poll_interval self) (first :: replicate (S k) check)).
Proof.
  intros first raw check msg Hpi Hk Hfuel Hraw Hids Hc Hm Hpend Hterm.
  rewrite (ask_after_send self fuel question conversation_id cid mid st Hraw Hids Hc Hm).
  fold first. unfold bind at 1. unfold _poll_until_done, bind at 1, time_time at 1.
  rewrite (poll_loop_steps self cid mid k fuel); [| lia | lia | |].
  - destruct (fuel - k)%nat as [|f] eqn:Ef; [lia|].
    assert (Hreq : requests (advance (advance st 0 [first])
                               (Z.of_nat k * poll_interval self) (replicate k check))
                   ++ [check]
                   = requests st ++ first :: replicate (S k) check).
    { cbn [advance requests]. rewrite <- !app_assoc. cbn [app]. fold check.
      by rewrite <- replicate_S_end. }
    rewrite poll_loop_terminal.
    + fold check. rewrite Hreq. fold msg.
      destruct (terminal_status msg Hterm) as [-> _].
      rewrite !advance_advance. do 2 f_equal; [lia|].
      cbn [app]. f_equal. symmetry. apply replicate_S_end.
    + cbn [advance now]. nia.
    + fold check. by rewrite Hreq.
  - intros j Hj. cbn [advance now]. nia.
  - intros j Hj. cbn [advance requests]. rewrite <- app_assoc. apply Hpend, Hj.
Qed.

Lemma ask_first_terminal_witness :
  let self := {| poll_interval := 2; max_wait := 90;
                 session := scripted [started "c1" "m1"; with_status "EXECUTING";
                                      completed [text_attachment "42"]] |} in
  ask self 3 "total revenue?" VNone st0
  = _parse_response self (VStr "c1") (VStr "m1") (completed [text_attachment "42"])
      (advance st0 2 (StartConversation "total revenue?"
                      :: replicate 2 (GetMessage (VStr "c1") (VStr "m1")))).
Proof.
  intros self.
  apply (ask_first_terminal self 3 1 "total revenue?" VNone (VStr "c1") (VStr "m1") st0);
    try reflexivity; try (subst self; cbn; lia).
  intros j Hj. destruct j; [reflexivity | lia].
Defined.

(** ** The answer text *)

Lemma parse_attachment_parts (self : GenieClient) (cid mid : pyval)
    (acc : ParseAcc) (att : pyval) (st : State) (acc' : ParseAcc) (st' : State) :
  parse_attachment self cid mid acc att st = (Ok acc', st') ->
  text_parts acc' = text_parts acc ++ att_parts att.
Proof.
  unfold parse_attachment, att_parts, get_query_result.
  unfold bind, lift, ret, py_in, py_getitem, py_get.
  intros H.
  destruct att; try discriminate.
  all: repeat (case_match; simplify_eq/=); try done.
  all: rewrite ?app_nil_r, <- ?app_assoc; try done.
Qed.

Lemma parse_attachments_parts (self : GenieClient) (cid mid : pyval) atts :
  forall acc st acc' st',
  parse_attachments self cid mid acc atts st = (Ok acc', st') ->
  text_parts acc' = text_parts acc ++ concat (map att_parts atts).
Proof.
  induction atts as [|att atts IH]; intros acc st acc' st' H.
  - cbn in H. unfold ret in H. simplify_eq. cbn. by rewrite app_nil_r.
  - cbn [parse_attachments] in H. unfold bind at 1 in H.
    destruct (parse_attachment self cid mid acc att st) as [[acc1| |] st1] eqn:E1;
      try discriminate.
    apply parse_attachment_parts in E1. apply IH in H.
    rewrite H, E1. cbn [map concat]. by rewrite app_assoc.
Qed.

(** On a COMPLETED payload the answer text is made of the text contents and
    query descriptions of the attachments, in the order they appear, joined
    by a blank line and stripped; when there is none, it is the stripped
    content of the message, empty when the message has none. *)
Theorem parse_response_text (self : GenieClient) (cid mid msg : pyval)
    (st st' : State) (result : pyval) :
  py_get msg "status" VNone = Ok (VStr "COMPLETED") ->
  _parse_response self cid mid msg st = (Ok result, st') ->
  exists atts joined,
    msg_attachments msg = Ok atts
    /\ py_join (nl +:+ nl) (concat (map att_parts atts)) = Ok joined
    /\ (joined <> "" -> py_get result "text" VNone = Ok (VStr (strip joined)))
    /\ (joined = "" ->
        exists content,
          py_get msg "content" (VStr "") = Ok (VStr content)
          /\ py_get result "text" VNone = Ok (VStr (strip content))).
Proof.
  intros Hstatus H. unfold _parse_response in H.
  unfold bind at 1, lift at 1 in H. rewrite Hstatus in H.
  cbn [is_str] in H. rewrite String.eqb_refl in H. cbn [negb] in H.
  unfold msg_attachments.
  unfold bind at 1, lift at 1 in H.
  destruct (py_get msg "attachments" VNone) as [a0| |]; try discriminate.
  cbn [rbind]. unfold bind at 1, lift at 1 in H.
  destruct (py_iter (if truthy a0 then a0 else VList [])) as [atts| |]; try discriminate.
  exists atts.
  unfold bind at 1 in H.
  destruct (parse_attachments self cid mid _ atts st) as [[acc| |] st1] eqn:Eloop;
    try discriminate.
  apply parse_attachments_parts in Eloop. cbn [text_parts app] in Eloop.
  rewrite Eloop in H. clear Eloop.
  unfold bind at 1, lift at 1 in H.
  destruct (py_join (nl +:+ nl) _) as [joined| |]; try discriminate.
  exists joined. split; [done|]. split; [done|].
  unfold bind at 1 in H.
  destruct (String.eqb joined "") eqn:Hj; cbn [negb] in H.
  - apply String.eqb_eq in Hj. split; [done|]. intros _.
    unfold lift at 1 in H.
    destruct (py_get msg "content" (VStr "")) as [content| |]; try discriminate.
    unfold bind, lift, ret in H.
    destruct content; cbn in H; try discriminate. simplify_eq.
    eexists. split; reflexivity.
  - apply String.eqb_neq in Hj. split; [|done]. intros _.
    unfold ret at 1 in H. unfold bind, lift, ret in H. cbn in H. by simplify_eq.
Qed.

Lemma parse_response_text_witness :
  let self := {| poll_interval := 2; max_wait := 90;
                 session := scripted [] |} in
  let msg := completed [text_attachment "  Revenue by region ";
                        VDict [("query", VDict [("query", VStr "SELECT 1");
                                                ("description", VStr "Sums the orders")])]] in
  exists result st',
    _parse_response self (VStr "c1") (VStr "m1") msg st0 = (Ok result, st')
    /\ py_get result "text" VNone
       = Ok (VStr ("Revenue by region " +:+ nl +:+ nl +:+ "Sums the orders")).
Proof.
  intros self msg. eexists _, _. split; [vm_compute; reflexivity|].
  destruct (parse_response_text self (VStr "c1") (VStr "m1") msg st0 _ _
              eq_refl eq_refl) as (atts & joined & Hatts & Hjoin & Htext & _).
  vm_compute in Hatts. simplify_eq. vm_compute in Hjoin. simplify_eq.
  apply Htext. discriminate.
Defined.

(** ** The reply text *)






(** ** The question handler, step by step *)

(** A question that is handled to the end went through [ask] once, had the
    answer's conversation id bound to its thread, and then was replied to. *)
Lemma handle_question_inv (self : SlackGenieBot) (fuel : nat) (event : Event)
    (channel thread_ts : string) (st st' : State) :
  str_truthy (ev_bot_id event) = false ->
  ev_channel event = Some channel ->
  event_thread event = Some thread_ts ->
  strip (event_question event) <> "" ->
  _handle_question self fuel event st = (Ok tt, st') ->
  exists result st1 result_cid,
    ask (genie self) fuel (event_question event)
      (default VNone (thread_conversations st !! thread_ts))
      (posted st (ChatPostMessage channel "Thinking..." thread_ts false))
    = (Ok result, st1)
    /\ py_get result "conversation_id" VNone = Ok result_cid
    /\ reply_steps self channel thread_ts result result_cid (truthy result_cid)
         (bind_thread st1 thread_ts result_cid)
       = (Ok tt, st').
Proof.
  intros Hbot Hchannel Hthread Htext H.
  unfold _handle_question in H. rewrite Hbot, Hchannel in H.
  fold (event_question event) in H.
  unfold bind at 1, lift at 1 in H. cbn [require] in H.
  assert (Hts : (if str_truthy (ev_thread_ts event)
                 then ret (default "" (ev_thread_ts event))
                 else lift (require (ev_ts event))) st = (Ok thread_ts, st)).
  { unfold event_thread in Hthread.
    destruct (str_truthy (ev_thread_ts event)); rewrite Hthread; reflexivity. }
  unfold bind at 1 in H. rewrite Hts in H. clear Hts.
  apply String.eqb_neq in Htext. rewrite Htext in H.
  unfold bind at 1 in H. rewrite slack_call_posted in H.
  destruct (client self _) as [response|]; [|discriminate].
  unfold bind at 1, get_thread_conversation at 1 in H.
  cbn [thread_conversations posted] in H.
  unfold bind at 1 in H.
  destruct (ask (genie self) fuel (event_question event) _ _)
    as [[result| |] st1] eqn:Eask; try discriminate.
  exists result, st1.
  unfold bind at 1, lift at 1 in H.
  destruct (py_get result "conversation_id" VNone) as [result_cid| |] eqn:Ecid;
    try discriminate.
  exists result_cid. split; [done|]. split; [done|].
  unfold bind at 1 in H. unfold bind_thread.
  destruct (truthy result_cid) eqn:Etruthy; cbn [when] in H.
  - unfold bind at 1, lift at 1 in H.
    assert (Hitem : py_getitem result "conversation_id" = Ok result_cid).
    { destruct result; try discriminate. cbn in Ecid |- *.
      destruct (dict_get kv "conversation_id"); cbn in Ecid; simplify_eq;
        try done; discriminate. }
    rewrite Hitem in H. unfold set_thread_conversation at 1 in H. exact H.
  - unfold ret at 1 in H. exact H.
Qed.

Lemma bind_ok {A B} (m : M A) (k : A -> M B) (st st' : State) (b : B) :
  (let* x := m in k x) st = (Ok b, st') ->
  exists a st1, m st = (Ok a, st1) /\ k a st1 = (Ok b, st').
Proof.
  unfold bind. destruct (m st) as [[a| |] st1]; try discriminate. eauto.
Qed.

Lemma say_keeps {X} (f : State -> X) (self : SlackGenieBot) text thread_ts :
  (forall st c, f (posted st c) = f st) -> keeps f (say self text thread_ts).
Proof.
  intros Hf. unfold say. apply keeps_bind; [by apply slack_call_keeps|].
  intros ?. apply keeps_ret.
Qed.

(** Posting the feedback prompt never raises: the outcome is the response,
    or [None] when the call failed. *)
Lemma send_feedback_buttons_eq (self : SlackGenieBot) (channel thread_ts : string)
    (st : State) :
  let prompt := ChatPostMessage channel "Was this response helpful?" thread_ts true in
  _send_feedback_buttons self channel thread_ts st
  = (Ok (client self (slack_calls st ++ [prompt])), posted st prompt).
Proof.
  intros prompt. unfold _send_feedback_buttons, try_except, bind.
  rewrite slack_call_posted. fold prompt.
  by destruct (client self (slack_calls st ++ [prompt])).
Qed.

(** The feedback prompt: posted only after a success with both ids, and
    bound to them under the [ts] of the prompt; when posting it fails the
    handler carries on without a binding. *)
Lemma reply_steps_feedback (self : SlackGenieBot) (channel thread_ts : string)
    (result result_cid : pyval) (bound : bool) (st st' : State) :
  reply_steps self channel thread_ts result result_cid bound st = (Ok tt, st') ->
  exists success message_id,
    py_get result "success" VNone = Ok success
    /\ py_get result "message_id" VNone = Ok message_id
    /\ feedback_map st'
       = if truthy success && bound && truthy message_id
         then match client self (slack_calls st') with
              | Some ts => <[ts := (result_cid, message_id)]> (feedback_map st)
              | None => feedback_map st
              end
         else feedback_map st.
Proof.
  unfold reply_steps. intros H.
  apply bind_ok in H as (answer & st1 & H1 & H).
  apply (keeps_lift feedback_map) in H1.
  apply bind_ok in H as ([] & st2 & H2 & H).
  apply (say_keeps feedback_map) in H2; [|done].
  apply bind_ok in H as (data & st3 & H3 & H).
  apply (keeps_lift feedback_map) in H3.
  apply bind_ok in H as ([] & st4 & H4 & H).
  match type of H4 with
  | ?m _ = _ =>
      assert (K4 : keeps feedback_map m)
        by (apply keeps_when; repeat first [ by apply say_keeps | keeps_step ])
  end.
  apply K4 in H4.
  assert (K : feedback_map st4 = feedback_map st) by congruence.
  clear H1 H2 H3 H4 K4.
  apply bind_ok in H as (success & st5 & H5 & H).
  unfold lift in H5.
  apply bind_ok in H as (message_id & st6 & H6 & H).
  unfold lift in H6. simplify_eq.
  exists success, message_id. split; [done|]. split; [done|].
  destruct (truthy success && bound && truthy message_id); cbn [when] in H.
  - apply bind_ok in H as (fb_resp & st7 & H7 & H).
    rewrite send_feedback_buttons_eq in H7. simplify_eq.
    destruct (client self (slack_calls st6 ++ _)) as [ts|] eqn:Ec.
    + unfold set_feedback in H. simplify_eq.
      cbn [slack_calls posted feedback_map]. by rewrite Ec, K.
    + unfold ret in H. simplify_eq.
      cbn [slack_calls posted feedback_map]. by rewrite Ec.
  - unfold ret in H. by simplify_eq.
Qed.

Lemma feedback_map_bind_thread st thread_ts result_cid :
  feedback_map (bind_thread st thread_ts result_cid) = feedback_map st.
Proof. unfold bind_thread. by destruct (truthy result_cid). Qed.

(** ** Feedback bindings *)

(** A handled question leaves the feedback map as it was unless the answer
    is a success with a conversation id and a message id: then the prompt is
    posted last, and its [ts] is bound to that pair of ids, or nothing is
    bound when posting the prompt failed. *)
Theorem handle_question_feedback (self : SlackGenieBot) (fuel : nat) (event : Event)
    (channel thread_ts : string) (st st' : State) :
  str_truthy (ev_bot_id event) = false ->
  ev_channel event = Some channel ->
  event_thread event = Some thread_ts ->
  strip (event_question event) <> "" ->
  _handle_question self fuel event st = (Ok tt, st') ->
  exists result st1 success result_cid message_id,
    ask (genie self) fuel (event_question event)
      (default VNone (thread_conversations st !! thread_ts))
      (posted st (ChatPostMessage channel "Thinking..." thread_ts false))
    = (Ok result, st1)
    /\ py_get result "success" VNone = Ok success
    /\ py_get result "conversation_id" VNone = Ok result_cid
    /\ py_get result "message_id" VNone = Ok message_id
    /\ feedback_map st'
       = if truthy success && truthy result_cid && truthy message_id
         then match client self (slack_calls st') with
              | Some ts => <[ts := (result_cid, message_id)]> (feedback_map st)
              | None => feedback_map st
              end
         else feedback_map st.
Proof.
  intros Hbot Hchannel Hthread Htext H.
  destruct (handle_question_inv _ _ _ _ _ _ _ Hbot Hchannel Hthread Htext H)
    as (result & st1 & result_cid & Hask & Hcid & Hreply).
  destruct (reply_steps_feedback _ _ _ _ _ _ _ _ Hreply)
    as (success & message_id & Hsuccess & Hmid & Hmap).
  exists result, st1, success, result_cid, message_id.
  repeat split; try done.
  rewrite Hmap, feedback_map_bind_thread.
  by rewrite (ask_keeps feedback_map (fun _ _ _ => eq_refl) _ _ _ _ _ _ _ Hask).
Qed.

Lemma handle_question_feedback_witness :
  let st' := snd (_handle_question drifting_bot 10 first_question st0) in
  exists result st1 success result_cid message_id,
    ask (genie drifting_bot) 10 (event_question first_question)
      (default VNone (thread_conversations st0 !! "1700000000.000100"))
      (posted st0 (ChatPostMessage "C1" "Thinking..." "1700000000.000100" false))
    = (Ok result, st1)
    /\ py_get result "success" VNone = Ok success
    /\ py_get result "conversation_id" VNone = Ok result_cid
    /\ py_get result "message_id" VNone = Ok message_id
    /\ feedback_map st'
       = if truthy success && truthy result_cid && truthy message_id
         then match client drifting_bot (slack_calls st') with
              | Some ts => <[ts := (result_cid, message_id)]> (feedback_map st0)
              | None => feedback_map st0
              end
         else feedback_map st0.
Proof.
  intros st'.
  apply (handle_question_feedback drifting_bot 10 first_question "C1"
           "1700000000.000100" st0 st').
  - reflexivity.
  - reflexivity.
  - reflexivity.
  - vm_compute. discriminate.
  - vm_compute. reflexivity.
Defined.

(** ** The feedback handler on a bound message *)

(** A feedback action on a message with a binding sends one feedback
    request, with the bound ids and the rating in upper case, and then
    updates the prompt with the thank-you line, or with the failure line
    when the request failed.  The handler returns normally even when the
    update raises, and changes neither dictionary. *)
Theorem handle_feedback_bound (self : SlackGenieBot) (body : ActionBody)
    (rating : string) (conversation_id message_id : pyval) (st : State) :
  feedback_map st !! body_message_ts body = Some (conversation_id, message_id) ->
  let request := SendFeedback conversation_id message_id (upper rating) in
  let label := if is_none (session (genie self) (requests st ++ [request]))
               then "Failed to submit feedback." else "Thanks for your feedback!" in
  _handle_feedback self body rating st
  = (Ok tt,
     posted (advance st 0 [request])
       (ChatUpdate (body_channel_id body) (body_message_ts body) label)).
Proof.
  intros Hinfo request label.
  unfold _handle_feedback, get_feedback. unfold bind at 1. rewrite Hinfo.
  unfold send_feedback. unfold bind at 1. unfold bind at 1.
  rewrite request_advance. fold request. unfold ret at 1.
  unfold try_except, bind. rewrite slack_call_posted.
  subst label.
  destruct (is_none (session (genie self) (requests st ++ [request]))); cbn [negb];
    by destruct (client self _).
Qed.

Lemma handle_feedback_bound_witness :
  let bot := {| genie := {| poll_interval := 2; max_wait := 90;
                            session := scripted [VDict []] |};
                client := fun _ => None |} in
  let st := {| now := 0; requests := []; slack_calls := [];
               thread_conversations := ∅;
               feedback_map := {[ Some "17.5" := (VStr "c1", VStr "m1") ]} |} in
  _handle_feedback bot {| body_message_ts := Some "17.5"; body_channel_id := Some "C1" |}
    "positive" st
  = (Ok tt,
     posted (advance st 0 [SendFeedback (VStr "c1") (VStr "m1") (code_points "POSITIVE")])
       (ChatUpdate (Some "C1") (Some "17.5") "Thanks for your feedback!")).
Proof.
  intros bot st.
  apply (handle_feedback_bound bot
           {| body_message_ts := Some "17.5"; body_channel_id := Some "C1" |}
           "positive" (VStr "c1") (VStr "m1") st).
  vm_compute. reflexivity.
Defined.

Lemma handle_feedback_run (self : SlackGenieBot) (body : ActionBody)
    (rating : string) (conversation_id message_id : pyval) (st : State) :
  feedback_map st !! body_message_ts body = Some (conversation_id, message_id) ->
  let request := SendFeedback conversation_id message_id (upper rating) in
  let label := if is_none (session (genie self) (requests st ++ [request]))
               then "Failed to submit feedback." else "Thanks for your feedback!" in
  _handle_feedback self body rating st
  = (Ok tt,
     posted (advance st 0 [request])
       (ChatUpdate (body_channel_id body) (body_message_ts body) label)).
Proof.
  intros Hinfo request label.
  unfold _handle_feedback, get_feedback. unfold bind at 1. rewrite Hinfo.
  unfold send_feedback. unfold bind at 1. unfold bind at 1.
  rewrite request_advance. fold request. unfold ret at 1.
  unfold try_except, bind. rewrite slack_call_posted.
  subst label.
  destruct (is_none (session (genie self) (requests st ++ [request]))); cbn [negb];
    by destruct (client self _).
Qed.

(** From a question to its feedback: once a question was answered with
    success and the prompt was posted under [ts], a feedback action on [ts]
    reports the rating for the conversation and message of that very answer. *)
Theorem question_then_feedback (self : SlackGenieBot) (fuel : nat) (event : Event)
    (channel thread_ts : string) (st st1 st' : State)
    (result success result_cid message_id : pyval)
    (ts : option string) (body : ActionBody) (rating : string) :
  str_truthy (ev_bot_id event) = false ->
  ev_channel event = Some channel ->
  event_thread event = Some thread_ts ->
  strip (event_question event) <> "" ->
  _handle_question self fuel event st = (Ok tt, st') ->
  ask (genie self) fuel (event_question event)
    (default VNone (thread_conversations st !! thread_ts))
    (posted st (ChatPostMessage channel "Thinking..." thread_ts false))
  = (Ok result, st1) ->
  py_get result "success" VNone = Ok success ->
  py_get result "conversation_id" VNone = Ok result_cid ->
  py_get result "message_id" VNone = Ok message_id ->
  truthy success = true ->
  truthy result_cid = true ->
  truthy message_id = true ->
  client self (slack_calls st') = Some ts ->
  body_message_ts body = ts ->
  let request := SendFeedback result_cid message_id (upper rating) in
  let label := if is_none (session (genie self) (requests st' ++ [request]))
               then "Failed to submit feedback." else "Thanks for your feedback!" in
  _handle_feedback self body rating st'
  = (Ok tt,
     posted (advance st' 0 [request]) (ChatUpdate (body_channel_id body) ts label)).
Proof.
  intros Hbot Hchannel Hthread Htext H Hask Hs Hc Hm Ts Tc Tm Hclient Hbody.
  destruct (handle_question_inv _ _ _ _ _ _ _ Hbot Hchannel Hthread Htext H)
    as (result' & st1' & cid' & Hask' & Hcid' & Hreply).
  rewrite Hask in Hask'. injection Hask' as <- <-.
  rewrite Hc in Hcid'. injection Hcid' as <-.
  destruct (reply_steps_feedback _ _ _ _ _ _ _ _ Hreply)
    as (success' & mid' & Hsuccess' & Hmid' & Hmap).
  rewrite Hs in Hsuccess'. injection Hsuccess' as <-.
  rewrite Hm in Hmid'. injection Hmid' as <-.
  rewrite Ts, Tc, Tm, Hclient in Hmap. cbn [andb] in Hmap.
  intros request label. subst ts.
  apply (handle_feedback_run self body rating result_cid message_id st').
  rewrite Hmap. apply lookup_insert_eq.
Qed.

Lemma question_then_feedback_witness :
  let st' := snd (_handle_question drifting_bot 10 first_question st0) in
  let body := {| body_message_ts := Some "3"; body_channel_id := Some "C1" |} in
  let request := SendFeedback (VStr "c1") (VStr "m1") (code_points "NEGATIVE") in
  _handle_feedback drifting_bot body "negative" st'
  = (Ok tt,
     posted (advance st' 0 [request])
       (ChatUpdate (Some "C1") (Some "3")
          (if is_none (session (genie drifting_bot) (requests st' ++ [request]))
           then "Failed to submit feedback." else "Thanks for your feedback!"))).
Proof.
  intros st' body request.
  pose (thinking := posted st0 (ChatPostMessage "C1" "Thinking..."
                                  "1700000000.000100" false)).
  pose (result := VDict [("success", VBool true);
                         ("conversation_id", VStr "c1");
                         ("message_id", VStr "m1");
                         ("text", VStr "42");
                         ("sql", VNone);
                         ("result_data", VNone);
                         ("attachments", VList [text_attachment "42"]);
                         ("error", VNone)]).
  pose (st1 := advance thinking 0 [StartConversation "total revenue?";
                                   GetMessage (VStr "c1") (VStr "m1")]).
  apply (question_then_feedback drifting_bot 10 first_question "C1"
           "1700000000.000100" st0 st1 st' result (VBool true) (VStr "c1") (VStr "m1")
           (Some "3") body "negative").
  - reflexivity.
  - reflexivity.
  - reflexivity.
  - vm_compute. discriminate.
  - vm_compute. reflexivity.
  - vm_compute. reflexivity.
  - reflexivity.
  - reflexivity.
  - reflexivity.
  - reflexivity.
  - reflexivity.
  - reflexivity.
  - vm_compute. reflexivity.
  - reflexivity.
Defined.

(** ** Questions that never reach the backend *)

(** A question that is blank once the mentions are removed gets the prompt
    for input, on its thread, and nothing else happens: no request is sent
    and both dictionaries stay as they were.  A failure of that one Slack
    call is the only way the handler can raise here. *)
Theorem handle_question_blank (self : SlackGenieBot) (fuel : nat) (event : Event)
    (channel thread_ts : string) (st : State) :
  str_truthy (ev_bot_id event) = false ->
  ev_channel event = Some channel ->
  event_thread event = Some thread_ts ->
  strip (event_question event) = "" ->
  let prompt := Say (VStr "Please ask me a question about your data!") thread_ts in
  _handle_question self fuel event st
  = (match client self (slack_calls st ++ [prompt]) with
     | Some _ => Ok tt
     | None => Raise SlackApiError
     end, posted st prompt).
Proof.
  intros Hbot Hchannel Hthread Htext prompt.
  unfold _handle_question. rewrite Hbot, Hchannel.
  fold (event_question event).
  unfold bind at 1, lift at 1. cbn [require].
  assert (Hts : (if str_truthy (ev_thread_ts event)
                 then ret (default "" (ev_thread_ts event))
                 else lift (require (ev_ts event))) st = (Ok thread_ts, st)).
  { unfold event_thread in Hthread.
    destruct (str_truthy (ev_thread_ts event)); rewrite Hthread; reflexivity. }
  unfold bind at 1. rewrite Hts. rewrite Htext. cbn [String.eqb].
  unfold say, bind. rewrite slack_call_posted. fold prompt.
  by destruct (client self (slack_calls st ++ [prompt])).
Qed.

Lemma handle_question_blank_witness :
  let event := {| ev_bot_id := None; ev_text := Some "<@U123ABC>  ";
                  ev_channel := Some "C1"; ev_thread_ts := None;
                  ev_ts := Some "1700000000.000100" |} in
  let prompt := Say (VStr "Please ask me a question about your data!")
                  "1700000000.000100" in
  _handle_question drifting_bot 10 event st0 = (Ok tt, posted st0 prompt).
Proof.
  intros event prompt.
  apply (handle_question_blank drifting_bot 10 event "C1" "1700000000.000100" st0);
    reflexivity.
Defined.

(** ** Other threads *)

Lemma set_thread_keeps_other (t thread_ts : string) (conversation_id : pyval) :
  thread_ts <> t ->
  keeps (fun st => thread_conversations st !! t)
    (set_thread_conversation thread_ts conversation_id).
Proof.
  intros Hne st r st' H. unfold set_thread_conversation in H. simplify_eq.
  cbn [thread_conversations]. by apply lookup_insert_ne.
Qed.

Lemma get_thread_keeps {X} (f : State -> X) thread_ts :
  keeps f (get_thread_conversation thread_ts).
Proof. intros st r st' H. unfold get_thread_conversation in H. by simplify_eq. Qed.

Lemma set_feedback_keeps {X} (f : State -> X) ts info :
  (forall st, f (snd (set_feedback ts info st)) = f st) ->
  keeps f (set_feedback ts info).
Proof. intros Hf st r st' H. rewrite <- (Hf st). by rewrite H. Qed.

Lemma keeps_bind_val {A B X} (f : State -> X) (m : M A) (k : A -> M B)
    (P : A -> Prop) :
  keeps f m ->
  (forall st a st', m st = (Ok a, st') -> P a) ->
  (forall a, P a -> keeps f (k a)) ->
  keeps f (let* x := m in k x).
Proof.
  intros Hm HP Hk st r st' H. unfold bind in H.
  destruct (m st) as [[a|e|] st1] eqn:E; pose proof (Hm _ _ _ E) as E'.
  - apply (Hk a (HP _ _ _ E)) in H. congruence.
  - by simplify_eq.
  - by simplify_eq.
Qed.

(** Handling an event of one thread never changes the binding of another
    thread, however the handling ends. *)
Theorem handle_question_other_threads (self : SlackGenieBot) (fuel : nat)
    (event : Event) (t : string) (st st' : State) (r : res unit) :
  event_thread event <> Some t ->
  _handle_question self fuel event st = (r, st') ->
  thread_conversations st' !! t = thread_conversations st !! t.
Proof.
  intros Hother H.
  set (f := fun st : State => thread_conversations st !! t).
  assert (Hposted : forall st c, f (posted st c) = f st) by done.
  assert (Hadvance : forall st reqs dt, f (advance st dt reqs) = f st) by done.
  assert (K : keeps f (_handle_question self fuel event)); [|exact (K _ _ _ H)].
  clear H. unfold _handle_question.
  destruct (str_truthy (ev_bot_id event)); [apply keeps_ret|].
  apply keeps_bind; [apply keeps_lift | intros channel].
  apply (keeps_bind_val f _ _ (fun thread_ts => thread_ts <> t)).
  - destruct (str_truthy (ev_thread_ts event)); [apply keeps_ret | apply keeps_lift].
  - intros st1 thread_ts st2 Hts. unfold event_thread in Hother.
    destruct (str_truthy (ev_thread_ts event)) eqn:Htruthy.
    + unfold ret in Hts. simplify_eq.
      destruct (ev_thread_ts event) as [s|]; [|discriminate].
      cbn. intros ->. by apply Hother.
    + unfold lift in Hts. destruct (ev_ts event) as [s|]; cbn in Hts; simplify_eq.
      intros ->. by apply Hother.
  - intros thread_ts Hne.
    repeat first [ by apply say_keeps | by apply slack_call_keeps
                 | apply get_thread_keeps | by apply ask_keeps
                 | by apply set_thread_keeps_other
                 | by apply set_feedback_keeps
                 | progress unfold _send_feedback_buttons
                 | keeps_step ].
Qed.

Lemma handle_question_other_threads_witness :
  let st := {| now := 0; requests := []; slack_calls := [];
               thread_conversations := {[ "1699999999.000001" := VStr "c9" ]};
               feedback_map := ∅ |} in
  thread_conversations (snd (_handle_question drifting_bot 10 first_question st))
    !! "1699999999.000001"
  = thread_conversations st !! "1699999999.000001".
Proof.
  intros st.
  apply (handle_question_other_threads drifting_bot 10 first_question
           "1699999999.000001" st _ (fst (_handle_question drifting_bot 10 first_question st))).
  - vm_compute. discriminate.
  - apply surjective_pairing.
Defined.

(** ** The reply to a failure *)

(** When [ask] answers with a failure, the user gets the "Thinking..."
    placeholder and then one line with the error; no table and no feedback
    prompt are posted, and no feedback binding is recorded. *)
Theorem handle_question_failure (self : SlackGenieBot) (fuel : nat) (event : Event)
    (channel thread_ts : string) (st st1 st' : State) (result error : pyval) :
  str_truthy (ev_bot_id event) = false ->
  ev_channel event = Some channel ->
  event_thread event = Some thread_ts ->
  strip (event_question event) <> "" ->
  _handle_question self fuel event st = (Ok tt, st') ->
  ask (genie self) fuel (event_question event)
    (default VNone (thread_conversations st !! thread_ts))
    (posted st (ChatPostMessage channel "Thinking..." thread_ts false))
  = (Ok result, st1) ->
  py_get result "success" VNone = Ok (VBool false) ->
  py_get result "error" (VStr "unknown error") = Ok error ->
  slack_calls st'
  = slack_calls st
    ++ [ChatPostMessage channel "Thinking..." thread_ts false;
        Say (VStr ("Sorry, something went wrong: " +:+ py_str error)) thread_ts]
  /\ feedback_map st' = feedback_map st
  /\ requests st' = requests st1.
Proof.
  intros Hbot Hchannel Hthread Htext H Hask Hsuccess Herror.
  destruct (handle_question_inv _ _ _ _ _ _ _ Hbot Hchannel Hthread Htext H)
    as (result' & st1' & result_cid & Hask' & Hcid & Hreply).
  rewrite Hask in Hask'. injection Hask' as <- <-.
  destruct (ask_answer_shape _ _ _ _ _ _ _ Hask) as (kv & -> & Hshape).
  cbn [py_get] in Hsuccess, Herror. simplify_eq.
  destruct Hshape as [[Hs _] | (Hs & _ & _ & Hdata)];
    [destruct (dict_get kv "success"); cbn in Hsuccess; simplify_eq; discriminate|].
  pose proof (ask_keeps slack_calls (fun _ _ _ => eq_refl) _ _ _ _ _ _ _ Hask) as Kslack.
  pose proof (ask_keeps feedback_map (fun _ _ _ => eq_refl) _ _ _ _ _ _ _ Hask) as Kfb.
  cbn [posted slack_calls feedback_map] in Kslack, Kfb.
  unfold reply_steps, _format_answer in Hreply. cbn [py_get rbind] in Hreply.
  rewrite Hs, Hdata in Hreply. cbn [default from_option id truthy negb rbind] in Hreply.
  unfold bind at 1, lift at 1 in Hreply.
  unfold bind at 1, say at 1, bind at 1 in Hreply. rewrite slack_call_posted in Hreply.
  destruct (client self _); [|discriminate]. unfold ret at 1 in Hreply.
  unfold bind, lift, ret in Hreply. cbn [when truthy andb] in Hreply.
  unfold ret in Hreply. simplify_eq.
  unfold bind_thread. destruct (truthy result_cid);
    cbn [posted slack_calls feedback_map requests]; rewrite Kslack, Kfb;
    by rewrite <- app_assoc.
Qed.

Lemma handle_question_failure_witness :
  let bot := {| genie := {| poll_interval := 2; max_wait := 90;
                            session := scripted [] |};
                client := numbering_client |} in
  let thread := "1700000000.000100" in
  let st' := snd (_handle_question bot 10 first_question st0) in
  slack_calls st'
  = slack_calls st0
    ++ [ChatPostMessage "C1" "Thinking..." thread false;
        Say (VStr ("Sorry, something went wrong: "
                   +:+ py_str (VStr "Failed to send message to Genie"))) thread]
  /\ feedback_map st' = feedback_map st0
  /\ requests st'
     = requests (advance (posted st0 (ChatPostMessage "C1" "Thinking..." thread false))
                   0 [StartConversation "total revenue?"]).
Proof.
  intros bot thread st'.
  apply (handle_question_failure bot 10 first_question "C1" thread st0
           (advance (posted st0 (ChatPostMessage "C1" "Thinking..." thread false))
              0 [StartConversation "total revenue?"])
           st'
           (VDict [("success", VBool false);
                   ("conversation_id", VNone);
                   ("error", VStr "Failed to send message to Genie")])
           (VStr "Failed to send message to Genie")).
  - reflexivity.
  - reflexivity.
  - reflexivity.
  - vm_compute. discriminate.
  - vm_compute. reflexivity.
  - vm_compute. reflexivity.
  - reflexivity.
  - reflexivity.
Defined.

(** ** [strip] *)

Lemma lstrip_head s :
  lstrip s = "" \/ exists c r, lstrip s = String c r /\ is_space c = false.
Proof.
  induction s as [|c s IH]; cbn; [by left|].
  destruct (is_space c) eqn:E; [exact IH|]. right. eauto.
Qed.

Lemma lstrip_id c r : is_space c = false -> lstrip (String c r) = String c r.
Proof. intros E. cbn. by rewrite E. Qed.

Lemma rstrip_head c r :
  is_space c = false -> exists r', rstrip (String c r) = String c r'.
Proof.
  intros E. cbn. destruct (rstrip r); rewrite ?E; eauto.
Qed.

Lemma rstrip_idempotent s : rstrip (rstrip s) = rstrip s.
Proof.
  induction s as [|c s IH]; [done|]. cbn [rstrip].
  destruct (rstrip s) as [|d r] eqn:E.
  - destruct (is_space c) eqn:Ec; [done|]. cbn. by rewrite Ec.
  - cbn [rstrip]. cbn [rstrip] in IH. by rewrite IH.
Qed.

Lemma strip_idempotent (s : string) : strip (strip s) = strip s.
Proof.
  unfold strip.
  destruct (lstrip_head s) as [-> | (c & r & -> & Ec)]; [done|].
  destruct (rstrip_head c r Ec) as [r' Hr]. rewrite Hr.
  rewrite (lstrip_id c r' Ec), <- Hr. apply rstrip_idempotent.
Qed.

(** The text [_strip_mention] returns is already stripped: the second
    [strip], which [_handle_question] applies before testing for a blank
    question, changes nothing. *)
Theorem strip_mention_stripped (text : string) :
  strip (_strip_mention text) = _strip_mention text.
Proof. unfold _strip_mention. apply strip_idempotent. Qed.

(** ** Mentions *)

Lemma append_assoc (a b c : string) : (a +:+ b) +:+ c = a +:+ (b +:+ c).
Proof.
  induction a as [|x a IH]; [done|].
  change (String x ((a +:+ b) +:+ c) = String x (a +:+ (b +:+ c))). by rewrite IH.
Qed.

Lemma id_run_user_id id rest :
  is_user_id id = true -> id_run (id +:+ String ">" rest) = String.length id.
Proof.
  induction id as [|c id IH]; simpl; [done|].
  intros H. apply andb_true_iff in H as [Hc Hid]. rewrite Hc. by rewrite IH.
Qed.

Lemma get_after id rest :
  String.get (String.length id) (id +:+ String ">" rest) = Some ">"%char.
Proof. induction id as [|c id IH]; simpl; done. Qed.

Lemma re_sub_skip pre : forall rest,
  re_sub_mentions (String.length pre) (pre +:+ rest) = re_sub_mentions 0 rest.
Proof. induction pre as [|c pre IH]; intros rest; simpl; [done | apply IH]. Qed.

(** A well-formed mention in front of a text is removed, whatever follows:
    the question is what is left, stripped. *)
Theorem strip_mention_leading (id rest : string) :
  is_user_id id = true ->
  id <> "" ->
  _strip_mention (mention id +:+ rest) = _strip_mention rest.
Proof.
  intros Hid Hne. unfold _strip_mention. f_equal.
  unfold mention. rewrite !append_assoc.
  change ("<@" +:+ id +:+ ">" +:+ rest)
    with (String "<" (String "@" (id +:+ String ">" rest))).
  cbn [re_sub_mentions mention_len].
  rewrite id_run_user_id, get_after by done.
  destruct id as [|c id]; [done|]. cbn [String.length Nat.ltb Nat.leb].
  replace (S (String.length id) + 3 - 1)%nat with (String.length ("@" +:+ String c id +:+ ">"))
    by (rewrite !length_append; cbn; lia).
  rewrite <- (re_sub_skip ("@" +:+ String c id +:+ ">") rest).
  by rewrite !append_assoc.
Qed.

Lemma strip_mention_leading_witness :
  _strip_mention (mention "U123ABC" +:+ " what is total revenue?")
  = _strip_mention " what is total revenue?".
Proof. apply strip_mention_leading; [reflexivity | discriminate]. Defined.

Lemma mention_len_other c s :
  Ascii.eqb "<" c = false -> mention_len (String c s) = None.
Proof.
  destruct c as [[] [] [] [] [] [] [] []]; intros H; try discriminate H; reflexivity.
Qed.

Lemma re_sub_plain s : str_mem "<" s = false -> re_sub_mentions 0 s = s.
Proof.
  induction s as [|c s IH]; [done|]. cbn [str_mem]. intros H.
  apply orb_false_iff in H as [Hc Hs].
  cbn [re_sub_mentions]. rewrite (mention_len_other c s Hc). by rewrite IH.
Qed.

(** A text without any [<] has no mention to remove: it is only stripped. *)
Theorem strip_mention_plain (text : string) :
  str_mem "<" text = false -> _strip_mention text = strip text.
Proof. intros H. unfold _strip_mention. by rewrite re_sub_plain. Qed.

Lemma strip_mention_plain_witness :
  _strip_mention "  and by region? " = strip "  and by region? ".
Proof. apply strip_mention_plain. reflexivity. Defined.

(** ** The number of lines of the rendered text *)

Lemma line_count_append (s t : string) :
  (line_count (s +:+ t) + 1 = line_count s + line_count t)%nat.
Proof.
  induction s as [|c s IH].
  { change ("" +:+ t) with t. change (line_count "") with 1%nat. lia. }
  change (String c s +:+ t) with (String c (s +:+ t)). cbn [line_count].
  destruct (Ascii.eqb c NL); lia.
Qed.

Lemma line_count_single (s : string) : str_mem NL s = false -> line_count s = 1%nat.
Proof.
  induction s as [|c s IH]; [done|]. cbn [str_mem line_count]. intros H.
  apply orb_false_iff in H as [Hc Hs]. rewrite Ascii.eqb_sym, Hc. by apply IH.
Qed.

Lemma str_mem_append c (s t : string) :
  str_mem c (s +:+ t) = str_mem c s || str_mem c t.
Proof.
  induction s as [|d s IH]; [done|].
  change (String d s +:+ t) with (String d (s +:+ t)). cbn [str_mem].
  by rewrite IH, orb_assoc.
Qed.

Lemma str_mem_take c w : forall s,
  str_mem c s = false -> str_mem c (str_take w s) = false.
Proof.
  induction w as [|w IH]; intros [|d s]; cbn; try done. intros H.
  apply orb_false_iff in H as [Hd Hs]. by rewrite Hd, IH.
Qed.

Lemma str_mem_repeat c d n : Ascii.eqb c d = false -> str_mem c (str_repeat d n) = false.
Proof. intros H. induction n as [|n IH]; cbn; [done|]. by rewrite H, IH. Qed.

Lemma str_mem_join c sep parts :
  str_mem c sep = false ->
  Forall (fun p => str_mem c p = false) parts ->
  str_mem c (join sep parts) = false.
Proof.
  intros Hsep. induction 1 as [|p parts Hp Hparts IH]; [done|].
  destruct parts as [|q parts]; [done|].
  change (join sep (p :: q :: parts)) with (p +:+ sep +:+ join sep (q :: parts)).
  by rewrite !str_mem_append, Hp, Hsep, IH.
Qed.

Lemma fmt_cell_single v w :
  str_mem NL (cell_text v) = false -> str_mem NL (fmt_cell v w) = false.
Proof.
  intros H. unfold fmt_cell, ljust.
  by rewrite str_mem_append, str_mem_take, str_mem_repeat.
Qed.

Lemma fmt_row_single widths vals :
  Forall (fun v => str_mem NL (cell_text v) = false) vals ->
  str_mem NL (fmt_row widths vals) = false.
Proof.
  intros H. unfold fmt_row. apply str_mem_join; [done|].
  revert widths. induction H as [|v vals Hv _ IH]; intros [|w widths]; cbn;
    try constructor; [by apply fmt_cell_single | apply IH].
Qed.

Lemma line_count_join lines :
  lines <> [] ->
  Forall (fun l => str_mem NL l = false) lines ->
  line_count (join nl lines) = length lines.
Proof.
  intros Hne H. induction H as [|l lines Hl Hlines IH]; [done|].
  destruct lines as [|l' lines]; [by apply line_count_single|].
  change (join nl (l :: l' :: lines)) with (l +:+ nl +:+ join nl (l' :: lines)).
  pose proof (line_count_append l (nl +:+ join nl (l' :: lines))) as H1.
  pose proof (line_count_append nl (join nl (l' :: lines))) as H2.
  rewrite (line_count_single l Hl) in H1. rewrite IH in H2 by done.
  change (line_count nl) with 2%nat in H2. cbn [length] in *. lia.
Qed.

(** The rendered text has three lines around the table, and the footer. *)
Lemma line_count_render lines footer :
  lines <> [] ->
  Forall (fun l => str_mem NL l = false) lines ->
  line_count (render lines footer) = (2 + length lines + line_count footer)%nat.
Proof.
  intros Hne H. unfold render.
  pose proof (line_count_join lines Hne H) as HJ.
  repeat match goal with
         | |- context [line_count (?a +:+ ?b)] =>
             lazymatch goal with
             | _ : (line_count (a +:+ b) + 1 = _)%nat |- _ => fail
             | _ => pose proof (line_count_append a b)
             end
         | H : context [line_count (?a +:+ ?b)] |- _ =>
             lazymatch goal with
             | _ : (line_count (a +:+ b) + 1 = _)%nat |- _ => fail
             | _ => pose proof (line_count_append a b)
             end
         end.
  change (line_count nl) with 2%nat in *.
  change (line_count fence) with 1%nat in *.
  change (line_count "*Query Results:*") with 1%nat in *.
  lia.
Qed.

Lemma iterates_functional rows : forall d1 d2,
  iterates rows d1 -> iterates rows d2 -> d1 = d2.
Proof.
  induction rows as [|row rows IH]; intros d1 d2 H1 H2;
    inversion H1; inversion H2; subst; [done|].
  f_equal; [congruence | by apply IH].
Qed.

(** When no header and no displayed value holds a newline, the text returned
    for a table has the title line, the two fence lines, the header, the
    separator and one line per displayed row, that is 5 + min(len(rows),
    max_rows) lines, plus the line of the footer when there is one. *)
Theorem format_query_result_line_count (result_data columns_meta : pyval)
    (rows : list pyval) (max_rows : Z) (out : string)
    (columns names : list pyval) (display : list (list pyval))
    (total : pyval) (more : bool) :
  0 <= max_rows ->
  qr_columns result_data = Ok columns_meta ->
  qr_rows result_data = Ok (VList rows) ->
  _format_query_result result_data max_rows = Ok (Some out) ->
  py_iter columns_meta = Ok columns ->
  col_names_from 0 columns = Ok names ->
  iterates (take (Z.to_nat max_rows) rows) display ->
  Forall (Forall (fun v => str_mem NL (cell_text v) = false)) (names :: display) ->
  qr_total result_data (length rows) = Ok total ->
  py_gt total max_rows = Ok more ->
  line_count out
  = (4 + Nat.min (length rows) (Z.to_nat max_rows)
     + line_count (if more then showing max_rows total else ""))%nat.
Proof.
  intros Hmax Hc Hr H Hcols Hnames Hdisplay Hsingle Htotal Hmore.
  destruct (format_query_result_inv _ _ _ _ _ Hmax Hc Hr H)
    as (widths & lines & n & total' & more' & Hlayout & Hn & Hlen & _ & Ht & Hm & ->).
  cbn in Hn. simplify_eq. rewrite Htotal in Ht. simplify_eq.
  rewrite Hmore in Hm. simplify_eq.
  destruct (table_layout_inv _ _ _ _ _ Hmax Hlayout)
    as (columns' & names' & display' & Hcols' & Hnames' & Hdisplay' & _ & _ & -> & _).
  rewrite Hcols in Hcols'. simplify_eq. rewrite Hnames in Hnames'. simplify_eq.
  rewrite (iterates_functional _ _ _ Hdisplay' Hdisplay) in *. clear Hdisplay'.
  rewrite line_count_render; [rewrite Hlen; lia | done |].
  apply Forall_cons in Hsingle as [Hhead Hbody].
  constructor; [by apply fmt_row_single|].
  constructor.
  - apply str_mem_join; [done|]. apply Forall_forall. intros l Hl.
    apply list_elem_of_In, in_map_iff in Hl as (w & <- & _).
    by apply str_mem_repeat.
  - apply Forall_forall. intros l Hl.
    apply list_elem_of_In, in_map_iff in Hl as (vals & <- & Hin).
    apply fmt_row_single. rewrite Forall_forall in Hbody.
    by apply Hbody, list_elem_of_In.
Qed.

Lemma format_query_result_line_count_witness :
  let qr := query_result ["x"] [[VInt 1]; [VInt 2]; [VInt 3]] in
  exists out,
    _format_query_result qr 15 = Ok (Some out)
    /\ line_count out = (4 + Nat.min 3 (Z.to_nat 15) + line_count "")%nat.
Proof.
  intros qr. eexists. split; [vm_compute; reflexivity|].
  apply (format_query_result_line_count qr (VList [VDict [("name", VStr "x")]])
           [VList [VInt 1]; VList [VInt 2]; VList [VInt 3]] 15 _
           [VDict [("name", VStr "x")]] [VStr "x"] [[VInt 1]; [VInt 2]; [VInt 3]]
           (VInt 3) false);
    try reflexivity; try done.
  - repeat constructor.
  - repeat constructor.
Defined.

(** ** The cost of polling *)

Section PollBound.
Variable self : GenieClient.
Variables cid mid : pyval.
Hypothesis interval_pos : 0 < poll_interval self.

(** Whatever the backend answers and however the loop ends, it has only sent
    status checks and slept, no more often than it checked, and the check
    numbered [k] was sent before the deadline: the clock was then at
    [now + (k - 1) * poll_interval]. *)
Lemma poll_loop_bound fuel : forall deadline st r st',
  poll_loop self fuel deadline cid mid st = (r, st') ->
  exists checks sleeps : nat,
    st' = advance st (Z.of_nat sleeps * poll_interval self)
            (replicate checks (GetMessage cid mid))
    /\ (sleeps <= checks)%nat
    /\ (checks = O \/ now st + (Z.of_nat checks - 1) * poll_interval self < deadline).
Proof.
  induction fuel as [|fuel IH]; intros deadline st r st' H.
  { cbn in H. unfold lift in H. simplify_eq. exists O, O.
    rewrite advance_0. auto. }
  cbn [poll_loop] in H. unfold bind at 1, time_time at 1 in H.
  destruct (Z.ltb (now st) deadline) eqn:Hlt.
  2:{ unfold ret in H. simplify_eq. exists O, O. rewrite advance_0. auto. }
  apply Z.ltb_lt in Hlt.
  assert (Hone : forall r0, (r0, advance st 0 [GetMessage cid mid]) = (r, st') ->
    exists checks sleeps : nat,
      st' = advance st (Z.of_nat sleeps * poll_interval self)
              (replicate checks (GetMessage cid mid))
      /\ (sleeps <= checks)%nat
      /\ (checks = O \/ now st + (Z.of_nat checks - 1) * poll_interval self < deadline)).
  { intros r0 E. simplify_eq. exists 1%nat, O. cbn [replicate].
    split; [reflexivity|]. split; [lia|]. right. lia. }
  unfold bind at 1, get_message in H. rewrite request_advance in H.
  destruct (is_none _); [by eapply Hone|].
  unfold bind at 1, lift at 1 in H.
  destruct (py_get _ "status" VNone) as [status| |]; try by eapply Hone.
  destruct (is_str "COMPLETED" status); [by eapply Hone|].
  destruct (is_str "FAILED" status || is_str "CANCELLED" status); [by eapply Hone|].
  unfold bind at 1, time_sleep in H. cbn [now requests advance] in H.
  destruct (Z.ltb (poll_interval self) 0) eqn:Hneg; [apply Z.ltb_lt in Hneg; lia|].
  apply IH in H as (checks & sleeps & -> & Hle & Hlast).
  exists (S checks), (S sleeps). split; [|split; [lia|]].
  - unfold advance. cbn [now requests slack_calls thread_conversations feedback_map].
    rewrite <- app_assoc. cbn [app replicate]. f_equal. lia.
  - right. cbn [now] in Hlast. destruct Hlast as [->|Hlast]; lia.
Qed.

Lemma poll_until_done_run fuel st r st' :
  _poll_until_done self fuel cid mid st = (r, st') ->
  exists checks sleeps : nat,
    st' = advance st (Z.of_nat sleeps * poll_interval self)
            (replicate checks (GetMessage cid mid))
    /\ (sleeps <= checks <= poll_budget self)%nat.
Proof.
  unfold _poll_until_done, bind, time_time. intros H.
  apply poll_loop_bound in H as (checks & sleeps & -> & Hle & Hlast).
  exists checks, sleeps. split; [done|]. split; [done|].
  destruct Hlast as [->|Hlast]; [lia|].
  unfold poll_budget.
  assert (Z.of_nat checks <= (max_wait self + poll_interval self - 1) / poll_interval self).
  { apply Z.div_le_lower_bound; [done|]. nia. }
  lia.
Qed.
End PollBound.

(** Polling is bounded whatever the backend answers: with a positive poll
    interval, [_poll_until_done] sends nothing but status checks for its
    message, at most ceil(max_wait / poll_interval) of them, sleeps at most
    once per check, and changes nothing else, whether it returns a payload,
    returns [None] or raises. *)
Theorem poll_until_done_bounded (self : GenieClient) (fuel : nat) (cid mid : pyval)
    (st st' : State) (r : res pyval) :
  0 < poll_interval self ->
  _poll_until_done self fuel cid mid st = (r, st') ->
  exists checks sleeps : nat,
    st' = advance st (Z.of_nat sleeps * poll_interval self)
            (replicate checks (GetMessage cid mid))
    /\ (sleeps <= checks <= poll_budget self)%nat.
Proof. intros Hpos H. by eapply poll_until_done_run. Qed.

Lemma poll_until_done_bounded_witness :
  let self := {| poll_interval := 2; max_wait := 5;
                 session := scripted [with_status "EXECUTING_QUERY";
                                      with_status "EXECUTING_QUERY";
                                      with_status "COMPLETED"] |} in
  let run := _poll_until_done self 10 (VStr "c1") (VStr "m1") st0 in
  exists checks sleeps : nat,
    snd run = advance st0 (Z.of_nat sleeps * 2)
                (replicate checks (GetMessage (VStr "c1") (VStr "m1")))
    /\ (sleeps <= checks <= poll_budget self)%nat.
Proof.
  intros self run.
  apply (poll_until_done_bounded self 10 (VStr "c1") (VStr "m1") st0 (snd run) (fst run)).
  - cbn. lia.
  - subst run. by destruct (_poll_until_done self 10 (VStr "c1") (VStr "m1") st0).
Defined.

(** ** A thread that keeps its conversation *)

Lemma parse_response_conversation_id (self : GenieClient) (cid mid msg : pyval)
    (st st' : State) (result : pyval) :
  _parse_response self cid mid msg st = (Ok result, st') ->
  py_get result "conversation_id" VNone = Ok cid.
Proof.
  unfold _parse_response, bind, lift, ret. intros H.
  repeat (case_match; simplify_eq/=); reflexivity.
Qed.

(** The conversation id of an answer of [ask] is the one it was given or the
    one it read from the response to its first request. *)
Lemma ask_conversation_id (self : GenieClient) (fuel : nat) (question : string)
    (conversation_id : pyval) (st st' : State) (result : pyval) :
  ask self fuel question conversation_id st = (Ok result, st') ->
  py_get result "conversation_id" VNone = Ok conversation_id
  \/ exists cid mid,
       extract_ids (session self (requests st ++ [send_request question conversation_id]))
         conversation_id = Ok (cid, mid)
       /\ py_get result "conversation_id" VNone = Ok cid.
Proof.
  unfold ask. unfold bind at 1. intros H.
  assert (Hsend : (if truthy conversation_id
                   then create_message self conversation_id question
                   else start_conversation self question) st
                  = (Ok (session self
                           (requests st ++ [send_request question conversation_id])),
                     advance st 0 [send_request question conversation_id])).
  { unfold send_request, create_message, start_conversation.
    destruct (truthy conversation_id); apply request_advance. }
  rewrite Hsend in H. clear Hsend.
  destruct (is_none _).
  { unfold ret in H. simplify_eq. by left. }
  unfold bind at 1, lift at 1 in H.
  destruct (extract_ids _ conversation_id) as [[cid mid]| |] eqn:Hids; try discriminate.
  cbn [fst snd] in H.
  destruct (negb (truthy cid) || negb (truthy mid)).
  { unfold ret in H. simplify_eq. by left. }
  right. exists cid, mid. split; [done|].
  unfold bind at 1 in H.
  destruct (_poll_until_done self fuel cid mid _) as [[done_msg| |] st2];
    try discriminate.
  destruct (is_none done_msg).
  { unfold ret in H. by simplify_eq. }
  by apply parse_response_conversation_id in H.
Qed.

(** A follow-up keeps the thread on its conversation: when the thread is
    bound to a conversation and the response to the question names no other
    one, handling the question leaves every thread binding as it was. *)
Theorem handle_question_same_conversation (self : SlackGenieBot) (fuel : nat)
    (event : Event) (channel thread_ts : string) (c : pyval) (st st' : State) :
  str_truthy (ev_bot_id event) = false ->
  ev_channel event = Some channel ->
  event_thread event = Some thread_ts ->
  strip (event_question event) <> "" ->
  thread_conversations st !! thread_ts = Some c ->
  (forall cid mid,
     extract_ids
       (session (genie self) (requests st ++ [send_request (event_question event) c])) c
     = Ok (cid, mid) ->
     cid = c) ->
  _handle_question self fuel event st = (Ok tt, st') ->
  thread_conversations st' = thread_conversations st.
Proof.
  intros Hbot Hchannel Hthread Htext Hbound Hsame H.
  destruct (handle_question_inv _ _ _ _ _ _ _ Hbot Hchannel Hthread Htext H)
    as (result & st1 & result_cid & Hask & Hcid & Hreply).
  rewrite Hbound in Hask. cbn [default from_option id] in Hask.
  pose proof (ask_keeps thread_conversations (fun _ _ _ => eq_refl) _ _ _ _ _ _ _ Hask)
    as Hframe.
  cbn [thread_conversations posted] in Hframe.
  assert (result_cid = c) as ->.
  { apply ask_conversation_id in Hask as [Hc | (cid & mid & Hids & Hc)].
    - congruence.
    - cbn [requests posted] in Hids. apply Hsame in Hids. congruence. }
  unfold reply_steps in Hreply. apply reply_keeps_threads in Hreply.
  rewrite Hreply. unfold bind_thread.
  destruct (truthy c); cbn [thread_conversations]; [|done].
  rewrite Hframe. by apply insert_id.
Qed.

Lemma handle_question_same_conversation_witness :
  let st1 := snd (_handle_question steady_bot 10 first_question st0) in
  let st2 := snd (_handle_question steady_bot 10 follow_up st1) in
  thread_conversations st1 !! "1700000000.000100" = Some (VStr "c1")
  /\ thread_conversations st2 = thread_conversations st1.
Proof.
  intros st1 st2. split; [vm_compute; reflexivity|].
  apply (handle_question_same_conversation steady_bot 10 follow_up "C1"
           "1700000000.000100" (VStr "c1") st1 st2).
  - reflexivity.
  - reflexivity.
  - reflexivity.
  - vm_compute. discriminate.
  - vm_compute. reflexivity.
  - intros cid mid E. vm_compute in E. by injection E as <- _.
  - vm_compute. reflexivity.
Defined.

(** ** Aligned lines *)

Lemma length_join_cons (sep x : string) (l : list string) :
  String.length (join sep (x :: l))
  = (String.length x
     + sum_list (map (fun y => String.length sep + String.length y) l))%nat.
Proof.
  revert x. induction l as [|y l IH]; intros x.
  - cbn. lia.
  - change (join sep (x :: y :: l)) with (x +:+ sep +:+ join sep (y :: l)).
    rewrite !length_append, IH. cbn [map sum_list_with id]. lia.
Qed.

Lemma length_join (sep : string) (l : list string) :
  String.length (join sep l)
  = (sum_list (map String.length l) + String.length sep * (length l - 1))%nat.
Proof.
  destruct l as [|x l]; [cbn; lia|].
  rewrite length_join_cons. cbn [map sum_list_with id length].
  replace (S (length l) - 1)%nat with (length l) by lia.
  induction l as [|y l IH]; cbn [map sum_list_with id length]; nia.
Qed.

Lemma cells_length (ws : list nat) : forall vals,
  map String.length (zip_with fmt_cell vals ws) = take (length vals) ws.
Proof.
  induction ws as [|w ws IH]; intros [|v vals]; cbn; try done.
  by rewrite length_fmt_cell, IH.
Qed.

(** A formatted row spans the columns it has values for. *)
Lemma fmt_row_length (ws : list nat) (vals : list pyval) :
  String.length (fmt_row ws vals) = line_width ws (length vals).
Proof.
  unfold fmt_row, line_width. rewrite length_join, cells_length.
  by rewrite length_zip_with.
Qed.

Lemma separator_length (ws : list nat) :
  String.length (join "-+-" (map (str_repeat "-") ws)) = line_width ws (length ws).
Proof.
  unfold line_width. rewrite length_join, length_map, firstn_all, Nat.min_id.
  f_equal. f_equal. induction ws as [|w ws IH]; cbn; [done|].
  by rewrite length_str_repeat, IH.
Qed.

(** The lines of a returned table are aligned: the header and the separator
    span all columns, and the line of a displayed row spans the columns the
    row has values for, so a row with one value per column is exactly as
    long as the header. *)
Theorem format_query_result_aligned (result_data columns_meta : pyval)
    (rows : list pyval) (max_rows : Z) (out : string) :
  0 <= max_rows ->
  qr_columns result_data = Ok columns_meta ->
  qr_rows result_data = Ok (VList rows) ->
  _format_query_result result_data max_rows = Ok (Some out) ->
  exists widths lines footer,
    table_layout columns_meta (VList rows) max_rows = Ok (widths, lines)
    /\ out = render lines footer
    /\ (forall line, line ∈ take 2 lines ->
          String.length line = line_width widths (length widths))
    /\ (forall i row vals line,
          rows !! i = Some row ->
          py_iter row = Ok vals ->
          lines !! (2 + i)%nat = Some line ->
          String.length line = line_width widths (length vals)).
Proof.
  intros Hmax Hc Hr H.
  destruct (format_query_result_inv _ _ _ _ _ Hmax Hc Hr H)
    as (widths & lines & n & total & more & Hlayout & _ & _ & _ & _ & _ & ->).
  destruct (table_layout_inv _ _ _ _ _ Hmax Hlayout)
    as (columns & names & display & _ & _ & Hit & Hlen & _ & -> & _).
  eexists widths, _, (if more then showing max_rows total else "").
  split; [exact Hlayout|]. split; [reflexivity|]. split.
  - cbn [take]. intros line Hline.
    apply elem_of_cons in Hline as [->|Hline].
    + by rewrite fmt_row_length, Hlen.
    + apply elem_of_cons in Hline as [->|Hline]; [apply separator_length|].
      by apply elem_of_nil in Hline.
  - intros i row vals line Hrow Hvals Hline.
    change ((fmt_row widths names :: join "-+-" (map (str_repeat "-") widths)
             :: map (fmt_row widths) display) !! (2 + i)%nat)
      with (map (fmt_row widths) display !! i) in Hline.
    rewrite lookup_map in Hline.
    destruct (display !! i) as [vals'|] eqn:Hd; [|discriminate].
    cbn in Hline. simplify_eq.
    destruct (Forall2_lookup_r _ _ _ _ _ Hit Hd) as (row' & Hrow' & Hiter).
    apply lookup_take_Some in Hrow' as [Hrow' _].
    rewrite Hrow in Hrow'. simplify_eq. rewrite Hvals in Hiter. simplify_eq.
    apply fmt_row_length.
Qed.

Lemma format_query_result_aligned_witness :
  let qr := query_result ["city"; "n"]
              [[VStr "Paris"; VInt 5]; [VStr "Rome"]] in
  let rows := [VList [VStr "Paris"; VInt 5]; VList [VStr "Rome"]] in
  exists out,
    _format_query_result qr 15 = Ok (Some out)
    /\ exists widths lines footer,
         table_layout (VList [VDict [("name", VStr "city")]; VDict [("name", VStr "n")]])
           (VList rows) 15 = Ok (widths, lines)
         /\ out = render lines footer
         /\ (forall line, line ∈ take 2 lines ->
               String.length line = line_width widths (length widths))
         /\ (forall i row vals line,
               rows !! i = Some row ->
               py_iter row = Ok vals ->
               lines !! (2 + i)%nat = Some line ->
               String.length line = line_width widths (length vals)).
Proof.
  intros qr rows. eexists. split; [vm_compute; reflexivity|].
  apply (format_query_result_aligned qr
           (VList [VDict [("name", VStr "city")]; VDict [("name", VStr "n")]])
           rows 15); [lia | reflexivity | reflexivity | reflexivity].
Defined.

(** ** The messages of one question *)

Lemma lift_ok {A} (r : res A) (st st' : State) (a : A) :
  lift r st = (Ok a, st') -> r = Ok a /\ st' = st.
Proof. unfold lift. intros H. by simplify_eq. Qed.

Lemma say_ok (self : SlackGenieBot) (text : pyval) (thread_ts : string)
    (st st' : State) (u : unit) :
  say self text thread_ts st = (Ok u, st') -> st' = posted st (Say text thread_ts).
Proof.
  unfold say, bind. rewrite slack_call_posted.
  destruct (client self _); [|discriminate]. unfold ret. intros H. by simplify_eq.
Qed.

Lemma getitem_get (v : pyval) (k : string) (d x y : pyval) :
  py_get v k d = Ok x -> py_getitem v k = Ok y -> y = x.
Proof.
  destruct v; try discriminate. cbn.
  destruct (dict_get kv k); [|discriminate]. cbn. congruence.
Qed.

(** The Slack calls of the second half of the handler. *)
Lemma reply_steps_calls (self : SlackGenieBot) (channel thread_ts : string)
    (result result_cid : pyval) (st st' : State) :
  py_get result "conversation_id" VNone = Ok result_cid ->
  reply_steps self channel thread_ts result result_cid (truthy result_cid) st
  = (Ok tt, st') ->
  exists answer,
    _format_answer result = Ok answer
    /\ slack_calls st'
       = slack_calls st ++ [Say answer thread_ts]
         ++ table_calls result thread_ts ++ prompt_calls result channel thread_ts.
Proof.
  intros Hcid H. unfold reply_steps in H.
  apply bind_ok in H as (answer & s1 & H1 & H).
  apply lift_ok in H1 as [Hanswer ->].
  exists answer. split; [done|].
  apply bind_ok in H as ([] & s2 & H2 & H). apply say_ok in H2 as ->.
  apply bind_ok in H as (data & s3 & H3 & H). apply lift_ok in H3 as [Hdata ->].
  apply bind_ok in H as ([] & s4 & H4 & H).
  assert (Htable : slack_calls s4
                   = slack_calls st ++ [Say answer thread_ts]
                     ++ table_calls result thread_ts).
  { unfold table_calls. rewrite Hdata.
    destruct (truthy data); cbn [when] in H4.
    - apply bind_ok in H4 as (data' & s & Ha & H4). apply lift_ok in Ha as [Hitem ->].
      rewrite (getitem_get _ _ _ _ _ Hdata Hitem) in H4.
      apply bind_ok in H4 as (table_msg & s & Ha & H4). apply lift_ok in Ha as [Hfmt ->].
      rewrite Hfmt. destruct table_msg as [table|]; cbn [str_truthy] in H4.
      + destruct (String.eqb table ""); cbn [negb when] in H4.
        * unfold ret in H4. simplify_eq. cbn [slack_calls posted].
          by rewrite app_nil_r.
        * apply say_ok in H4 as ->. cbn [slack_calls posted default from_option id].
          by rewrite <- app_assoc.
      + cbn [when] in H4. unfold ret in H4. simplify_eq. cbn [slack_calls posted].
        by rewrite app_nil_r.
    - unfold ret in H4. simplify_eq. cbn [slack_calls posted]. by rewrite app_nil_r. }
  clear H4.
  apply bind_ok in H as (success & s5 & H5 & H). apply lift_ok in H5 as [Hsuccess ->].
  apply bind_ok in H as (message_id & s6 & H6 & H). apply lift_ok in H6 as [Hmid ->].
  unfold prompt_calls. rewrite Hsuccess, Hcid, Hmid.
  destruct (truthy success && truthy result_cid && truthy message_id); cbn [when] in H.
  - apply bind_ok in H as (fb_resp & s7 & H7 & H).
    rewrite send_feedback_buttons_eq in H7. simplify_eq.
    assert (slack_calls st'
            = slack_calls s4
              ++ [ChatPostMessage channel "Was this response helpful?" thread_ts true])
      as ->.
    { destruct (client self _); [unfold set_feedback in H | unfold ret in H];
        by simplify_eq. }
    rewrite Htable. by rewrite <- !app_assoc.
  - unfold ret in H. simplify_eq. rewrite Htable. by rewrite app_nil_r.
Qed.

(** The messages of one handled question, in order: the placeholder, then
    exactly one answer, then the table when the answer has result data that
    formats to a text, then the feedback prompt when the answer is a success
    with both ids; nothing else is posted. *)
Theorem handle_question_calls (self : SlackGenieBot) (fuel : nat) (event : Event)
    (channel thread_ts : string) (st st' : State) :
  str_truthy (ev_bot_id event) = false ->
  ev_channel event = Some channel ->
  event_thread event = Some thread_ts ->
  strip (event_question event) <> "" ->
  _handle_question self fuel event st = (Ok tt, st') ->
  exists result st1 answer,
    ask (genie self) fuel (event_question event)
      (default VNone (thread_conversations st !! thread_ts))
      (posted st (ChatPostMessage channel "Thinking..." thread_ts false))
    = (Ok result, st1)
    /\ _format_answer result = Ok answer
    /\ slack_calls st'
       = slack_calls st
         ++ [ChatPostMessage channel "Thinking..." thread_ts false;
             Say answer thread_ts]
         ++ table_calls result thread_ts ++ prompt_calls result channel thread_ts.
Proof.
  intros Hbot Hchannel Hthread Htext H.
  destruct (handle_question_inv _ _ _ _ _ _ _ Hbot Hchannel Hthread Htext H)
    as (result & st1 & result_cid & Hask & Hcid & Hreply).
  destruct (reply_steps_calls _ _ _ _ _ _ _ Hcid Hreply) as (answer & Hanswer & Hcalls).
  exists result, st1, answer. split; [done|]. split; [done|].
  rewrite Hcalls.
  assert (slack_calls (bind_thread st1 thread_ts result_cid) = slack_calls st1) as ->.
  { unfold bind_thread. by destruct (truthy result_cid). }
  rewrite (ask_keeps slack_calls (fun _ _ _ => eq_refl) _ _ _ _ _ _ _ Hask).
  cbn [slack_calls posted]. by rewrite <- app_assoc.
Qed.

Lemma handle_question_calls_witness :
  let st' := snd (_handle_question drifting_bot 10 first_question st0) in
  exists result st1 answer,
    ask (genie drifting_bot) 10 (event_question first_question)
      (default VNone (thread_conversations st0 !! "1700000000.000100"))
      (posted st0 (ChatPostMessage "C1" "Thinking..." "1700000000.000100" false))
    = (Ok result, st1)
    /\ _format_answer result = Ok answer
    /\ slack_calls st'
       = slack_calls st0
         ++ [ChatPostMessage "C1" "Thinking..." "1700000000.000100" false;
             Say answer "1700000000.000100"]
         ++ table_calls result "1700000000.000100"
         ++ prompt_calls result "C1" "1700000000.000100".
Proof.
  intros st'.
  apply (handle_question_calls drifting_bot 10 first_question "C1"
           "1700000000.000100" st0 st').
  - reflexivity.
  - reflexivity.
  - reflexivity.
  - vm_compute. discriminate.
  - vm_compute. reflexivity.
Defined.
